(** * A research-writing aide: ingestion, review pipeline, bibliography,
      proofreading and similarity review of [src/index.tsx]

    The program is a browser client over a hosted generative service.  Its
    own code is bookkeeping over a handful of module-level variables and
    page elements.  The development below embeds that code as functions
    over an explicit application state: the module variables, the page
    elements the handlers read and write, and a record of what was sent to
    the outside (service calls, alerts, console lines).  What the browser
    and the service do (replies, [JSON.parse], [localeCompare], the HTML
    parser and serialiser) is an interface, [Host], the code is run
    against. *)

From Stdlib Require Import String Ascii List Arith PeanoNat ZArith Lia Bool.
From Stdlib Require Import DecimalString Sorting.Sorted Sorting.Permutation.
Import ListNotations.
Local Open Scope list_scope.
Local Open Scope string_scope.

Set Implicit Arguments.
Set Warnings "-register-all".

(** ** JavaScript strings

    A string value is a sequence of code units; they are modelled by
    [string], whose characters are the 8-bit units.  The functions below
    are the [String.prototype] methods the program calls. *)
Module JS.

(** [s.slice(0, n)] *)
Fixpoint take (n : nat) (s : string) : string :=
  match n, s with
  | S n', String c r => String c (take n' r)
  | _, _ => ""
  end.

(** [s.slice(n)] *)
Fixpoint drop (n : nat) (s : string) : string :=
  match n, s with
  | S n', String _ r => drop n' r
  | _, _ => s
  end.

(** [s.startsWith(p)] *)
Definition startsWith (s p : string) : bool := String.prefix p s.

(** [s.indexOf(p)], [None] standing for [-1]: the least position at
    which [p] occurs in [s]. *)
Fixpoint indexOf (s p : string) : option nat :=
  if startsWith s p then Some 0
  else match s with
       | "" => None
       | String _ r => option_map S (indexOf r p)
       end.

(** [s.includes(p)] *)
Definition includes (s p : string) : bool :=
  match indexOf s p with Some _ => true | None => false end.

(** [parts.join(sep)] on an array of strings *)
Definition join (sep : string) (parts : list string) : string :=
  String.concat sep parts.

(** [GetSubstitution] for a string pattern (no captures): in the
    replacement template [$$] stands for a dollar sign, [$&] for the
    matched text, [$`] for the text before the match and [$'] for the
    text after it; every other character, a lone [$] included, stands
    for itself. *)
Fixpoint GetSubstitution (matched before after template : string) : string :=
  match template with
  | "" => ""
  | String "$" (String "$" r) => "$" ++ GetSubstitution matched before after r
  | String "$" (String "&" r) => matched ++ GetSubstitution matched before after r
  | String "$" (String "`" r) => before ++ GetSubstitution matched before after r
  | String "$" (String "'" r) => after ++ GetSubstitution matched before after r
  | String c r => String c (GetSubstitution matched before after r)
  end.

(** [s.replace(p, template)] with a string pattern [p]: only the first
    occurrence is replaced. *)
Definition replace (s p template : string) : string :=
  match indexOf s p with
  | None => s
  | Some i =>
      let before := take i s in
      let after := drop (i + String.length p) s in
      before ++ GetSubstitution p before after template ++ after
  end.

(** [s.replace(/\n/g, to)] for a replacement [to] without [$]: every
    line feed is replaced. *)
Fixpoint replaceNewlines (s to : string) : string :=
  match s with
  | "" => ""
  | String c r =>
      if Ascii.eqb c "010" then to ++ replaceNewlines r to
      else String c (replaceNewlines r to)
  end.

(** White space and line terminators among the 8-bit units: TAB, LF, VT,
    FF, CR, SP and NBSP. *)
Definition isWhiteSpace (c : ascii) : bool :=
  let n := nat_of_ascii c in
  ((9 <=? n)%nat && (n <=? 13)%nat) || (n =? 32)%nat || (n =? 160)%nat.

Fixpoint trimStart (s : string) : string :=
  match s with
  | "" => ""
  | String c r => if isWhiteSpace c then trimStart r else s
  end.

Fixpoint trimEnd (s : string) : string :=
  match s with
  | "" => ""
  | String c r =>
      match trimEnd r with
      | "" => if isWhiteSpace c then "" else String c ""
      | r' => String c r'
      end
  end.

(** [s.trim()] *)
Definition trim (s : string) : string := trimEnd (trimStart s).

(** A string used as a condition: only the empty string is falsy. *)
Definition truthy (s : string) : bool :=
  match s with "" => false | _ => true end.

(** [a || b] on strings *)
Definition or_else (a b : string) : string := if truthy a then a else b.

(** [String(n)] for a non-negative integer below 10^21 *)
Definition ofNat (n : nat) : string :=
  NilEmpty.string_of_uint (Nat.to_uint n).

(** Canonicalisation of a code unit under the [i] flag: the ASCII
    lower-case letters go to upper case; no unit from 128 on is
    identified with an ASCII one. *)
Definition canonicalize (c : ascii) : ascii :=
  let n := nat_of_ascii c in
  if ((97 <=? n)%nat && (n <=? 122)%nat)%bool then ascii_of_nat (n - 32) else c.

Fixpoint eqb_ci (a b : string) : bool :=
  match a, b with
  | "", "" => true
  | String x a', String y b' =>
      Ascii.eqb (canonicalize x) (canonicalize y) && eqb_ci a' b'
  | _, _ => false
  end.

(** The text from position [length s - n] on, when [s] is that long. *)
Definition suffix (n : nat) (s : string) : option string :=
  if (n <=? String.length s)%nat then Some (drop (String.length s - n) s) else None.

Definition endsWith_ci (s ext : string) : bool :=
  match suffix (String.length ext) s with
  | Some t => eqb_ci t ext
  | None => false
  end.

(** [s.replace(/\.(txt|pdf|md)$/i, '')]: the pattern is anchored at
    the end of the input, so the only candidate matches are the last
    four units ([.txt], [.pdf]) and the last three ([.md]); the
    leftmost one is taken. *)
Definition stripExtension (s : string) : string :=
  if endsWith_ci s ".txt" || endsWith_ci s ".pdf"
  then take (String.length s - 4) s
  else if endsWith_ci s ".md" then take (String.length s - 3) s
  else s.

End JS.

(** ** Data of the program *)

(** A value as [JSON.parse] gives it, or [undefined], which a read of a
    property that is not there gives.  The program converts such values
    to strings and calls methods on them, nothing else; so a number is
    kept as the text it converts to, and of an object only that it is one.
    An object with a [toString] entry of its own, whose conversion to a
    string throws, is outside the model. *)
Inductive value :=
| Undefined
| Null
| Boolean (b : bool)
| Number (shown : string)
| Str (s : string)
| Array (items : list value)
| Object.

(** [ToString]: what a value reads as in a template literal.  An array is
    its elements joined by commas, [null] and [undefined] among them
    reading as nothing. *)
Fixpoint toString (v : value) : string :=
  match v with
  | Undefined => "undefined"
  | Null => "null"
  | Boolean true => "true"
  | Boolean false => "false"
  | Number shown => shown
  | Str s => s
  | Array items =>
      JS.join "," (map (fun item => match item with
                                   | Undefined | Null => ""
                                   | _ => toString item
                                   end) items)
  | Object => "[object Object]"
  end.

(** [interface KnowledgeSource]: an ingested document.  The four
    properties taken from the extraction answer are stored as they were
    read, whatever they are. *)
Record KnowledgeSource := {
  fileName : string;
  author : value;
  year : value;
  summary : value;
  entities : value;
  fullText : string
}.

(** [interface Suggestion]: one proofreading suggestion. *)
Record Suggestion := {
  category : string;
  issue : string;
  suggestion : string;
  explanation : string
}.

(** What [analyzeAndStoreDocument] reads of the parsed extraction
    answer: its properties [author], [year], [summary] and [entities],
    [Undefined] where it has none. *)
Record Extraction := {
  ex_author : value;
  ex_year : value;
  ex_summary : value;
  ex_entities : value
}.

(** The object the outline call answers with. *)
Record Outline := {
  introduction : string;
  themes : list string;
  conclusion : string
}.

(** One element of the array the similarity call answers with. *)
Record SimilarityResult := {
  original_sentence : string;
  similar_passage_from_source : string;
  source_filename : string;
  rewritten_suggestion : string
}.

(** A chat session, created from a system instruction. *)
Record Chat := { systemInstruction : string }.

(** A button of the version list: its text, the number its [data-index]
    holds in decimal, and whether its class list holds [active]. *)
Record VersionButton := {
  label : string;
  dataIndex : nat;
  active : bool
}.

(** The suggestions panel holds a placeholder line or a card for each
    pending suggestion. *)
Inductive Panel :=
| Placeholder (message : string)
| Cards (shown : list Suggestion).

(** The tooltip of a highlighted region: the two quoted texts, read from
    the region's [dataset] (a missing entry reads [undefined]), and
    whether it carries [hidden]. *)
Record Tooltip := {
  tip_original : option string;
  tip_suggestion : option string;
  tip_hidden : bool
}.

(** ** The document tree under the editor

    A node is a text node or an element.  An element is an object: two
    variables may refer to the same one, and a variable may keep referring
    to one that left the tree.  [id] is that identity. *)
Inductive node :=
| Text (data : string)
| Element (id : nat) (tagName : string) (classList : list string)
          (dataset : list (string * string)) (childNodes : list node).

Module DOM.

(** [node.textContent] *)
Fixpoint textContent (n : node) : string :=
  match n with
  | Text d => d
  | Element _ _ _ _ cs => String.concat "" (map textContent cs)
  end.

Definition textContents (ns : list node) : string :=
  String.concat "" (map textContent ns).

(** The text nodes below, in document order: what a [TreeWalker] with
    [NodeFilter.SHOW_TEXT] visits. *)
Fixpoint textNodes (n : node) : list string :=
  match n with
  | Text d => [d]
  | Element _ _ _ _ cs => flat_map textNodes cs
  end.

(** [el.classList.contains(c)] *)
Definition hasClass (c : string) (n : node) : bool :=
  match n with
  | Text _ => false
  | Element _ _ cl _ _ => existsb (String.eqb c) cl
  end.

(** [el.dataset.k], [None] standing for [undefined] *)
Fixpoint lookup (k : string) (d : list (string * string)) : option string :=
  match d with
  | [] => None
  | (k', v) :: r => if String.eqb k k' then Some v else lookup k r
  end.

Definition datasetOf (n : node) : list (string * string) :=
  match n with Text _ => [] | Element _ _ _ d _ => d end.

(** The elements with class [c], the node itself included, in document
    order. *)
Fixpoint withClass (c : string) (n : node) : list node :=
  match n with
  | Text _ => []
  | Element _ _ _ _ cs =>
      ((if hasClass c n then [n] else []) ++ flat_map (withClass c) cs)%list
  end.

(** [root.querySelectorAll('.' + c)] on the children of the root *)
Definition querySelectorAll (c : string) (ns : list node) : list node :=
  flat_map (withClass c) ns.

(** The identities of the elements of a tree, in document order. *)
Fixpoint ids (n : node) : list nat :=
  match n with
  | Text _ => []
  | Element i _ _ _ cs => i :: flat_map ids cs
  end.

(** The element with identity [i], when it is in the tree. *)
Fixpoint find (i : nat) (n : node) : option node :=
  match n with
  | Text _ => None
  | Element j _ _ _ cs =>
      if Nat.eqb i j then Some n
      else (fix go (l : list node) : option node :=
              match l with
              | [] => None
              | c :: r => match find i c with
                          | Some e => Some e
                          | None => go r
                          end
              end) cs
  end.

Fixpoint findIn (i : nat) (ns : list node) : option node :=
  match ns with
  | [] => None
  | c :: r => match find i c with Some e => Some e | None => findIn i r end
  end.

(** [el.replaceWith(new)] seen from the tree [n], for the element [el]
    of identity [i]: an element that is not in the tree has no parent
    there and the tree is left as it is. *)
Fixpoint replaceWith (i : nat) (new : node) (n : node) : node :=
  match n with
  | Text _ => n
  | Element j t cl d cs =>
      if Nat.eqb i j then new
      else Element j t cl d (map (replaceWith i new) cs)
  end.

(** Adjacent text nodes are merged and empty ones removed. *)
Fixpoint mergeText (ns : list node) : list node :=
  match ns with
  | [] => []
  | Text d :: r =>
      match mergeText r with
      | Text d' :: r' => Text (d ++ d') :: r'
      | r' => if JS.truthy d then Text d :: r' else r'
      end
  | e :: r => e :: mergeText r
  end.

(** [node.normalize()] *)
Fixpoint normalize (n : node) : node :=
  match n with
  | Text d => Text d
  | Element j t cl d cs => Element j t cl d (mergeText (map normalize cs))
  end.

Definition normalizeChildren (ns : list node) : list node :=
  mergeText (map normalize ns).

(** The region [highlightText] builds around the found text:
    [createElement('span')] with its class and its two data entries;
    [surroundContents] moves the text of the range into it (nothing when
    the range is collapsed). *)
Definition highlightSpan (i : nat) (textToFind original suggestion : string) : node :=
  Element i "span" ["similarity-highlight"]
    [("original", original); ("suggestion", suggestion)]
    (if JS.truthy textToFind then [Text textToFind] else []).

(** The walk of [highlightText] below one node: [Some] of what takes the
    node's place when the text was found in a text node of it, [None]
    when the walk went through without finding it.  The text node is
    split at both ends of the range and the region put in between. *)
Fixpoint wrapFirst (i : nat) (textToFind original suggestion : string)
         (n : node) : option (list node) :=
  match n with
  | Text d =>
      match JS.indexOf d textToFind with
      | Some index =>
          Some [Text (JS.take index d);
                highlightSpan i textToFind original suggestion;
                Text (JS.drop (index + String.length textToFind) d)]
      | None => None
      end
  | Element j t cl ds cs =>
      option_map (fun cs' => [Element j t cl ds cs'])
        ((fix go (l : list node) : option (list node) :=
            match l with
            | [] => None
            | c :: r =>
                match wrapFirst i textToFind original suggestion c with
                | Some c' => Some (c' ++ r)%list
                | None => option_map (cons c) (go r)
                end
            end) cs)
  end.

Fixpoint wrapFirstIn (i : nat) (textToFind original suggestion : string)
         (ns : list node) : option (list node) :=
  match ns with
  | [] => None
  | c :: r =>
      match wrapFirst i textToFind original suggestion c with
      | Some c' => Some (c' ++ r)%list
      | None => option_map (cons c) (wrapFirstIn i textToFind original suggestion r)
      end
  end.

(** Nodes that come out of the HTML parser are new objects: their
    elements are given the identities from [k] on, in document order.
    The result is the tree and the next unused identity. *)
Fixpoint adopt (n : node) (k : nat) : node * nat :=
  match n with
  | Text d => (Text d, k)
  | Element _ t cl ds cs =>
      let (cs', k') :=
        (fix go (l : list node) (k : nat) : list node * nat :=
           match l with
           | [] => ([], k)
           | c :: r =>
               let (c', k1) := adopt c k in
               let (r', k2) := go r k1 in
               (c' :: r', k2)
           end) cs (S k) in
      (Element k t cl ds cs', k')
  end.

Fixpoint adoptAll (ns : list node) (k : nat) : list node * nat :=
  match ns with
  | [] => ([], k)
  | c :: r =>
      let (c', k1) := adopt c k in
      let (r', k2) := adoptAll r k1 in
      (c' :: r', k2)
  end.

(** The text nodes, the text and the identities below the children of a
    root, in document order. *)
Definition textNodesOf (ns : list node) : list string := flat_map textNodes ns.

Definition idsOf (ns : list node) : list nat := flat_map ids ns.

(** The text that stands before and after the element of identity [i]
    in document order, when the element is in the tree. *)
Fixpoint around (i : nat) (n : node) : option (string * string) :=
  match n with
  | Text _ => None
  | Element j _ _ _ cs =>
      if Nat.eqb i j then Some ("", "")
      else (fix go (l : list node) : option (string * string) :=
              match l with
              | [] => None
              | c :: r =>
                  match around i c with
                  | Some (b, e) => Some (b, e ++ textContents r)
                  | None =>
                      match go r with
                      | Some (b, e) => Some (textContent c ++ b, e)
                      | None => None
                      end
                  end
              end) cs
  end.

Fixpoint aroundIn (i : nat) (ns : list node) : option (string * string) :=
  match ns with
  | [] => None
  | c :: r =>
      match around i c with
      | Some (b, e) => Some (b, e ++ textContents r)
      | None =>
          match aroundIn i r with
          | Some (b, e) => Some (textContent c ++ b, e)
          | None => None
          end
      end
  end.

End DOM.

(** ** The application state

    The module-level variables, the page elements the handlers touch, and
    what has gone out so far. *)
Record App := {
  isLoading : bool; (* [isLoading] *)
  knowledgeSources : list KnowledgeSource; (* [knowledgeSources] *)
  currentFileName : string; (* [currentFileName] *)
  draftHistory : list string; (* [draftHistory] *)
  chat : option Chat; (* [chat] *)
  analysisSuggestions : list Suggestion; (* [analysisSuggestions] *)
  activeSimilarityHighlight : option nat; (* [activeSimilarityHighlight], a reference to an element *)
  loaderText : string; (* [loaderText.textContent] *)
  articleInput : string; (* [articleInput.value] *)
  fileInput : string; (* [fileInput.value] *)
  fileNameDisplay : string; (* [fileNameDisplay.textContent] *)
  sectionsHidden : bool; (* the knowledge base, review and Q&A sections carry [hidden] *)
  knowledgeList : list KnowledgeSource; (* the cards of [knowledgeList], one per source shown *)
  reviewTopicInput : string; (* [reviewTopicInput.value] *)
  reviewLength : string; (* value of the checked [review-length] radio *)
  reviewGenerationProgressHidden : bool; (* [reviewGenerationProgress] carries [hidden] *)
  reviewProgressLog : string; (* [reviewProgressLog.innerHTML] *)
  reviewDraftOutput : string; (* [reviewDraftOutput.innerHTML] *)
  draftVersionControls : list VersionButton; (* children of [draftVersionControls] *)
  writingAssistantHidden : bool; (* [writingAssistantSection] carries [hidden] *)
  writingEditor : list node; (* child nodes of [writingEditor] *)
  suggestionsPanel : Panel; (* content of [suggestionsPanel] *)
  referencesHidden : bool; (* [referencesContainer] carries [hidden] *)
  referencesList : list string; (* [textContent] of the children of [referencesList] *)
  tooltip : option Tooltip; (* the [similarity-tooltip] element, once created *)
  nextId : nat; (* identity given to the next element created *)
  calls : list string; (* prompts sent to [ai.models.generateContent], oldest first *)
  alerts : list string; (* messages shown with [alert], oldest first *)
  console : list string (* lines written with [console.warn] and [console.error] *)
}.

(** The assignments to the parts of the state: [set_x v a] is [a] with
    [x] set to [v]. *)
Definition set_isLoading (v : bool) (a : App) : App :=
  Build_App v (knowledgeSources a) (currentFileName a) (draftHistory a)
    (chat a) (analysisSuggestions a) (activeSimilarityHighlight a)
    (loaderText a) (articleInput a) (fileInput a) (fileNameDisplay a)
    (sectionsHidden a) (knowledgeList a) (reviewTopicInput a)
    (reviewLength a) (reviewGenerationProgressHidden a)
    (reviewProgressLog a) (reviewDraftOutput a) (draftVersionControls a)
    (writingAssistantHidden a) (writingEditor a) (suggestionsPanel a)
    (referencesHidden a) (referencesList a) (tooltip a) (nextId a) (calls a)
    (alerts a) (console a).

Definition set_knowledgeSources (v : list KnowledgeSource) (a : App) : App :=
  Build_App (isLoading a) v (currentFileName a) (draftHistory a) (chat a)
    (analysisSuggestions a) (activeSimilarityHighlight a) (loaderText a)
    (articleInput a) (fileInput a) (fileNameDisplay a) (sectionsHidden a)
    (knowledgeList a) (reviewTopicInput a) (reviewLength a)
    (reviewGenerationProgressHidden a) (reviewProgressLog a)
    (reviewDraftOutput a) (draftVersionControls a)
    (writingAssistantHidden a) (writingEditor a) (suggestionsPanel a)
    (referencesHidden a) (referencesList a) (tooltip a) (nextId a) (calls a)
    (alerts a) (console a).

Definition set_currentFileName (v : string) (a : App) : App :=
  Build_App (isLoading a) (knowledgeSources a) v (draftHistory a) (chat a)
    (analysisSuggestions a) (activeSimilarityHighlight a) (loaderText a)
    (articleInput a) (fileInput a) (fileNameDisplay a) (sectionsHidden a)
    (knowledgeList a) (reviewTopicInput a) (reviewLength a)
    (reviewGenerationProgressHidden a) (reviewProgressLog a)
    (reviewDraftOutput a) (draftVersionControls a)
    (writingAssistantHidden a) (writingEditor a) (suggestionsPanel a)
    (referencesHidden a) (referencesList a) (tooltip a) (nextId a) (calls a)
    (alerts a) (console a).

Definition set_draftHistory (v : list string) (a : App) : App :=
  Build_App (isLoading a) (knowledgeSources a) (currentFileName a) v
    (chat a) (analysisSuggestions a) (activeSimilarityHighlight a)
    (loaderText a) (articleInput a) (fileInput a) (fileNameDisplay a)
    (sectionsHidden a) (knowledgeList a) (reviewTopicInput a)
    (reviewLength a) (reviewGenerationProgressHidden a)
    (reviewProgressLog a) (reviewDraftOutput a) (draftVersionControls a)
    (writingAssistantHidden a) (writingEditor a) (suggestionsPanel a)
    (referencesHidden a) (referencesList a) (tooltip a) (nextId a) (calls a)
    (alerts a) (console a).

Definition set_chat (v : option Chat) (a : App) : App :=
  Build_App (isLoading a) (knowledgeSources a) (currentFileName a)
    (draftHistory a) v (analysisSuggestions a) (activeSimilarityHighlight a)
    (loaderText a) (articleInput a) (fileInput a) (fileNameDisplay a)
    (sectionsHidden a) (knowledgeList a) (reviewTopicInput a)
    (reviewLength a) (reviewGenerationProgressHidden a)
    (reviewProgressLog a) (reviewDraftOutput a) (draftVersionControls a)
    (writingAssistantHidden a) (writingEditor a) (suggestionsPanel a)
    (referencesHidden a) (referencesList a) (tooltip a) (nextId a) (calls a)
    (alerts a) (console a).

Definition set_analysisSuggestions (v : list Suggestion) (a : App) : App :=
  Build_App (isLoading a) (knowledgeSources a) (currentFileName a)
    (draftHistory a) (chat a) v (activeSimilarityHighlight a) (loaderText a)
    (articleInput a) (fileInput a) (fileNameDisplay a) (sectionsHidden a)
    (knowledgeList a) (reviewTopicInput a) (reviewLength a)
    (reviewGenerationProgressHidden a) (reviewProgressLog a)
    (reviewDraftOutput a) (draftVersionControls a)
    (writingAssistantHidden a) (writingEditor a) (suggestionsPanel a)
    (referencesHidden a) (referencesList a) (tooltip a) (nextId a) (calls a)
    (alerts a) (console a).

Definition set_activeSimilarityHighlight (v : option nat) (a : App) : App :=
  Build_App (isLoading a) (knowledgeSources a) (currentFileName a)
    (draftHistory a) (chat a) (analysisSuggestions a) v (loaderText a)
    (articleInput a) (fileInput a) (fileNameDisplay a) (sectionsHidden a)
    (knowledgeList a) (reviewTopicInput a) (reviewLength a)
    (reviewGenerationProgressHidden a) (reviewProgressLog a)
    (reviewDraftOutput a) (draftVersionControls a)
    (writingAssistantHidden a) (writingEditor a) (suggestionsPanel a)
    (referencesHidden a) (referencesList a) (tooltip a) (nextId a) (calls a)
    (alerts a) (console a).

Definition set_loaderText (v : string) (a : App) : App :=
  Build_App (isLoading a) (knowledgeSources a) (currentFileName a)
    (draftHistory a) (chat a) (analysisSuggestions a)
    (activeSimilarityHighlight a) v (articleInput a) (fileInput a)
    (fileNameDisplay a) (sectionsHidden a) (knowledgeList a)
    (reviewTopicInput a) (reviewLength a) (reviewGenerationProgressHidden a)
    (reviewProgressLog a) (reviewDraftOutput a) (draftVersionControls a)
    (writingAssistantHidden a) (writingEditor a) (suggestionsPanel a)
    (referencesHidden a) (referencesList a) (tooltip a) (nextId a) (calls a)
    (alerts a) (console a).

Definition set_articleInput (v : string) (a : App) : App :=
  Build_App (isLoading a) (knowledgeSources a) (currentFileName a)
    (draftHistory a) (chat a) (analysisSuggestions a)
    (activeSimilarityHighlight a) (loaderText a) v (fileInput a)
    (fileNameDisplay a) (sectionsHidden a) (knowledgeList a)
    (reviewTopicInput a) (reviewLength a) (reviewGenerationProgressHidden a)
    (reviewProgressLog a) (reviewDraftOutput a) (draftVersionControls a)
    (writingAssistantHidden a) (writingEditor a) (suggestionsPanel a)
    (referencesHidden a) (referencesList a) (tooltip a) (nextId a) (calls a)
    (alerts a) (console a).

Definition set_fileInput (v : string) (a : App) : App :=
  Build_App (isLoading a) (knowledgeSources a) (currentFileName a)
    (draftHistory a) (chat a) (analysisSuggestions a)
    (activeSimilarityHighlight a) (loaderText a) (articleInput a) v
    (fileNameDisplay a) (sectionsHidden a) (knowledgeList a)
    (reviewTopicInput a) (reviewLength a) (reviewGenerationProgressHidden a)
    (reviewProgressLog a) (reviewDraftOutput a) (draftVersionControls a)
    (writingAssistantHidden a) (writingEditor a) (suggestionsPanel a)
    (referencesHidden a) (referencesList a) (tooltip a) (nextId a) (calls a)
    (alerts a) (console a).

Definition set_fileNameDisplay (v : string) (a : App) : App :=
  Build_App (isLoading a) (knowledgeSources a) (currentFileName a)
    (draftHistory a) (chat a) (analysisSuggestions a)
    (activeSimilarityHighlight a) (loaderText a) (articleInput a)
    (fileInput a) v (sectionsHidden a) (knowledgeList a)
    (reviewTopicInput a) (reviewLength a) (reviewGenerationProgressHidden a)
    (reviewProgressLog a) (reviewDraftOutput a) (draftVersionControls a)
    (writingAssistantHidden a) (writingEditor a) (suggestionsPanel a)
    (referencesHidden a) (referencesList a) (tooltip a) (nextId a) (calls a)
    (alerts a) (console a).

Definition set_sectionsHidden (v : bool) (a : App) : App :=
  Build_App (isLoading a) (knowledgeSources a) (currentFileName a)
    (draftHistory a) (chat a) (analysisSuggestions a)
    (activeSimilarityHighlight a) (loaderText a) (articleInput a)
    (fileInput a) (fileNameDisplay a) v (knowledgeList a)
    (reviewTopicInput a) (reviewLength a) (reviewGenerationProgressHidden a)
    (reviewProgressLog a) (reviewDraftOutput a) (draftVersionControls a)
    (writingAssistantHidden a) (writingEditor a) (suggestionsPanel a)
    (referencesHidden a) (referencesList a) (tooltip a) (nextId a) (calls a)
    (alerts a) (console a).

Definition set_knowledgeList (v : list KnowledgeSource) (a : App) : App :=
  Build_App (isLoading a) (knowledgeSources a) (currentFileName a)
    (draftHistory a) (chat a) (analysisSuggestions a)
    (activeSimilarityHighlight a) (loaderText a) (articleInput a)
    (fileInput a) (fileNameDisplay a) (sectionsHidden a) v
    (reviewTopicInput a) (reviewLength a) (reviewGenerationProgressHidden a)
    (reviewProgressLog a) (reviewDraftOutput a) (draftVersionControls a)
    (writingAssistantHidden a) (writingEditor a) (suggestionsPanel a)
    (referencesHidden a) (referencesList a) (tooltip a) (nextId a) (calls a)
    (alerts a) (console a).

Definition set_reviewTopicInput (v : string) (a : App) : App :=
  Build_App (isLoading a) (knowledgeSources a) (currentFileName a)
    (draftHistory a) (chat a) (analysisSuggestions a)
    (activeSimilarityHighlight a) (loaderText a) (articleInput a)
    (fileInput a) (fileNameDisplay a) (sectionsHidden a) (knowledgeList a) v
    (reviewLength a) (reviewGenerationProgressHidden a)
    (reviewProgressLog a) (reviewDraftOutput a) (draftVersionControls a)
    (writingAssistantHidden a) (writingEditor a) (suggestionsPanel a)
    (referencesHidden a) (referencesList a) (tooltip a) (nextId a) (calls a)
    (alerts a) (console a).

Definition set_reviewLength (v : string) (a : App) : App :=
  Build_App (isLoading a) (knowledgeSources a) (currentFileName a)
    (draftHistory a) (chat a) (analysisSuggestions a)
    (activeSimilarityHighlight a) (loaderText a) (articleInput a)
    (fileInput a) (fileNameDisplay a) (sectionsHidden a) (knowledgeList a)
    (reviewTopicInput a) v (reviewGenerationProgressHidden a)
    (reviewProgressLog a) (reviewDraftOutput a) (draftVersionControls a)
    (writingAssistantHidden a) (writingEditor a) (suggestionsPanel a)
    (referencesHidden a) (referencesList a) (tooltip a) (nextId a) (calls a)
    (alerts a) (console a).

Definition set_reviewGenerationProgressHidden (v : bool) (a : App) : App :=
  Build_App (isLoading a) (knowledgeSources a) (currentFileName a)
    (draftHistory a) (chat a) (analysisSuggestions a)
    (activeSimilarityHighlight a) (loaderText a) (articleInput a)
    (fileInput a) (fileNameDisplay a) (sectionsHidden a) (knowledgeList a)
    (reviewTopicInput a) (reviewLength a) v (reviewProgressLog a)
    (reviewDraftOutput a) (draftVersionControls a)
    (writingAssistantHidden a) (writingEditor a) (suggestionsPanel a)
    (referencesHidden a) (referencesList a) (tooltip a) (nextId a) (calls a)
    (alerts a) (console a).

Definition set_reviewProgressLog (v : string) (a : App) : App :=
  Build_App (isLoading a) (knowledgeSources a) (currentFileName a)
    (draftHistory a) (chat a) (analysisSuggestions a)
    (activeSimilarityHighlight a) (loaderText a) (articleInput a)
    (fileInput a) (fileNameDisplay a) (sectionsHidden a) (knowledgeList a)
    (reviewTopicInput a) (reviewLength a) (reviewGenerationProgressHidden a)
    v (reviewDraftOutput a) (draftVersionControls a)
    (writingAssistantHidden a) (writingEditor a) (suggestionsPanel a)
    (referencesHidden a) (referencesList a) (tooltip a) (nextId a) (calls a)
    (alerts a) (console a).

Definition set_reviewDraftOutput (v : string) (a : App) : App :=
  Build_App (isLoading a) (knowledgeSources a) (currentFileName a)
    (draftHistory a) (chat a) (analysisSuggestions a)
    (activeSimilarityHighlight a) (loaderText a) (articleInput a)
    (fileInput a) (fileNameDisplay a) (sectionsHidden a) (knowledgeList a)
    (reviewTopicInput a) (reviewLength a) (reviewGenerationProgressHidden a)
    (reviewProgressLog a) v (draftVersionControls a)
    (writingAssistantHidden a) (writingEditor a) (suggestionsPanel a)
    (referencesHidden a) (referencesList a) (tooltip a) (nextId a) (calls a)
    (alerts a) (console a).

Definition set_draftVersionControls (v : list VersionButton) (a : App) : App :=
  Build_App (isLoading a) (knowledgeSources a) (currentFileName a)
    (draftHistory a) (chat a) (analysisSuggestions a)
    (activeSimilarityHighlight a) (loaderText a) (articleInput a)
    (fileInput a) (fileNameDisplay a) (sectionsHidden a) (knowledgeList a)
    (reviewTopicInput a) (reviewLength a) (reviewGenerationProgressHidden a)
    (reviewProgressLog a) (reviewDraftOutput a) v (writingAssistantHidden a)
    (writingEditor a) (suggestionsPanel a) (referencesHidden a)
    (referencesList a) (tooltip a) (nextId a) (calls a) (alerts a)
    (console a).

Definition set_writingAssistantHidden (v : bool) (a : App) : App :=
  Build_App (isLoading a) (knowledgeSources a) (currentFileName a)
    (draftHistory a) (chat a) (analysisSuggestions a)
    (activeSimilarityHighlight a) (loaderText a) (articleInput a)
    (fileInput a) (fileNameDisplay a) (sectionsHidden a) (knowledgeList a)
    (reviewTopicInput a) (reviewLength a) (reviewGenerationProgressHidden a)
    (reviewProgressLog a) (reviewDraftOutput a) (draftVersionControls a) v
    (writingEditor a) (suggestionsPanel a) (referencesHidden a)
    (referencesList a) (tooltip a) (nextId a) (calls a) (alerts a)
    (console a).

Definition set_writingEditor (v : list node) (a : App) : App :=
  Build_App (isLoading a) (knowledgeSources a) (currentFileName a)
    (draftHistory a) (chat a) (analysisSuggestions a)
    (activeSimilarityHighlight a) (loaderText a) (articleInput a)
    (fileInput a) (fileNameDisplay a) (sectionsHidden a) (knowledgeList a)
    (reviewTopicInput a) (reviewLength a) (reviewGenerationProgressHidden a)
    (reviewProgressLog a) (reviewDraftOutput a) (draftVersionControls a)
    (writingAssistantHidden a) v (suggestionsPanel a) (referencesHidden a)
    (referencesList a) (tooltip a) (nextId a) (calls a) (alerts a)
    (console a).

Definition set_suggestionsPanel (v : Panel) (a : App) : App :=
  Build_App (isLoading a) (knowledgeSources a) (currentFileName a)
    (draftHistory a) (chat a) (analysisSuggestions a)
    (activeSimilarityHighlight a) (loaderText a) (articleInput a)
    (fileInput a) (fileNameDisplay a) (sectionsHidden a) (knowledgeList a)
    (reviewTopicInput a) (reviewLength a) (reviewGenerationProgressHidden a)
    (reviewProgressLog a) (reviewDraftOutput a) (draftVersionControls a)
    (writingAssistantHidden a) (writingEditor a) v (referencesHidden a)
    (referencesList a) (tooltip a) (nextId a) (calls a) (alerts a)
    (console a).

Definition set_referencesHidden (v : bool) (a : App) : App :=
  Build_App (isLoading a) (knowledgeSources a) (currentFileName a)
    (draftHistory a) (chat a) (analysisSuggestions a)
    (activeSimilarityHighlight a) (loaderText a) (articleInput a)
    (fileInput a) (fileNameDisplay a) (sectionsHidden a) (knowledgeList a)
    (reviewTopicInput a) (reviewLength a) (reviewGenerationProgressHidden a)
    (reviewProgressLog a) (reviewDraftOutput a) (draftVersionControls a)
    (writingAssistantHidden a) (writingEditor a) (suggestionsPanel a) v
    (referencesList a) (tooltip a) (nextId a) (calls a) (alerts a)
    (console a).

Definition set_referencesList (v : list string) (a : App) : App :=
  Build_App (isLoading a) (knowledgeSources a) (currentFileName a)
    (draftHistory a) (chat a) (analysisSuggestions a)
    (activeSimilarityHighlight a) (loaderText a) (articleInput a)
    (fileInput a) (fileNameDisplay a) (sectionsHidden a) (knowledgeList a)
    (reviewTopicInput a) (reviewLength a) (reviewGenerationProgressHidden a)
    (reviewProgressLog a) (reviewDraftOutput a) (draftVersionControls a)
    (writingAssistantHidden a) (writingEditor a) (suggestionsPanel a)
    (referencesHidden a) v (tooltip a) (nextId a) (calls a) (alerts a)
    (console a).

Definition set_tooltip (v : option Tooltip) (a : App) : App :=
  Build_App (isLoading a) (knowledgeSources a) (currentFileName a)
    (draftHistory a) (chat a) (analysisSuggestions a)
    (activeSimilarityHighlight a) (loaderText a) (articleInput a)
    (fileInput a) (fileNameDisplay a) (sectionsHidden a) (knowledgeList a)
    (reviewTopicInput a) (reviewLength a) (reviewGenerationProgressHidden a)
    (reviewProgressLog a) (reviewDraftOutput a) (draftVersionControls a)
    (writingAssistantHidden a) (writingEditor a) (suggestionsPanel a)
    (referencesHidden a) (referencesList a) v (nextId a) (calls a)
    (alerts a) (console a).

Definition set_nextId (v : nat) (a : App) : App :=
  Build_App (isLoading a) (knowledgeSources a) (currentFileName a)
    (draftHistory a) (chat a) (analysisSuggestions a)
    (activeSimilarityHighlight a) (loaderText a) (articleInput a)
    (fileInput a) (fileNameDisplay a) (sectionsHidden a) (knowledgeList a)
    (reviewTopicInput a) (reviewLength a) (reviewGenerationProgressHidden a)
    (reviewProgressLog a) (reviewDraftOutput a) (draftVersionControls a)
    (writingAssistantHidden a) (writingEditor a) (suggestionsPanel a)
    (referencesHidden a) (referencesList a) (tooltip a) v (calls a)
    (alerts a) (console a).

Definition set_calls (v : list string) (a : App) : App :=
  Build_App (isLoading a) (knowledgeSources a) (currentFileName a)
    (draftHistory a) (chat a) (analysisSuggestions a)
    (activeSimilarityHighlight a) (loaderText a) (articleInput a)
    (fileInput a) (fileNameDisplay a) (sectionsHidden a) (knowledgeList a)
    (reviewTopicInput a) (reviewLength a) (reviewGenerationProgressHidden a)
    (reviewProgressLog a) (reviewDraftOutput a) (draftVersionControls a)
    (writingAssistantHidden a) (writingEditor a) (suggestionsPanel a)
    (referencesHidden a) (referencesList a) (tooltip a) (nextId a) v
    (alerts a) (console a).

Definition set_alerts (v : list string) (a : App) : App :=
  Build_App (isLoading a) (knowledgeSources a) (currentFileName a)
    (draftHistory a) (chat a) (analysisSuggestions a)
    (activeSimilarityHighlight a) (loaderText a) (articleInput a)
    (fileInput a) (fileNameDisplay a) (sectionsHidden a) (knowledgeList a)
    (reviewTopicInput a) (reviewLength a) (reviewGenerationProgressHidden a)
    (reviewProgressLog a) (reviewDraftOutput a) (draftVersionControls a)
    (writingAssistantHidden a) (writingEditor a) (suggestionsPanel a)
    (referencesHidden a) (referencesList a) (tooltip a) (nextId a) (calls a)
    v (console a).

Definition set_console (v : list string) (a : App) : App :=
  Build_App (isLoading a) (knowledgeSources a) (currentFileName a)
    (draftHistory a) (chat a) (analysisSuggestions a)
    (activeSimilarityHighlight a) (loaderText a) (articleInput a)
    (fileInput a) (fileNameDisplay a) (sectionsHidden a) (knowledgeList a)
    (reviewTopicInput a) (reviewLength a) (reviewGenerationProgressHidden a)
    (reviewProgressLog a) (reviewDraftOutput a) (draftVersionControls a)
    (writingAssistantHidden a) (writingEditor a) (suggestionsPanel a)
    (referencesHidden a) (referencesList a) (tooltip a) (nextId a) (calls a)
    (alerts a) v.

(** ** What the program runs against

    The service and the browser, as far as the program's own code depends
    on them.  [reply n prompt] is the text the [n]-th call of the session
    ([n] counts from 0) answers [prompt] with, [None] when the call fails.
    The [JSON_] readers are [JSON.parse] followed by the reads the code
    makes of the parsed value.  [JSON_extraction] gives the four
    properties [analyzeAndStoreDocument] reads, as they are; it is [None]
    where [JSON.parse] throws and where it gives [null], of which no
    property can be read.  [JSON_outline] and [JSON_similarity] read at
    the shape the call's response schema fixes, and are [None] on a text
    that does not parse to that shape.  Which comparisons
    [Array.prototype.sort] makes is the browser's matter:
    [sortReachesNonString authors] tells whether, on an array whose
    elements have these authors in this order, the sort of
    [generateBibliography] calls its comparator with a first argument
    whose author is not a string. *)
Record Host := {
  reply : nat -> string -> option string;
  JSON_extraction : string -> option Extraction;
  JSON_outline : string -> option Outline;
  JSON_similarity : string -> option (list SimilarityResult);
  localeCompare : string -> string -> Z;
  sortReachesNonString : list value -> bool;
  innerHTML : list node -> string;     (* the getter: serialisation *)
  parseHTML : string -> list node;     (* the setter: fragment parsing *)
  innerText : list node -> string
}.

(** ** Handlers as state transformers that may throw *)

Inductive exception :=
| Rejected
| SyntaxError
| TypeError
| Error (message : string).

Inductive completion (A : Type) :=
| Normal (a : A)
| Throw (e : exception).
Arguments Throw {A} e.

Definition M (A : Type) : Type := App -> completion A * App.

Definition ret {A} (x : A) : M A := fun a => (Normal x, a).

Definition bind {A B} (m : M A) (k : A -> M B) : M B :=
  fun a => match m a with
           | (Normal x, a') => k x a'
           | (Throw e, a') => (Throw e, a')
           end.

Definition throw {A} (e : exception) : M A := fun a => (Throw e, a).

(** [try { m } catch (error) { h error }] *)
Definition tryCatch {A} (m : M A) (h : exception -> M A) : M A :=
  fun a => match m a with
           | (Normal x, a') => (Normal x, a')
           | (Throw e, a') => h e a'
           end.

(** [try { m } finally { f }] *)
Definition tryFinally {A} (m : M A) (f : M unit) : M A :=
  fun a => match m a with
           | (r, a') => match f a' with
                        | (Normal _, a'') => (r, a'')
                        | (Throw e, a'') => (Throw e, a'')
                        end
           end.

Definition gets {A} (f : App -> A) : M A := fun a => (Normal (f a), a).
Definition modify (f : App -> App) : M unit := fun a => (Normal tt, f a).

Declare Scope js_scope.
Delimit Scope js_scope with js.
Notation "x <- m ;; k" := (bind m (fun x => k))
  (at level 61, m at next level, right associativity) : js_scope.
Notation "m ;; k" := (bind m (fun _ => k))
  (at level 61, right associativity) : js_scope.
Local Open Scope js_scope.

Definition nl : string := String "010" "".
Definition dq : string := String (ascii_of_nat 34) "".

(** ** The program

    Embedded: [setLoading], [renderKnowledgeSources],
    [analyzeAndStoreDocument], [handleProcessArticle],
    [handleGenerateReview], [generateConciseReview],
    [generateDetailedReview], [addProgressLog], [renderDraftViewer],
    [handleVersionChange], [generateBibliography], [renderSuggestions],
    [handleSuggestionClick], [handleSimilarityCheck], [removeHighlights],
    [highlightText], the tooltip functions and the two click listeners of
    the editor and the document.  An [await] is a call that returns or
    throws; nothing else runs in between.  [handleFileSelect],
    [handleAnalyzeText] and [handleAskQuestion] with [addMessageToChat]
    follow the section, over a state that has the rest of the page.  The
    toolbar listener, which hands a command to the browser, is left
    out. *)
Section Program.

Variable host : Host.

(** [alert(message)] *)
Definition alert (message : string) : M unit :=
  modify (fun a => set_alerts (alerts a ++ [message])%list a).

(** [console.warn] and [console.error]: the first argument is kept. *)
Definition console_log (line : string) : M unit :=
  modify (fun a => set_console (console a ++ [line])%list a).

(** [await ai.models.generateContent({ contents: prompt, ... })].text *)
Definition generateContent (prompt : string) : M string :=
  fun a =>
    let a' := set_calls (calls a ++ [prompt])%list a in
    match reply host (List.length (calls a)) prompt with
    | Some text => (Normal text, a')
    | None => (Throw Rejected, a')
    end.

(** [JSON.parse(text)] read at the shape [read] *)
Definition JSON_parse {A} (read : string -> option A) (text : string) : M A :=
  match read text with
  | Some v => ret v
  | None => throw SyntaxError
  end.

(** The [disabled] flags the function also sets are functions of
    [isLoading], [articleInput] and [knowledgeSources]. *)
Definition setLoading (loading : bool) (text : string) : M unit :=
  modify (fun a => set_loaderText text (set_isLoading loading a)).

(** The [forEach] of [renderKnowledgeSources] over [sources]: a card is
    appended for each source in turn.  The markup of a card lists
    [source.entities.map(...)], which throws where [entities] is not an
    array; the cards appended before stay. *)
Fixpoint renderCards (sources : list KnowledgeSource) : M unit :=
  match sources with
  | [] => ret tt
  | source :: rest =>
      match entities source with
      | Array _ =>
          modify (fun a => set_knowledgeList (knowledgeList a ++ [source])%list a) ;;
          renderCards rest
      | _ => throw TypeError
      end
  end.

Definition renderKnowledgeSources : M unit :=
  modify (set_knowledgeList []) ;;
  modify (fun a => match knowledgeSources a with
                   | [] => a
                   | _ :: _ => set_sectionsHidden false a
                   end) ;;
  sources <- gets knowledgeSources ;;
  renderCards sources.

(** [knowledgeSources.some(s => s.fileName === name)] *)
Definition isStored (name : string) (ks : list KnowledgeSource) : bool :=
  existsb (fun s => String.eqb (fileName s) name) ks.

Definition extractionPrompt (articleText : string) : string :=
  "Analyze the following article text. Extract the primary author's last name, the publication year, a concise one-paragraph summary, and a list of key entities. Article:"
  ++ nl ++ nl ++ articleText.

(** The [try] block of [analyzeAndStoreDocument], with its [catch].  The
    document is pushed as soon as the answer is parsed and read; the
    rendering that follows is still inside the [try]. *)
Definition extractAndStore (name articleText : string) : M unit :=
  tryCatch
    (text <- generateContent (extractionPrompt articleText) ;;
     parsedResponse <- JSON_parse (JSON_extraction host) text ;;
     modify (fun a => set_knowledgeSources
       (knowledgeSources a ++
        [{| fileName := name;
            author := ex_author parsedResponse;
            year := ex_year parsedResponse;
            summary := ex_summary parsedResponse;
            entities := ex_entities parsedResponse;
            fullText := articleText |}])%list a) ;;
     renderKnowledgeSources)
    (fun _ =>
       console_log ("Error analyzing article: " ++ name) ;;
       throw (Error ("Failed to analyze " ++ name ++ "."))).

Definition analyzeAndStoreDocument (name articleText : string) : M unit :=
  ks <- gets knowledgeSources ;;
  if isStored name ks then
    console_log ("Skipping duplicate file: " ++ name)
  else
    modify (set_chat None) ;;
    extractAndStore name articleText.

Definition pastedName (ks : list KnowledgeSource) : string :=
  "Pasted Content " ++
  JS.ofNat (List.length
              (filter (fun s => JS.startsWith (fileName s) "Pasted Content") ks) + 1).

Definition handleProcessArticle : M unit :=
  articleText <- gets (fun a => JS.trim (articleInput a)) ;;
  if negb (JS.truthy articleText) then
    alert "Please paste text into the text area or upload a file."
  else
    docName <- gets (fun a =>
      JS.or_else (currentFileName a) (pastedName (knowledgeSources a))) ;;
    ks <- gets knowledgeSources ;;
    if isStored docName ks then
      alert (dq ++ docName ++ dq ++ " has already been added to the knowledge base.")
    else
      setLoading true ("Analyzing " ++ docName ++ "...") ;;
      tryFinally
        (tryCatch
           (analyzeAndStoreDocument docName articleText ;;
            modify (fun a =>
              set_currentFileName ""
                (set_fileNameDisplay "" (set_fileInput "" (set_articleInput "" a)))))
           (fun _ => alert "An error occurred while building the knowledge base."))
        (setLoading false "Processing...").

(** *** Review generation *)

Definition addProgressLog (html : string) : M unit :=
  modify (fun a => set_reviewProgressLog
    (reviewProgressLog a ++
     "<div class=" ++ dq ++ "log-entry" ++ dq ++ ">" ++ html ++ "</div>") a).

(** [draftHistory.push(draft)] *)
Definition pushDraft (draft : string) : M unit :=
  modify (fun a => set_draftHistory (draftHistory a ++ [draft])%list a).

Definition showDraft (html : string) : M unit :=
  modify (set_reviewDraftOutput html).

Definition concisePrompt (topic knowledgeContext : string) : string :=
  "Based on the following knowledge base, write a concise, one-paragraph literature review on the topic: "
  ++ dq ++ topic ++ dq ++
  ". Compare and contrast the key findings. IMPORTANT: When you use information from a source, you MUST include an APA-style in-text citation, like this: (Author, Year). Do not use markdown."
  ++ nl ++ nl ++ "KNOWLEDGE BASE:" ++ nl ++ knowledgeContext.

Definition generateConciseReview (topic knowledgeContext : string) : M unit :=
  setLoading true "Generating concise review..." ;;
  addProgressLog "<strong>Step 1:</strong> Generating concise draft..." ;;
  draft <- generateContent (concisePrompt topic knowledgeContext) ;;
  pushDraft draft ;;
  showDraft (JS.replaceNewlines draft "<br>") ;;
  addProgressLog "Concise draft created.".

Definition outlinePrompt (topic knowledgeContext : string) : string :=
  "Based on the provided knowledge base, create a structured outline for an academic literature review on "
  ++ dq ++ topic ++ dq ++
  ". Identify key themes for the body based on comparing, contrasting, and evaluating the sources. Respond in JSON. KNOWLEDGE BASE:"
  ++ nl ++ knowledgeContext.

Definition outlineHtml (outline : Outline) : string :=
  "<h3>Outline</h3><ul><li>Introduction</li><li>Body Paragraphs:<ul>"
  ++ JS.join "" (map (fun t => "<li>" ++ t ++ "</li>") (themes outline))
  ++ "</ul></li><li>Conclusion</li></ul>".

Definition introPrompt (topic knowledgeContext : string) (outline : Outline) : string :=
  "Write the introduction for a literature review on " ++ dq ++ topic ++ dq ++
  ", following this plan: " ++ introduction outline ++
  ". Use the provided knowledge base and include APA-style (Author, Year) citations. Output only the introduction text. KNOWLEDGE BASE:"
  ++ nl ++ knowledgeContext.

Definition themePrompt (topic knowledgeContext theme : string) : string :=
  "Write a body paragraph for a literature review on the theme: " ++ dq ++ theme ++ dq ++
  ". Compare and contrast sources, evaluate arguments, and connect back to the main topic of "
  ++ dq ++ topic ++ dq ++
  ". Cite sources with (Author, Year). Use the provided knowledge base. Output only the paragraph text. KNOWLEDGE BASE:"
  ++ nl ++ knowledgeContext.

Definition conclusionPrompt (topic knowledgeContext : string) (outline : Outline) : string :=
  "Write the conclusion for a literature review on " ++ dq ++ topic ++ dq ++
  ", following this plan: " ++ conclusion outline ++
  ". Use the provided knowledge base and cite with (Author, Year). Output only the conclusion text. KNOWLEDGE BASE:"
  ++ nl ++ knowledgeContext.

(** [fullDraftParts.map(p => p.replace(/\n/g, '<br>')).join('<br><br>')] *)
Definition partsHtml (fullDraftParts : list string) : string :=
  JS.join "<br><br>" (map (fun p => JS.replaceNewlines p "<br>") fullDraftParts).

(** One stage after the outline: the call, then the text is pushed on
    [fullDraftParts] and the joined parts on [draftHistory]. *)
Definition writePart (prompt : string) (fullDraftParts : list string) : M (list string) :=
  text <- generateContent prompt ;;
  let fullDraftParts := (fullDraftParts ++ [text])%list in
  pushDraft (JS.join (nl ++ nl) fullDraftParts) ;;
  showDraft (partsHtml fullDraftParts) ;;
  ret fullDraftParts.

(** The loop over [outline.themes], from index [i] on. *)
Fixpoint writeThemes (topic knowledgeContext : string) (i : nat)
         (rest : list string) (fullDraftParts : list string) : M (list string) :=
  match rest with
  | [] => ret fullDraftParts
  | theme :: rest' =>
      setLoading true ("Step " ++ JS.ofNat (3 + i) ++ ": Developing theme: " ++ theme) ;;
      addProgressLog ("<strong>Step " ++ JS.ofNat (3 + i) ++
                      ":</strong> Developing theme: <em>" ++ dq ++ theme ++ dq ++ "</em>...") ;;
      fullDraftParts <- writePart (themePrompt topic knowledgeContext theme) fullDraftParts ;;
      writeThemes topic knowledgeContext (S i) rest' fullDraftParts
  end.

Definition generateDetailedReview (topic knowledgeContext : string) : M unit :=
  let fullDraftParts : list string := [] in
  setLoading true "Step 1: Creating a structured outline..." ;;
  addProgressLog "<strong>Step 1:</strong> Creating a structured outline..." ;;
  outlineText <- generateContent (outlinePrompt topic knowledgeContext) ;;
  outline <- JSON_parse (JSON_outline host) outlineText ;;
  pushDraft (outlineHtml outline) ;;
  showDraft (outlineHtml outline) ;;
  addProgressLog "Outline created. Now writing sections..." ;;
  setLoading true "Step 2: Writing introduction..." ;;
  addProgressLog "<strong>Step 2:</strong> Writing the introduction..." ;;
  fullDraftParts <- writePart (introPrompt topic knowledgeContext outline) fullDraftParts ;;
  fullDraftParts <- writeThemes topic knowledgeContext 0 (themes outline) fullDraftParts ;;
  let conclusionStep := 3 + List.length (themes outline) in
  setLoading true ("Step " ++ JS.ofNat conclusionStep ++ ": Writing conclusion...") ;;
  addProgressLog ("<strong>Step " ++ JS.ofNat conclusionStep ++
                  ":</strong> Writing the conclusion...") ;;
  _ <- writePart (conclusionPrompt topic knowledgeContext outline) fullDraftParts ;;
  ret tt.

(** [draftHistory.forEach((_, index) => ...)]: the label of the button
    at [index] in a history of [len] versions. *)
Definition versionLabel (len index : nat) : string :=
  if Nat.eqb index 0 then "Outline"
  else if Nat.eqb index (len - 1) then "Final"
  else "Step " ++ JS.ofNat index.

(** [children[k].classList.add('active')], nothing when there is no
    such child *)
Fixpoint activate (k : nat) (buttons : list VersionButton) : list VersionButton :=
  match buttons, k with
  | [], _ => []
  | b :: r, 0 => {| label := label b; dataIndex := dataIndex b; active := true |} :: r
  | b :: r, S k' => b :: activate k' r
  end.

Definition deactivate (b : VersionButton) : VersionButton :=
  {| label := label b; dataIndex := dataIndex b; active := false |}.

Definition renderDraftViewer : M unit :=
  modify (fun a =>
    let len := List.length (draftHistory a) in
    let buttons :=
      map (fun index => {| label := versionLabel len index;
                           dataIndex := index;
                           active := false |}) (seq 0 len) in
    set_draftVersionControls (activate (len - 1) buttons) a).

(** A click in the version list: on its [k]-th button, or elsewhere. *)
Definition handleVersionChange (target : option nat) : M unit :=
  match target with
  | None => ret tt
  | Some k =>
      modify (fun a =>
        match nth_error (draftVersionControls a) k with
        | None => a
        | Some button =>
            let buttons := activate k (map deactivate (draftVersionControls a)) in
            let draftText :=
              JS.or_else (nth (dataIndex button) (draftHistory a) "")
                         "Could not load this version." in
            set_reviewDraftOutput (JS.replaceNewlines draftText "<br>")
              (set_draftVersionControls buttons a)
        end)
  end.

(** *** Bibliography *)

Definition citation (source : KnowledgeSource) : string :=
  "(" ++ toString (author source) ++ ", " ++ toString (year source) ++ ")".

(** The [forEach] over [knowledgeSources] that fills [citedSources]. *)
Fixpoint collectCited (finalDraft : string) (sources citedSources : list KnowledgeSource)
  : list KnowledgeSource :=
  match sources with
  | [] => citedSources
  | source :: rest =>
      let citedSources :=
        if JS.includes finalDraft (citation source) then
          if negb (isStored (fileName source) citedSources)
          then (citedSources ++ [source])%list
          else citedSources
        else citedSources in
      collectCited finalDraft rest citedSources
  end.

(** Only a string has the method [localeCompare]. *)
Definition authorIsString (source : KnowledgeSource) : bool :=
  match author source with Str _ => true | _ => false end.

(** [(a, b) => a.author.localeCompare(b.author)], where [a.author] is a
    string: the method converts its argument to one.  On any other
    [a.author] the call throws. *)
Definition byAuthor (a b : KnowledgeSource) : Z :=
  localeCompare host (toString (author a)) (toString (author b)).

(** Whether sorting [citedSources] throws: the comparator does on a first
    argument whose author is not a string.  None is called on fewer than
    two elements; which are called on more is the browser's to say. *)
Definition sortThrows (citedSources : list KnowledgeSource) : bool :=
  (1 <? List.length citedSources)%nat
  && negb (forallb authorIsString citedSources)
  && sortReachesNonString host (map author citedSources).

(** [Array.prototype.sort] is stable: where no call of the comparator
    throws and the comparator is consistent, the result is the one
    arrangement in comparator order that keeps the elements comparing
    equal in their former order.  Insertion from the right computes that
    arrangement. *)
Fixpoint insertSorted (x : KnowledgeSource) (l : list KnowledgeSource) : list KnowledgeSource :=
  match l with
  | [] => [x]
  | y :: r => if (byAuthor x y <=? 0)%Z then x :: y :: r else y :: insertSorted x r
  end.

Fixpoint sort (l : list KnowledgeSource) : list KnowledgeSource :=
  match l with
  | [] => []
  | x :: r => insertSorted x (sort r)
  end.

Definition reference (source : KnowledgeSource) : string :=
  toString (author source) ++ ". (" ++ toString (year source) ++ "). "
  ++ JS.stripExtension (fileName source) ++ ".".

Definition citedSourcesOf (a : App) : list KnowledgeSource :=
  collectCited (innerHTML host (writingEditor a)) (knowledgeSources a) [].

Definition generateBibliography : M unit :=
  citedSources <- gets citedSourcesOf ;;
  match citedSources with
  | _ :: _ =>
      modify (set_referencesList []) ;;
      (if sortThrows citedSources then throw TypeError else ret tt) ;;
      modify (fun a =>
        set_referencesHidden false
          (set_referencesList (map reference (sort citedSources)) a))
  | [] => modify (set_referencesHidden true)
  end.

(** [writingEditor.innerHTML = html]: the children are replaced by what
    the parser builds. *)
Definition setEditorHTML (html : string) : M unit :=
  modify (fun a =>
    let (nodes, next) := DOM.adoptAll (parseHTML host html) (nextId a) in
    set_nextId next (set_writingEditor nodes a)).

Definition knowledgeContextOf (ks : list KnowledgeSource) : string :=
  JS.join (nl ++ nl)
    (map (fun s => "--- DOCUMENT: " ++ fileName s ++ nl ++
                   "AUTHOR: " ++ toString (author s) ++ nl ++
                   "YEAR: " ++ toString (year s) ++ nl ++
                   "SUMMARY: " ++ toString (summary s) ++ nl ++ "---") ks).

Definition editorMarkup (finalDraft : string) : string :=
  "<div>" ++ JS.replaceNewlines finalDraft "</div><div>" ++ "</div>".

(** The block under [// Reset UI]. *)
Definition resetReview (a : App) : App :=
  set_referencesList []
    (set_referencesHidden true
       (set_draftHistory []
          (set_draftVersionControls []
             (set_reviewDraftOutput ""
                (set_reviewProgressLog ""
                   (set_writingAssistantHidden true
                      (set_reviewGenerationProgressHidden false a))))))).

(** What the [try] block does once the draft is generated: the last
    version goes to the editor as the final draft. *)
Definition commitReview : M unit :=
  addProgressLog "<strong>Final Draft Generated.</strong> Moving to Writing Assistant." ;;
  renderDraftViewer ;;
  finalDraft <- gets (fun a => JS.or_else (last (draftHistory a) "") "") ;;
  setEditorHTML (editorMarkup finalDraft) ;;
  generateBibliography ;;
  modify (set_writingAssistantHidden false).

(** The [catch] block. *)
Definition reportFailure : M unit :=
  console_log "Error generating literature review:" ;;
  addProgressLog "An error occurred during generation." ;;
  alert "An error occurred. Please check the console.".

(** The submit listener of the review form. *)
Definition handleGenerateReview : M unit :=
  topic <- gets (fun a => JS.trim (reviewTopicInput a)) ;;
  if negb (JS.truthy topic) then ret tt
  else
    modify resetReview ;;
    length_choice <- gets reviewLength ;;
    knowledgeContext <- gets (fun a => knowledgeContextOf (knowledgeSources a)) ;;
    tryFinally
      (tryCatch
         ((if String.eqb length_choice "detailed"
           then generateDetailedReview topic knowledgeContext
           else generateConciseReview topic knowledgeContext) ;;
          commitReview)
         (fun _ => reportFailure))
      (setLoading false "Processing...").

(** *** Proofreading suggestions *)

Definition renderSuggestions : M unit :=
  modify (fun a =>
    match analysisSuggestions a with
    | [] => set_suggestionsPanel
              (Placeholder "No suggestions found! The text looks great.") a
    | l => set_suggestionsPanel (Cards l) a
    end).


(** The markup an accepted suggestion leaves in the editor:
    [innerHTML.replace(suggestion.issue, `<strong>${suggestion.suggestion}</strong>`)] *)
Definition acceptedMarkup (html : string) (s : Suggestion) : string :=
  JS.replace html (issue s) ("<strong>" ++ suggestion s ++ "</strong>").



(** *** Similarity review *)

(** [span.replaceWith(document.createTextNode(span.textContent || ''))]
    for each region found, in document order.  A region inside one
    already replaced is no longer in the tree. *)
Definition unwrapAll (highlights : list node) (editor : list node) : list node :=
  fold_left
    (fun ed span =>
       match span with
       | Element i _ _ _ _ =>
           map (DOM.replaceWith i (Text (JS.or_else (DOM.textContent span) ""))) ed
       | Text _ => ed
       end)
    highlights editor.

Definition removeHighlights : M unit :=
  modify (fun a =>
    let highlights := DOM.querySelectorAll "similarity-highlight" (writingEditor a) in
    set_writingEditor
      (DOM.normalizeChildren (unwrapAll highlights (writingEditor a))) a).

(** The element is created only once the text is found. *)
Definition highlightText (textToFind original suggestion : string) : M unit :=
  modify (fun a =>
    match DOM.wrapFirstIn (nextId a) textToFind original suggestion (writingEditor a) with
    | Some nodes => set_nextId (S (nextId a)) (set_writingEditor nodes a)
    | None => a
    end).

Definition hideSimilarityTooltip : M unit :=
  modify (fun a =>
    set_activeSimilarityHighlight None
      (match tooltip a with
       | Some t => set_tooltip (Some {| tip_original := tip_original t;
                                        tip_suggestion := tip_suggestion t;
                                        tip_hidden := true |}) a
       | None => a
       end)).

Definition showSimilarityTooltip (highlightElement : node) : M unit :=
  match highlightElement with
  | Text _ => ret tt
  | Element i _ _ ds _ =>
      modify (fun a =>
        set_tooltip (Some {| tip_original := DOM.lookup "original" ds;
                             tip_suggestion := DOM.lookup "suggestion" ds;
                             tip_hidden := false |})
          (set_activeSimilarityHighlight (Some i) a))
  end.

(** A click inside the editor lands on the editor itself or on an
    element below it.  The editor's listener runs, then the document's. *)
Definition clickInEditor (target : option nat) : M unit :=
  element <- gets (fun a =>
    match target with
    | Some i => DOM.findIn i (writingEditor a)
    | None => None
    end) ;;
  let onHighlight :=
    match element with
    | Some e => DOM.hasClass "similarity-highlight" e
    | None => false
    end in
  hideSimilarityTooltip ;;
  (match element with
   | Some e => if onHighlight then showSimilarityTooltip e else ret tt
   | None => ret tt
   end) ;;
  shown <- gets tooltip ;;
  match shown with
  | Some _ => if negb onHighlight then hideSimilarityTooltip else ret tt
  | None => ret tt
  end.

(** The text node that takes the place of the active region, as a
    function of the region. *)
Definition resolveActive (text : node -> string) : M unit :=
  modify (fun a =>
    match activeSimilarityHighlight a with
    | Some i =>
        let ed :=
          match DOM.findIn i (writingEditor a) with
          | Some e => map (DOM.replaceWith i (Text (text e))) (writingEditor a)
          | None => writingEditor a
          end in
        set_writingEditor (DOM.normalizeChildren ed) a
    | None => a
    end).

Definition acceptSimilaritySuggestion : M unit :=
  resolveActive (fun e =>
    match DOM.lookup "suggestion" (DOM.datasetOf e) with
    | Some s => JS.or_else s ""
    | None => ""
    end) ;;
  hideSimilarityTooltip.

Definition dismissSimilaritySuggestion : M unit :=
  resolveActive (fun e => JS.or_else (DOM.textContent e) "") ;;
  hideSimilarityTooltip.

Fixpoint mapi {A B} (f : nat -> A -> B) (i : nat) (l : list A) : list B :=
  match l with
  | [] => []
  | x :: r => f i x :: mapi f (S i) r
  end.

Definition allSourcesTextOf (ks : list KnowledgeSource) : string :=
  JS.join (nl ++ nl)
    (mapi (fun i s => "--- SOURCE " ++ JS.ofNat (i + 1) ++ ": " ++ fileName s ++ " ---"
                      ++ nl ++ fullText s) 0 ks).

Definition checkPrompt (draftText allSourcesText : string) : string :=
  "You are a plagiarism detection expert. Analyze the " ++ dq ++ "DRAFT TEXT" ++ dq ++
  " below. Compare it against all the provided " ++ dq ++ "SOURCE DOCUMENTS" ++ dq ++ "." ++ nl ++
  "    Identify every sentence in the draft that is a direct copy or a very close paraphrase of any part of any source document." ++ nl ++
  "    For each match you find, generate a rewritten suggestion that maintains the original meaning but uses a different structure and vocabulary." ++ nl ++
  "    Respond with a single JSON array. Each object in the array must contain:" ++ nl ++
  "    1. " ++ dq ++ "original_sentence" ++ dq ++ ": The exact sentence from the draft that is too similar." ++ nl ++
  "    2. " ++ dq ++ "similar_passage_from_source" ++ dq ++ ": The corresponding passage from the source document." ++ nl ++
  "    3. " ++ dq ++ "source_filename" ++ dq ++ ": The filename of the source document it matches." ++ nl ++
  "    4. " ++ dq ++ "rewritten_suggestion" ++ dq ++ ": Your rewritten version of the sentence." ++ nl ++
  "    If no similar sentences are found, return an empty array." ++ nl ++
  nl ++
  "    DRAFT TEXT:" ++ nl ++
  "    " ++ dq ++ draftText ++ dq ++ nl ++
  nl ++
  "    SOURCE DOCUMENTS:" ++ nl ++
  "    " ++ allSourcesText ++ nl ++
  "    ".

(** The callback of [results.forEach]. *)
Definition highlightResult (result : SimilarityResult) : M unit :=
  highlightText (original_sentence result)
    (similar_passage_from_source result ++ " (from " ++ source_filename result ++ ")")
    (rewritten_suggestion result).

(** [results.forEach(result => highlightText(...))] *)
Fixpoint highlightAll (results : list SimilarityResult) : M unit :=
  match results with
  | [] => ret tt
  | result :: rest => highlightResult result ;; highlightAll rest
  end.

Definition handleSimilarityCheck : M unit :=
  draftText <- gets (fun a => innerText host (writingEditor a)) ;;
  if (String.length (JS.trim draftText) <? 50)%nat then
    alert "Please write more text before checking for similarity."
  else
    setLoading true "Checking for similarity..." ;;
    removeHighlights ;;
    allSourcesText <- gets (fun a => allSourcesTextOf (knowledgeSources a)) ;;
    tryFinally
      (tryCatch
         (text <- generateContent (checkPrompt draftText allSourcesText) ;;
          results <- JSON_parse (JSON_similarity host) text ;;
          match results with
          | [] => alert "No significant similarities found."
          | _ :: _ =>
              highlightAll results ;;
              alert ("Found " ++ JS.ofNat (List.length results) ++
                     " potential similarities. Click on the highlighted text to review.")
          end)
         (fun _ =>
            console_log "Similarity check failed:" ;;
            alert "An error occurred during the similarity check. Please try again."))
      (setLoading false "Processing...").

End Program.

(** ** The rest of the page

    The handlers of the proofreading request, of the question form and of
    the file input, and the listener of clicks outside the editor.  They
    also read uploaded files, talk to a chat session, and write the
    question field, the chat log and the [disabled] state of the
    controls; focus and scroll positions are not part of the state. *)

(** What these handlers run against, besides [Host]: [JSON.parse] of the
    proofreading answer, at the shape the call's response schema fixes,
    and the chat service.  [sendMessage n chat message] is the text the
    [n]-th message of the page's life ([n] counts from 0) is answered
    with when sent to the session [chat]; [None] when the call fails. *)
Record Service := {
  JSON_suggestions : string -> option (list Suggestion);
  sendMessage : nat -> Chat -> string -> option string
}.

(** A click in the document that lands outside the editor and outside
    the tooltip: the document's listener alone runs. *)
Definition clickOutside : M unit :=
  shown <- gets tooltip ;;
  match shown with
  | Some _ => hideSimilarityTooltip
  | None => ret tt
  end.

(** [knowledgeSources.map(s => ...).join('\n\n')] of [handleAskQuestion] *)
Definition contextOf (ks : list KnowledgeSource) : string :=
  JS.join (nl ++ nl)
    (map (fun s => "--- DOCUMENT: " ++ fileName s ++ " ---" ++ nl ++
                   "Summary: " ++ toString (summary s) ++ nl ++ "---") ks).

Definition systemInstructionOf (ks : list KnowledgeSource) : string :=
  "You are an expert Q&A assistant. Answer the user's question based *only* on the provided knowledge base. If the answer isn't in the documents, say so clearly."
  ++ nl ++ nl ++ "KNOWLEDGE BASE:" ++ nl ++ contextOf ks.

Definition analyzePrompt (text : string) : string :=
  "Analyze the following text for grammar, spelling, punctuation, and style issues. Respond with a JSON array of suggestion objects. Each object must have: "
  ++ dq ++ "category" ++ dq ++ " (one of " ++ dq ++ "Grammar" ++ dq ++ ", " ++ dq ++ "Spelling" ++ dq
  ++ ", " ++ dq ++ "Punctuation" ++ dq ++ ", " ++ dq ++ "Style" ++ dq ++ ", " ++ dq ++ "Clarity" ++ dq
  ++ "), " ++ dq ++ "issue" ++ dq ++ " (the exact text with the problem), " ++ dq ++ "suggestion" ++ dq
  ++ " (the corrected text), and " ++ dq ++ "explanation" ++ dq ++ "." ++ nl ++ nl ++ "TEXT:" ++ nl
  ++ dq ++ text ++ dq.

Module Page.

(** A line of the chat log: the class it carries besides [chat-message]
    and its text. *)
Record Message := {
  sender : string;
  text : string
}.

(** An uploaded file.  [content] is what [await file.text()] gives and
    [pages] what the PDF reader gives, page by page, the [str] of each
    text item ([None]: the item has none); [None] for either is a read
    that fails. *)
Record File := {
  name : string;
  type : string;
  content : option string;
  pages : option (list (list (option string)))
}.

(** The [disabled] property of the controls [setLoading] writes. *)
Record Disabled := {
  processButton_disabled : bool;
  fileInput_disabled : bool;
  generateReviewButton_disabled : bool;
  analyzeTextButton_disabled : bool;
  similarityCheckButton_disabled : bool;
  questionInput_disabled : bool;
  chatButton_disabled : bool
}.

Record State := {
  app : App;
  disabled : Disabled;
  questionInput : string;            (* [questionInput.value] *)
  chatContainer : list Message;      (* children of [chatContainer] *)
  sent : list (Chat * string)        (* messages sent with [chat.sendMessage], each with its session *)
}.

Definition set_app (v : App) (p : State) : State :=
  Build_State v (disabled p) (questionInput p) (chatContainer p) (sent p).

Definition set_disabled (v : Disabled) (p : State) : State :=
  Build_State (app p) v (questionInput p) (chatContainer p) (sent p).

Definition set_questionInput (v : string) (p : State) : State :=
  Build_State (app p) (disabled p) v (chatContainer p) (sent p).

Definition set_chatContainer (v : list Message) (p : State) : State :=
  Build_State (app p) (disabled p) (questionInput p) v (sent p).

Definition set_sent (v : list (Chat * string)) (p : State) : State :=
  Build_State (app p) (disabled p) (questionInput p) (chatContainer p) v.

Definition set_processButton_disabled (v : bool) (d : Disabled) : Disabled :=
  Build_Disabled v (fileInput_disabled d) (generateReviewButton_disabled d)
    (analyzeTextButton_disabled d) (similarityCheckButton_disabled d)
    (questionInput_disabled d) (chatButton_disabled d).

(** Handlers over the whole page. *)
Definition Handler (A : Type) : Type := State -> completion A * State.

(** A function over the application state, run on that part of the
    page. *)
Definition lift {A} (m : M A) : Handler A :=
  fun p => match m (app p) with (r, a') => (r, set_app a' p) end.

Definition bind {A B} (m : Handler A) (k : A -> Handler B) : Handler B :=
  fun p => match m p with
           | (Normal x, p') => k x p'
           | (Throw e, p') => (Throw e, p')
           end.

Definition tryCatch {A} (m : Handler A) (h : exception -> Handler A) : Handler A :=
  fun p => match m p with
           | (Normal x, p') => (Normal x, p')
           | (Throw e, p') => h e p'
           end.

Definition tryFinally {A} (m : Handler A) (f : Handler unit) : Handler A :=
  fun p => match m p with
           | (r, p') => match f p' with
                        | (Normal _, p'') => (r, p'')
                        | (Throw e, p'') => (Throw e, p'')
                        end
           end.

Definition inspect {A} (f : State -> A) : Handler A := fun p => (Normal (f p), p).
Definition update (f : State -> State) : Handler unit := fun p => (Normal tt, f p).

Declare Scope page_scope.
Delimit Scope page_scope with page.
Notation "x <- m ;; k" := (bind m (fun x => k))
  (at level 61, m at next level, right associativity) : page_scope.
Notation "m ;; k" := (bind m (fun _ => k))
  (at level 61, right associativity) : page_scope.
Local Open Scope page_scope.

(** [setLoading] in full: the loader, and the controls. *)
Definition setLoading (loading : bool) (text : string) : Handler unit :=
  update (fun p =>
    let a := set_loaderText text (set_isLoading loading (app p)) in
    let noSources := (List.length (knowledgeSources a) =? 0)%nat in
    set_disabled
      {| processButton_disabled := loading || negb (JS.truthy (articleInput a));
         fileInput_disabled := loading;
         generateReviewButton_disabled := loading;
         analyzeTextButton_disabled := loading;
         similarityCheckButton_disabled := loading;
         questionInput_disabled := loading || noSources;
         chatButton_disabled := loading || noSources |}
      (set_app a p)).

Section Handlers.

Variable host : Host.
Variable service : Service.

(** *** Proofreading request *)

Definition handleAnalyzeText : Handler unit :=
  text <- inspect (fun p => JS.trim (innerText host (writingEditor (app p)))) ;;
  if negb (JS.truthy text) then lift (ret tt)
  else
    setLoading true "Analyzing text..." ;;
    lift (modify (set_suggestionsPanel (Placeholder "Analyzing..."))) ;;
    tryFinally
      (tryCatch
         (lift (response <- generateContent host (analyzePrompt text) ;;
                parsed <- JSON_parse (JSON_suggestions service) response ;;
                modify (set_analysisSuggestions parsed) ;;
                renderSuggestions)%js)
         (fun _ =>
            lift (console_log "Error analyzing text:" ;;
                  modify (set_suggestionsPanel (Placeholder "Failed to get suggestions.")))%js))
      (setLoading false "Processing...").

(** *** Questions *)

Definition addMessageToChat (text sender : string) : Handler unit :=
  update (fun p =>
    set_chatContainer
      (chatContainer p ++ [{| sender := sender; text := text |}])%list p).

(** [(await chat.sendMessage({ message })).text] on the session [chat]
    holds; on [null] the property read throws. *)
Definition send (message : string) : Handler string :=
  fun p =>
    match chat (app p) with
    | None => (Throw TypeError, p)
    | Some session =>
        let p' := set_sent (sent p ++ [(session, message)])%list p in
        match sendMessage service (List.length (sent p)) session message with
        | Some text => (Normal text, p')
        | None => (Throw Rejected, p')
        end
    end.

(** What the handler does with a question it takes. *)
Definition answerQuestion (userQuestion : string) : Handler unit :=
  setLoading true "Thinking..." ;;
  addMessageToChat userQuestion "user" ;;
  update (set_questionInput "") ;;
  tryFinally
    (tryCatch
       (session <- inspect (fun p => chat (app p)) ;;
        match session with
        | None =>
            lift (modify (fun a =>
              set_chat (Some {| systemInstruction :=
                                  systemInstructionOf (knowledgeSources a) |}) a))
        | Some _ => lift (ret tt)
        end ;;
        response <- send userQuestion ;;
        addMessageToChat response "model")
       (fun _ =>
          lift (console_log "Error sending message:") ;;
          addMessageToChat "Sorry, I encountered an error." "model"))
    (setLoading false "Processing...").

Definition handleAskQuestion : Handler unit :=
  userQuestion <- inspect (fun p => JS.trim (questionInput p)) ;;
  busy <- inspect (fun p => isLoading (app p)) ;;
  ks <- inspect (fun p => knowledgeSources (app p)) ;;
  if negb (JS.truthy userQuestion) || busy || (List.length ks =? 0)%nat then lift (ret tt)
  else answerQuestion userQuestion.

(** *** Uploaded files *)

(** The text of a PDF as the two loops build it: the items of a page
    joined by a space, two line feeds after each page. *)
Definition pdfText (pages : list (list (option string))) : string :=
  String.concat ""
    (map (fun items =>
            JS.join " " (map (fun str => match str with Some s => s | None => "" end) items)
            ++ nl ++ nl) pages).

(** The block that fills [fullText]. *)
Definition readFile (file : File) : Handler string :=
  if String.eqb (type file) "application/pdf" then
    match pages file with
    | Some ps => lift (ret (pdfText ps))
    | None => lift (throw Rejected)
    end
  else
    match content file with
    | Some fullText => lift (ret fullText)
    | None => lift (throw Rejected)
    end.

(** One file selected: its text goes to the text area. *)
Definition selectOne (file : File) : Handler unit :=
  lift (modify (fun a =>
    set_articleInput ""
      (set_currentFileName (name file)
         (set_fileNameDisplay ("Selected: " ++ name file) a)))) ;;
  setLoading true ("Parsing " ++ name file ++ "...") ;;
  tryFinally
    (tryCatch
       (fullText <- readFile file ;;
        lift (modify (set_articleInput (JS.trim fullText))))
       (fun _ =>
          lift (console_log "Error processing file:" ;;
                modify (fun a =>
                  set_currentFileName "" (set_fileNameDisplay "Error processing file." a)) ;;
                alert ("Error processing " ++ name file ++
                       ". Please ensure it's a valid text or PDF file."))%js))
    (setLoading false "Processing...").

(** The body of the loop over several files, for the file at index [i]
    of [total]. *)
Definition processFile (total i : nat) (file : File) : Handler unit :=
  setLoading true ("Processing " ++ JS.ofNat (i + 1) ++ "/" ++ JS.ofNat total ++ ": " ++ name file) ;;
  tryCatch
    (fullText <- readFile file ;;
     lift (analyzeAndStoreDocument host (name file) (JS.trim fullText)))
    (fun _ =>
       lift (console_log ("Error processing file " ++ name file ++ ":") ;;
             alert ("An error occurred while processing " ++ name file ++
                    ". Skipping to the next file."))%js).

(** The loop, from index [i] on. *)
Fixpoint processFiles (total i : nat) (files : list File) : Handler unit :=
  match files with
  | [] => lift (ret tt)
  | file :: rest => processFile total i file ;; processFiles total (S i) rest
  end.

(** The change listener of the file input, on its [files]. *)
Definition handleFileSelect (files : list File) : Handler unit :=
  match files with
  | [] => lift (modify (fun a => set_currentFileName "" (set_fileNameDisplay "" a)))
  | [file] => selectOne file
  | _ =>
      lift (modify (set_fileNameDisplay
        ("Selected " ++ JS.ofNat (List.length files) ++ " files: " ++
         JS.join ", " (map name files)))) ;;
      update (fun p => set_disabled (set_processButton_disabled true (disabled p)) p) ;;
      processFiles (List.length files) 0 files ;;
      setLoading false "Processing..." ;;
      lift (modify (fun a =>
        set_fileInput ""
          (set_fileNameDisplay (JS.ofNat (List.length files) ++ " file(s) processed.") a))) ;;
      update (fun p => set_disabled (set_processButton_disabled false (disabled p)) p)
  end.

End Handlers.

End Page.

(** ** Words of the specification *)

(** [later] is a strict textual extension of [earlier]. *)
Definition extends (earlier later : string) : Prop :=
  exists t, t <> "" /\ later = earlier ++ t.

(** [p] occurs literally in [s]. *)
Definition occursIn (p s : string) : Prop :=
  exists x y, s = x ++ p ++ y.

(** One of the three extensions, in any mix of cases. *)
Definition isExtension (ext : string) : bool :=
  JS.eqb_ci ext ".txt" || JS.eqb_ci ext ".pdf" || JS.eqb_ci ext ".md".


(** [p] stands in [s] right after [before], and nowhere earlier. *)
Definition firstOccurrence (p before s : string) : Prop :=
  (exists after, s = before ++ p ++ after) /\
  forall x y, s = x ++ p ++ y -> String.length before <= String.length x.


(** The highlighted regions below the children of a root, in document
    order. *)
Definition regions (ns : list node) : list node :=
  DOM.querySelectorAll "similarity-highlight" ns.

(** The region [highlightResult] builds for a match, given the identity
    the new element gets. *)
Definition regionOf (i : nat) (result : SimilarityResult) : node :=
  DOM.highlightSpan i (original_sentence result)
    (similar_passage_from_source result ++ " (from " ++ source_filename result ++ ")")
    (rewritten_suggestion result).

(** [texts'] is [texts] with the first text that holds [f] cut around
    the first occurrence of [f] in it, the texts [inner] put in the cut. *)
Definition splitAround (f : string) (inner texts texts' : list string) : Prop :=
  exists l1 d l2 before after,
    texts = (l1 ++ d :: l2)%list /\
    (forall t, In t l1 -> ~ occursIn f t) /\
    firstOccurrence f before d /\
    d = before ++ f ++ after /\
    texts' = (l1 ++ before :: inner ++ after :: l2)%list.

(** What the walk of [highlightText] comes to, over a tree of text nodes
    [texts] with [count] regions and the identities [old]: either the
    text is in no text node, or the nodes [r] take the tree's place, with
    the first text node that holds [f] split and [region], one more
    region, added under the identity [i]. *)
Definition wrapOutcome (f : string) (region : node) (i : nat) (texts : list string)
           (count : nat) (old : list nat) (result : option (list node)) : Prop :=
  match result with
  | Some r =>
      splitAround f (DOM.textNodes region) texts (DOM.textNodesOf r) /\
      List.length (regions r) = S count /\
      In region (regions r) /\
      Permutation (DOM.idsOf r) (i :: old)
  | None => forall t, In t texts -> ~ occursIn f t
  end.

(** The draft cites the document: its token occurs in it. *)
Definition cites (finalDraft : string) (d : KnowledgeSource) : Prop :=
  occursIn (citation d) finalDraft.

(** The order of the bibliography: by author, under the host's
    comparison. *)
Definition authorLe (host : Host) (x y : KnowledgeSource) : Prop :=
  (localeCompare host (toString (author x)) (toString (author y)) <= 0)%Z.

(** The element of identity [i] in a tree of distinct identities: the
    text falls into what stands before it, its own text and what stands
    after it, and a replacement by [new] changes the middle part only. *)
Definition foundAt (i : nat) (new : node) (n : node) : Prop :=
  forall region, DOM.find i n = Some region -> NoDup (DOM.ids n) ->
  exists b e,
    DOM.around i n = Some (b, e) /\
    DOM.textContent n = b ++ DOM.textContent region ++ e /\
    DOM.textContent (DOM.replaceWith i new n) = b ++ DOM.textContent new ++ e.

(** The prompts of the stages after the outline, in stage order:
    introduction, one per theme, conclusion. *)
Definition stagePrompts (topic knowledgeContext : string) (outline : Outline) : list string :=
  introPrompt topic knowledgeContext outline
  :: (map (themePrompt topic knowledgeContext) (themes outline)
      ++ [conclusionPrompt topic knowledgeContext outline])%list.

(** The texts of the calls that succeed before the first one that
    fails, when [prompts] are sent one after the other from call number
    [n] on. *)
Fixpoint answers (host : Host) (n : nat) (prompts : list string) : list string :=
  match prompts with
  | [] => []
  | p :: rest =>
      match reply host n p with
      | Some text => text :: answers host (S n) rest
      | None => []
      end
  end.

(** The joined text after each of the parts: the first, the first two,
    and so on. *)
Definition cumulative (texts : list string) : list string :=
  map (fun j => JS.join (nl ++ nl) (firstn j texts)) (seq 1 (List.length texts)).

(** The same, on top of parts already written. *)
Definition cumulativeFrom (parts texts : list string) : list string :=
  map (fun j => JS.join (nl ++ nl) (parts ++ firstn j texts)%list)
      (seq 1 (List.length texts)).

(** The outline a run gets when its first call is call number [n]:
    [None] when that call fails or its answer does not parse. *)
Definition outlineOf (host : Host) (n : nat) (topic knowledgeContext : string) : option Outline :=
  match reply host n (outlinePrompt topic knowledgeContext) with
  | Some text => JSON_outline host text
  | None => None
  end.

(** Some stage's call fails, in a detailed run whose first call is call
    number [n]: the outline call (a failure to parse its answer counts),
    or the call of one of the stages after it. *)
Definition stageFails (host : Host) (n : nat) (topic knowledgeContext : string) : Prop :=
  match outlineOf host n topic knowledgeContext with
  | None => True
  | Some outline =>
      exists k, k < List.length (stagePrompts topic knowledgeContext outline) /\
                reply host (S n + k) (nth k (stagePrompts topic knowledgeContext outline) "") = None
  end.

(** What the two generation functions leave alone. *)
Definition untouchedByGeneration (a a' : App) : Prop :=
  knowledgeSources a' = knowledgeSources a /\
  chat a' = chat a /\
  analysisSuggestions a' = analysisSuggestions a /\
  writingEditor a' = writingEditor a /\
  nextId a' = nextId a /\
  writingAssistantHidden a' = writingAssistantHidden a /\
  draftVersionControls a' = draftVersionControls a /\
  referencesHidden a' = referencesHidden a /\
  referencesList a' = referencesList a /\
  alerts a' = alerts a /\
  console a' = console a.

(** From [a] to [a'] the prompts [issued] were sent and the versions
    [versions] appended, and nothing else of note changed. *)
Definition stageStep (a a' : App) (issued versions : list string) : Prop :=
  untouchedByGeneration a a' /\
  calls a' = (calls a ++ issued)%list /\
  draftHistory a' = (draftHistory a ++ versions)%list.

(** The document that is stored from what was read of an answer. *)
Definition stored (name articleText : string) (e : Extraction) : KnowledgeSource :=
  {| fileName := name; author := ex_author e; year := ex_year e;
     summary := ex_summary e; entities := ex_entities e; fullText := articleText |}.

(** The document lists its entities: its [entities] is an array. *)
Definition listsEntities (source : KnowledgeSource) : bool :=
  match entities source with Array _ => true | _ => false end.

(** The documents before the first that lists no entities: the cards a
    rendering gets to append. *)
Fixpoint cardsOf (sources : list KnowledgeSource) : list KnowledgeSource :=
  match sources with
  | [] => []
  | source :: rest => if listsEntities source then source :: cardsOf rest else []
  end.

(** ** A host and states for the examples

    A scripted service, and plain stand-ins for the browser's functions:
    the JSON readers know the texts below, the comparison is by code
    units, the serialiser writes text, tags, classes and data attributes
    with the escapes of HTML, the parser reads any markup as character
    data, and the rendered text is the text content. *)
Definition demo_outline_text : string :=
  "{" ++ dq ++ "introduction" ++ dq ++ ":" ++ dq ++ "Scope" ++ dq ++ "," ++
  dq ++ "themes" ++ dq ++ ":[" ++ dq ++ "Methods" ++ dq ++ "," ++ dq ++ "Results" ++ dq ++ "]," ++
  dq ++ "conclusion" ++ dq ++ ":" ++ dq ++ "Gaps" ++ dq ++ "}".

Definition demo_outline : Outline :=
  {| introduction := "Scope"; themes := ["Methods"; "Results"]; conclusion := "Gaps" |}.

Definition demo_extraction_text : string :=
  "{" ++ dq ++ "author" ++ dq ++ ":" ++ dq ++ "Chen" ++ dq ++ "," ++
  dq ++ "year" ++ dq ++ ":" ++ dq ++ "2019" ++ dq ++ "," ++
  dq ++ "summary" ++ dq ++ ":" ++ dq ++ "A study." ++ dq ++ "," ++
  dq ++ "entities" ++ dq ++ ":[]}".

Definition demo_extraction : Extraction :=
  {| ex_author := Str "Chen"; ex_year := Str "2019"; ex_summary := Str "A study.";
     ex_entities := Array [] |}.

(** An answer that parses and has no [entities]. *)
Definition demo_partial_text : string :=
  "{" ++ dq ++ "author" ++ dq ++ ":" ++ dq ++ "Chen" ++ dq ++ "," ++
  dq ++ "year" ++ dq ++ ":" ++ dq ++ "2019" ++ dq ++ "," ++
  dq ++ "summary" ++ dq ++ ":" ++ dq ++ "A study." ++ dq ++ "}".

Definition demo_partial : Extraction :=
  {| ex_author := Str "Chen"; ex_year := Str "2019"; ex_summary := Str "A study.";
     ex_entities := Undefined |}.

Fixpoint demo_escape (inAttribute : bool) (s : string) : string :=
  match s with
  | "" => ""
  | String c r =>
      (if Ascii.eqb c "&" then "&amp;"
       else if Ascii.eqb c (ascii_of_nat 160) then "&nbsp;"
       else if inAttribute then
         (if Ascii.eqb c (ascii_of_nat 34) then "&quot;" else String c "")
       else if Ascii.eqb c "<" then "&lt;"
       else if Ascii.eqb c ">" then "&gt;"
       else String c "")
      ++ demo_escape inAttribute r
  end.

Definition demo_attributes (cl : list string) (ds : list (string * string)) : string :=
  match cl with
  | [] => ""
  | _ :: _ => " class=" ++ dq ++ demo_escape true (JS.join " " cl) ++ dq
  end
  ++ String.concat ""
       (map (fun kv => " data-" ++ fst kv ++ "=" ++ dq ++ demo_escape true (snd kv) ++ dq) ds).

Fixpoint demo_serialize (n : node) : string :=
  match n with
  | Text d => demo_escape false d
  | Element _ t cl ds cs =>
      "<" ++ t ++ demo_attributes cl ds ++ ">"
      ++ String.concat "" (map demo_serialize cs) ++ "</" ++ t ++ ">"
  end.

Definition demo_compare (x y : string) : Z :=
  match String.compare x y with Lt => (-1)%Z | Eq => 0%Z | Gt => 1%Z end.

Definition demo_host (script : list (option string)) : Host :=
  {| reply := fun n _ => nth n script None;
     JSON_extraction := fun t =>
       if String.eqb t demo_extraction_text then Some demo_extraction
       else if String.eqb t demo_partial_text then Some demo_partial
       else None;
     JSON_outline := fun t =>
       if String.eqb t demo_outline_text then Some demo_outline else None;
     JSON_similarity := fun _ => Some [];
     localeCompare := demo_compare;
     sortReachesNonString := fun _ => true;
     innerHTML := fun ns => String.concat "" (map demo_serialize ns);
     parseHTML := fun html => [Text html];
     innerText := DOM.textContents |}.

(** The service answers of a detailed run over two themes. *)
Definition demo_script : list (option string) :=
  [Some demo_outline_text; Some "Intro."; Some "On methods."; Some "On results.";
   Some "In sum."].

Definition demo_Chen : KnowledgeSource :=
  {| fileName := "chen.PDF"; author := Str "Chen"; year := Str "2019";
     summary := Str "A study."; entities := Array []; fullText := "Full text B." |}.

Definition demo_Smith : KnowledgeSource :=
  {| fileName := "smith.txt"; author := Str "Smith & Lee"; year := Str "2020";
     summary := Str "A trial."; entities := Array []; fullText := "Full text C." |}.

Definition demo_Lopez : KnowledgeSource :=
  {| fileName := "lopez.txt"; author := Str "Lopez"; year := Str "2020";
     summary := Str "A survey."; entities := Array []; fullText := "Full text A." |}.



(** A draft as an accepted proofreading suggestion leaves it: a word in
    a [strong] element between two text nodes. *)
Definition demo_draft : list node :=
  [Element 0 "div" [] []
     [Text "Deep "; Element 1 "strong" [] [] [Text "models"];
      Text " generalise well. Deep nets too."]].

Definition demo_match (sentence : string) : SimilarityResult :=
  {| original_sentence := sentence;
     similar_passage_from_source := "Deep networks generalise well.";
     source_filename := "chen.PDF";
     rewritten_suggestion := "Such models transfer." |}.

(** The draft above with [Deep nets] highlighted as the region of
    identity 2. *)
Definition demo_highlighted : list node :=
  [Element 0 "div" [] []
     [Text "Deep "; Element 1 "strong" [] [] [Text "models"];
      Text " generalise well. ";
      regionOf 2 (demo_match "Deep nets");
      Text " too."]].

(** The state of a page just loaded. *)
Definition initial : App :=
  {| isLoading := false; knowledgeSources := []; currentFileName := "";
     draftHistory := []; chat := None; analysisSuggestions := [];
     activeSimilarityHighlight := None; loaderText := "Processing...";
     articleInput := ""; fileInput := ""; fileNameDisplay := "";
     sectionsHidden := true; knowledgeList := []; reviewTopicInput := "";
     reviewLength := "detailed"; reviewGenerationProgressHidden := true;
     reviewProgressLog := ""; reviewDraftOutput := "";
     draftVersionControls := []; writingAssistantHidden := true;
     writingEditor := []; suggestionsPanel := Placeholder "";
     referencesHidden := true; referencesList := []; tooltip := None;
     nextId := 0; calls := []; alerts := []; console := [] |}.

(** The page just loaded: [setLoading(false)] has run. *)
Definition initialPage : Page.State :=
  {| Page.app := initial;
     Page.disabled := {| Page.processButton_disabled := true;
                         Page.fileInput_disabled := false;
                         Page.generateReviewButton_disabled := false;
                         Page.analyzeTextButton_disabled := false;
                         Page.similarityCheckButton_disabled := false;
                         Page.questionInput_disabled := true;
                         Page.chatButton_disabled := true |};
     Page.questionInput := "";
     Page.chatContainer := [];
     Page.sent := [] |}.

(** A text file that holds white space only. *)
Definition demo_blank (name : string) : Page.File :=
  {| Page.name := name; Page.type := "text/plain";
     Page.content := Some (" " ++ nl); Page.pages := None |}.

Unset Implicit Arguments.

(** * Properties *)


(** ** Strings *)

Lemma append_assoc (a b c : string) : (a ++ b) ++ c = a ++ b ++ c.
Proof. induction a as [|x a IH]; simpl; [reflexivity | now rewrite IH]. Qed.

Lemma append_nil_r (a : string) : a ++ "" = a.
Proof. induction a as [|x a IH]; simpl; [reflexivity | now rewrite IH]. Qed.

Lemma length_append (a b : string) :
  String.length (a ++ b) = String.length a + String.length b.
Proof. induction a as [|x a IH]; simpl; [reflexivity | now rewrite IH]. Qed.

Lemma append_inv_head (a b c : string) : a ++ b = a ++ c -> b = c.
Proof. induction a as [|x a IH]; simpl; intros H; [assumption | injection H; auto]. Qed.

Lemma append_eq_self (a t : string) : a ++ t = a -> t = "".
Proof.
  intros H. apply (append_inv_head a). now rewrite append_nil_r.
Qed.

Lemma prefix_append (p r : string) : String.prefix p (p ++ r) = true.
Proof.
  induction p as [|x p IH]; simpl.
  - now destruct r.
  - destruct (ascii_dec x x) as [_|n]; [exact IH | now elim n].
Qed.

Lemma prefix_split (p s : string) :
  String.prefix p s = true -> s = p ++ JS.drop (String.length p) s.
Proof.
  revert s; induction p as [|x p IH]; intros s H; simpl.
  - now destruct s.
  - destruct s as [|y s]; simpl in H; [discriminate|].
    destruct (ascii_dec x y) as [->|]; [|discriminate].
    simpl. f_equal. now apply IH.
Qed.

Lemma take_drop (n : nat) (s : string) : JS.take n s ++ JS.drop n s = s.
Proof.
  revert s; induction n as [|n IH]; intros [|c s]; simpl; try reflexivity.
  now rewrite IH.
Qed.

Lemma take_length (n : nat) (s : string) :
  n <= String.length s -> String.length (JS.take n s) = n.
Proof.
  revert s; induction n as [|n IH]; intros [|c s] H; simpl in *; try reflexivity; try lia.
  rewrite IH; [reflexivity | lia].
Qed.

Lemma take_append (a b : string) : JS.take (String.length a) (a ++ b) = a.
Proof. induction a as [|x a IH]; simpl; [now destruct b | now rewrite IH]. Qed.

Lemma drop_append (a b : string) : JS.drop (String.length a) (a ++ b) = b.
Proof. induction a as [|x a IH]; simpl; [now destruct b | exact IH]. Qed.

Lemma drop_drop (n m : nat) (s : string) : JS.drop n (JS.drop m s) = JS.drop (m + n) s.
Proof.
  revert s; induction m as [|m IH]; intros s; simpl; [reflexivity|].
  destruct s as [|c s]; [now destruct n | apply IH].
Qed.

(** Where [indexOf] answers [i], the pattern stands at [i] and at no
    earlier position. *)
Lemma indexOf_Some (s p : string) (i : nat) :
  JS.indexOf s p = Some i ->
  s = JS.take i s ++ p ++ JS.drop (i + String.length p) s /\
  i + String.length p <= String.length s /\
  forall j, j < i -> JS.startsWith (JS.drop j s) p = false.
Proof.
  revert i; induction s as [|c s IH]; intros i.
  - destruct p; simpl; [|discriminate].
    intros [= <-]. simpl. repeat split; auto; lia.
  - cbn [JS.indexOf]. destruct (JS.startsWith (String c s) p) eqn:E.
    + intros [= <-]. unfold JS.startsWith in E. cbn [JS.take JS.drop Nat.add].
      split; [now apply prefix_split|]. split; [|lia].
      apply prefix_split, (f_equal String.length) in E.
      rewrite length_append in E. lia.
    + destruct (JS.indexOf s p) as [k|] eqn:Ek; [|discriminate].
      cbn [option_map]. intros [= <-]. destruct (IH k eq_refl) as (H1 & H2 & H3).
      cbn [JS.take JS.drop Nat.add String.length append].
      split; [now f_equal|]. split; [lia|].
      intros [|j] Hj; cbn [JS.drop]; [exact E | apply H3; lia].
Qed.

Lemma indexOf_None (s p : string) :
  JS.indexOf s p = None -> forall x y, s <> x ++ p ++ y.
Proof.
  induction s as [|c s IH].
  - destruct p; simpl; [discriminate|].
    intros _ x y H. destruct x; discriminate.
  - cbn [JS.indexOf]. destruct (JS.startsWith (String c s) p) eqn:E; [discriminate|].
    destruct (JS.indexOf s p) eqn:Ek; [discriminate|].
    intros _ x y H. destruct x as [|c' x]; cbn [append] in H.
    + unfold JS.startsWith in E. rewrite H, prefix_append in E. discriminate.
    + injection H as _ H. exact (IH eq_refl x y H).
Qed.

Lemma indexOf_occurs (x p y : string) : JS.indexOf (x ++ p ++ y) p <> None.
Proof. intros H. exact (indexOf_None _ _ H x y eq_refl). Qed.

(** ** Ingestion *)

Arguments extractionPrompt : simpl never.
Arguments concisePrompt : simpl never.
Arguments outlinePrompt : simpl never.
Arguments introPrompt : simpl never.
Arguments themePrompt : simpl never.
Arguments conclusionPrompt : simpl never.
Arguments checkPrompt : simpl never.
Arguments outlineHtml : simpl never.
Arguments partsHtml : simpl never.
Arguments editorMarkup : simpl never.
Arguments knowledgeContextOf : simpl never.
Arguments allSourcesTextOf : simpl never.
Arguments acceptedMarkup : simpl never.
Arguments append : simpl never.
Arguments JS.join : simpl never.
Arguments JS.ofNat : simpl never.
Arguments JS.trim : simpl never.
Arguments JS.replaceNewlines : simpl never.
Arguments nl : simpl never.
Arguments dq : simpl never.

Lemma isStored_iff (name : string) (ks : list KnowledgeSource) :
  isStored name ks = true <-> exists s, In s ks /\ fileName s = name.
Proof.
  unfold isStored. rewrite existsb_exists.
  split; intros (s & Hs & E); exists s; split; auto.
  - now apply String.eqb_eq.
  - now apply String.eqb_eq.
Qed.

(** C2.  An ingestion attempt under an identifier that some stored
    document already has changes nothing in the knowledge store and sends
    nothing to the service: the attempt returns normally, and the state
    differs from the one before only by the warning written to the
    console. *)
Theorem C2_duplicate_ingestion_is_skipped
  (host : Host) (name articleText : string) (a : App) :
  (exists s, In s (knowledgeSources a) /\ fileName s = name) ->
  analyzeAndStoreDocument host name articleText a
  = (Normal tt, set_console (console a ++ ["Skipping duplicate file: " ++ name]) a)
  /\ let a' := snd (analyzeAndStoreDocument host name articleText a) in
     knowledgeSources a' = knowledgeSources a
     /\ List.length (knowledgeSources a') = List.length (knowledgeSources a)
     /\ calls a' = calls a
     /\ chat a' = chat a.
Proof.
  intros H. apply isStored_iff in H.
  assert (E : analyzeAndStoreDocument host name articleText a
              = (Normal tt, set_console (console a ++ ["Skipping duplicate file: " ++ name]) a)).
  { unfold analyzeAndStoreDocument, bind, gets. rewrite H. reflexivity. }
  split; [exact E|]. rewrite E. cbn. auto.
Qed.

Lemma C2_witness :
  let a := set_knowledgeSources [demo_Chen] initial in
  let a' := snd (analyzeAndStoreDocument (demo_host []) "chen.PDF" "Other text." a) in
  knowledgeSources a' = [demo_Chen] /\ calls a' = [].
Proof.
  destruct (C2_duplicate_ingestion_is_skipped (demo_host []) "chen.PDF" "Other text."
              (set_knowledgeSources [demo_Chen] initial)) as (_ & H1 & _ & H2 & _).
  - exists demo_Chen. split; [left; reflexivity | reflexivity].
  - split; [exact H1 | exact H2].
Defined.

Lemma set_knowledgeList_same (a : App) : set_knowledgeList (knowledgeList a) a = a.
Proof. destruct a; reflexivity. Qed.

Lemma renderCards_run (sources : list KnowledgeSource) (a : App) :
  renderCards sources a
  = (if forallb listsEntities sources then Normal tt else Throw TypeError,
     set_knowledgeList (knowledgeList a ++ cardsOf sources) a).
Proof.
  revert a. induction sources as [|source rest IH]; intros a.
  - cbn [renderCards forallb cardsOf]. rewrite app_nil_r, set_knowledgeList_same.
    reflexivity.
  - cbn [renderCards forallb cardsOf]. unfold listsEntities at 1 3.
    destruct (entities source);
      try (cbn [andb]; rewrite app_nil_r, set_knowledgeList_same; reflexivity).
    cbn [andb]. unfold bind, modify. rewrite IH. cbn [knowledgeList set_knowledgeList].
    rewrite <- app_assoc. reflexivity.
Qed.

(** A rendering throws exactly when some stored document lists no
    entities; the cards of the documents before it are shown. *)
Lemma renderKnowledgeSources_run (a : App) :
  renderKnowledgeSources a
  = (if forallb listsEntities (knowledgeSources a) then Normal tt else Throw TypeError,
     set_knowledgeList (cardsOf (knowledgeSources a))
       (match knowledgeSources a with
        | [] => a
        | _ :: _ => set_sectionsHidden false a
        end)).
Proof.
  unfold renderKnowledgeSources, bind, modify, gets. rewrite renderCards_run.
  destruct a as [l ks]. cbn [knowledgeSources].
  destruct ks; reflexivity.
Qed.

Lemma snoc_not_nil {A B} (l : list A) (x : A) (u v : B) :
  match (l ++ [x])%list with [] => u | _ :: _ => v end = v.
Proof. destruct l; reflexivity. Qed.

(** The [try] block and its [catch], by the answer of the service. *)
Lemma extractAndStore_run (host : Host) (name articleText : string) (a : App) :
  extractAndStore host name articleText a
  = let sent := set_calls (calls a ++ [extractionPrompt articleText]) a in
    let failed (a' : App) :=
      (Throw (Error ("Failed to analyze " ++ name ++ ".")),
       set_console (console a' ++ ["Error analyzing article: " ++ name]) a') in
    match reply host (List.length (calls a)) (extractionPrompt articleText) with
    | None => failed sent
    | Some text =>
        match JSON_extraction host text with
        | None => failed sent
        | Some e =>
            let sources := (knowledgeSources a ++ [stored name articleText e])%list in
            let rendered :=
              set_knowledgeList (cardsOf sources)
                (set_sectionsHidden false (set_knowledgeSources sources sent)) in
            if forallb listsEntities sources then (Normal tt, rendered)
            else failed rendered
        end
    end.
Proof.
  unfold extractAndStore, tryCatch, bind, generateContent, JSON_parse.
  destruct (reply host (List.length (calls a)) (extractionPrompt articleText)) as [text|];
    [destruct (JSON_extraction host text) as [e|]|]; try reflexivity.
  cbv zeta. unfold ret, modify at 1. rewrite renderKnowledgeSources_run.
  fold (stored name articleText e).
  cbn [knowledgeSources set_knowledgeSources set_calls]. rewrite snoc_not_nil.
  destruct (forallb listsEntities (knowledgeSources a ++ [stored name articleText e]));
    reflexivity.
Qed.




(** ** The detailed pipeline *)

Lemma untouched_refl (a : App) : untouchedByGeneration a a.
Proof. repeat split. Qed.

Lemma untouched_trans (a b c : App) :
  untouchedByGeneration a b -> untouchedByGeneration b c -> untouchedByGeneration a c.
Proof.
  unfold untouchedByGeneration. intros H1 H2.
  decompose [and] H1. decompose [and] H2. repeat split; congruence.
Qed.

Lemma cumulative_from_nil (texts : list string) :
  cumulative texts = cumulativeFrom [] texts.
Proof. reflexivity. Qed.

Lemma cumulativeFrom_cons (parts : list string) (t : string) (texts : list string) :
  cumulativeFrom parts (t :: texts)
  = JS.join (nl ++ nl) (parts ++ [t])%list :: cumulativeFrom (parts ++ [t])%list texts.
Proof.
  unfold cumulativeFrom. cbn [List.length seq map firstn]. f_equal.
  rewrite <- seq_shift, map_map. apply map_ext. intros j.
  cbn [firstn]. now rewrite <- app_assoc.
Qed.

Lemma stageStep_refl (a : App) : stageStep a a [] [].
Proof.
  split; [apply untouched_refl|]. now rewrite !app_nil_r.
Qed.

Lemma stageStep_trans (a b c : App) (i1 i2 v1 v2 : list string) :
  stageStep a b i1 v1 -> stageStep b c i2 v2 ->
  stageStep a c (i1 ++ i2) (v1 ++ v2).
Proof.
  intros (U1 & C1 & D1) (U2 & C2 & D2). split; [|split].
  - exact (untouched_trans _ _ _ U1 U2).
  - now rewrite C2, C1, app_assoc.
  - now rewrite D2, D1, app_assoc.
Qed.

(** One stage: the call is recorded; its text, when there is one, closes
    a new version. *)
Lemma writePart_run (host : Host) (prompt : string) (parts : list string) (a : App) :
  match reply host (List.length (calls a)) prompt with
  | Some text =>
      exists a', writePart host prompt parts a = (Normal (parts ++ [text])%list, a') /\
                 stageStep a a' [prompt] [JS.join (nl ++ nl) (parts ++ [text])%list]
  | None =>
      exists a', writePart host prompt parts a = (Throw Rejected, a') /\
                 stageStep a a' [prompt] []
  end.
Proof.
  unfold writePart, bind, generateContent.
  destruct (reply host (List.length (calls a)) prompt) as [text|]; cbn;
    eexists; (split; [reflexivity|]); repeat split; cbn; now rewrite ?app_nil_r.
Qed.

(** An announcement ([setLoading], [addProgressLog]) before a stage. *)
Lemma announce_run {A} (text html : string) (k : M A) (a : App) :
  exists a1, stageStep a a1 [] [] /\
    (setLoading true text ;; addProgressLog html ;; k) a = k a1.
Proof.
  eexists. split; [|reflexivity].
  repeat split; cbn; now rewrite ?app_nil_r.
Qed.

Lemma answers_length (host : Host) (prompts : list string) :
  forall n, List.length (answers host n prompts) <= List.length prompts.
Proof.
  induction prompts as [|p rest IH]; intros n; cbn; [lia|].
  destruct (reply host n p); cbn; [|lia]. specialize (IH (S n)). lia.
Qed.

Lemma writeThemes_run (host : Host) (topic ctx : string) (rest : list string) :
  forall (i : nat) (parts : list string) (a : App),
  let prompts := map (themePrompt topic ctx) rest in
  let texts := answers host (List.length (calls a)) prompts in
  exists r a',
    writeThemes host topic ctx i rest parts a = (r, a') /\
    stageStep a a' (firstn (S (List.length texts)) prompts) (cumulativeFrom parts texts) /\
    (List.length texts = List.length prompts -> r = Normal (parts ++ texts)%list) /\
    (List.length texts < List.length prompts -> r = Throw Rejected).
Proof.
  induction rest as [|theme rest IH]; intros i parts a; cbv zeta.
  - exists (Normal parts), a. cbn. rewrite app_nil_r.
    repeat split; try now rewrite app_nil_r. intros H; inversion H.
  - cbn [writeThemes map answers].
    destruct (announce_run
      ("Step " ++ JS.ofNat (3 + i) ++ ": Developing theme: " ++ theme)
      ("<strong>Step " ++ JS.ofNat (3 + i) ++
       ":</strong> Developing theme: <em>" ++ dq ++ theme ++ dq ++ "</em>...")
      (fullDraftParts <- writePart host (themePrompt topic ctx theme) parts ;;
       writeThemes host topic ctx (S i) rest fullDraftParts) a) as (a1 & S1 & ->).
    assert (L1 : calls a1 = calls a).
    { destruct S1 as (_ & C & _). now rewrite C, app_nil_r. }
    pose proof (writePart_run host (themePrompt topic ctx theme) parts a1) as W.
    rewrite L1 in W. unfold bind at 1.
    destruct (reply host (List.length (calls a)) (themePrompt topic ctx theme)) as [text|].
    + destruct W as (a2 & -> & S2).
      assert (L2 : List.length (calls a2) = S (List.length (calls a))).
      { destruct S2 as (_ & C & _). rewrite C, L1, length_app. cbn. lia. }
      destruct (IH (S i) (parts ++ [text])%list a2) as (r & a' & E & S3 & Hok & Hko).
      rewrite L2 in S3, Hok, Hko.
      exists r, a'. split; [exact E|]. split; [|split].
      * rewrite cumulativeFrom_cons. cbn [List.length firstn].
        exact (stageStep_trans _ _ _ _ _ _ _ S1
                 (stageStep_trans _ _ _ _ _ _ _ S2 S3)).
      * cbn [List.length]. intros H. rewrite Hok by lia. now rewrite <- app_assoc.
      * cbn [List.length]. intros H. apply Hko. lia.
    + destruct W as (a2 & -> & S2).
      exists (Throw Rejected), a2. split; [reflexivity|]. split; [|split].
      * cbn. exact (stageStep_trans _ _ _ _ _ _ _ S1 S2).
      * cbn. discriminate.
      * reflexivity.
Qed.

Lemma answers_app (host : Host) (xs ys : list string) :
  forall n,
  answers host n (xs ++ ys)
  = if Nat.eqb (List.length (answers host n xs)) (List.length xs)
    then (answers host n xs ++ answers host (n + List.length xs) ys)%list
    else answers host n xs.
Proof.
  induction xs as [|x xs IH]; intros n; cbn [app answers List.length].
  - now rewrite Nat.add_0_r.
  - destruct (reply host n x) as [t|]; [|reflexivity].
    cbn [List.length]. rewrite IH. cbn [Nat.eqb].
    replace (n + S (List.length xs)) with (S n + List.length xs) by lia.
    destruct (Nat.eqb _ _); reflexivity.
Qed.

(** What follows a parsed outline, up to the first stage call. *)
Lemma outline_recorded {A} (host : Host) (outline : Outline) (k : M A) (a : App) :
  exists a1, stageStep a a1 [] [outlineHtml outline] /\
    (pushDraft (outlineHtml outline) ;;
     showDraft (outlineHtml outline) ;;
     addProgressLog "Outline created. Now writing sections..." ;;
     setLoading true "Step 2: Writing introduction..." ;;
     addProgressLog "<strong>Step 2:</strong> Writing the introduction..." ;;
     k) a = k a1.
Proof.
  eexists. split; [|reflexivity].
  repeat split; cbn; now rewrite ?app_nil_r.
Qed.

Lemma cumulativeFrom_nil (parts : list string) : cumulativeFrom parts [] = [].
Proof. reflexivity. Qed.

Lemma cumulativeFrom_snoc (xs : list string) (y : string) :
  forall parts,
  cumulativeFrom parts (xs ++ [y])
  = (cumulativeFrom parts xs ++ [JS.join (nl ++ nl) ((parts ++ xs) ++ [y])])%list.
Proof.
  induction xs as [|x xs IH]; intros parts.
  - cbn [app]. rewrite cumulativeFrom_cons, !cumulativeFrom_nil, app_nil_r. reflexivity.
  - cbn [app]. rewrite !cumulativeFrom_cons, IH. cbn [app].
    do 3 f_equal. now rewrite <- !app_assoc.
Qed.

Lemma stageStep_calls_length (a a' : App) (issued versions : list string) :
  stageStep a a' issued versions ->
  List.length (calls a') = List.length (calls a) + List.length issued.
Proof. intros (_ & C & _). now rewrite C, length_app. Qed.

(** The stages after the outline, run from a state [a]. *)
Lemma stages_run (host : Host) (topic ctx : string) (outline : Outline) (a : App) :
  let prompts := stagePrompts topic ctx outline in
  let texts := answers host (List.length (calls a)) prompts in
  exists r a',
    (fullDraftParts <- writePart host (introPrompt topic ctx outline) [] ;;
     fullDraftParts <- writeThemes host topic ctx 0 (themes outline) fullDraftParts ;;
     setLoading true ("Step " ++ JS.ofNat (3 + List.length (themes outline)) ++
                      ": Writing conclusion...") ;;
     addProgressLog ("<strong>Step " ++ JS.ofNat (3 + List.length (themes outline)) ++
                     ":</strong> Writing the conclusion...") ;;
     _ <- writePart host (conclusionPrompt topic ctx outline) fullDraftParts ;;
     ret tt) a = (r, a') /\
    stageStep a a' (firstn (S (List.length texts)) prompts) (cumulative texts) /\
    (List.length texts = List.length prompts -> r = Normal tt) /\
    (List.length texts < List.length prompts -> r = Throw Rejected).
Proof.
  cbv zeta. unfold stagePrompts. cbn [answers].
  set (tprompts := map (themePrompt topic ctx) (themes outline)).
  set (n := List.length (calls a)).
  pose proof (writePart_run host (introPrompt topic ctx outline) [] a) as W.
  fold n in W. unfold bind at 1.
  destruct (reply host n (introPrompt topic ctx outline)) as [t1|].
  2:{ destruct W as (a3 & -> & S3). exists (Throw Rejected), a3.
      split; [reflexivity|]. split; [exact S3|]. split; [discriminate|reflexivity]. }
  destruct W as (a3 & -> & S3). cbn [app] in S3 |- *.
  assert (L3 : List.length (calls a3) = S n).
  { rewrite (stageStep_calls_length _ _ _ _ S3). cbn. fold n. lia. }
  destruct (writeThemes_run host topic ctx (themes outline) 0 [t1] a3)
    as (r4 & a4 & E4 & S4 & Hok & Hko).
  fold tprompts in S4, Hok, Hko. rewrite L3 in S4, Hok, Hko.
  set (tts := answers host (S n) tprompts) in *.
  pose proof (answers_length host tprompts (S n)) as Hle. fold tts in Hle.
  unfold bind at 1. rewrite E4.
  rewrite cumulative_from_nil, answers_app. fold tts.
  destruct (Nat.eqb (List.length tts) (List.length tprompts)) eqn:Q.
  - apply Nat.eqb_eq in Q. rewrite (Hok Q).
    rewrite firstn_all2 in S4 by lia.
    match goal with |- context [(setLoading true ?t ;; addProgressLog ?h ;; ?k) a4] =>
      destruct (announce_run t h k a4) as (a5 & S5 & ->) end.
    pose proof (stageStep_trans _ _ _ _ _ _ _ S3
                 (stageStep_trans _ _ _ _ _ _ _ S4 S5)) as S35.
    rewrite !app_nil_r in S35.
    assert (L5 : List.length (calls a5) = S n + List.length tprompts).
    { rewrite (stageStep_calls_length _ _ _ _ S35). cbn. fold n. lia. }
    pose proof (writePart_run host (conclusionPrompt topic ctx outline) ([t1] ++ tts)%list a5) as W.
    rewrite L5 in W. unfold bind at 1. cbn [answers].
    destruct (reply host (S n + List.length tprompts) (conclusionPrompt topic ctx outline)) as [tc|].
    + destruct W as (a6 & -> & S6). exists (Normal tt), a6.
      split; [reflexivity|]. split; [|split; [reflexivity|]].
      * pose proof (stageStep_trans _ _ _ _ _ _ _ S35 S6) as SS.
        rewrite cumulativeFrom_cons, cumulativeFrom_snoc.
        rewrite firstn_all2 by (cbn; rewrite !length_app; cbn; lia).
        exact SS.
      * cbn. rewrite !length_app. cbn. lia.
    + destruct W as (a6 & -> & S6). exists (Throw Rejected), a6.
      split; [reflexivity|]. split; [|split; [|reflexivity]].
      * pose proof (stageStep_trans _ _ _ _ _ _ _ S35 S6) as SS.
        rewrite app_nil_r, cumulativeFrom_cons.
        rewrite firstn_all2 by (cbn; rewrite !length_app; cbn; lia).
        rewrite app_nil_r in SS. exact SS.
      * cbn. rewrite !length_app. cbn. lia.
  - apply Nat.eqb_neq in Q. assert (Hlt : List.length tts < List.length tprompts) by lia.
    rewrite (Hko Hlt). exists (Throw Rejected), a4.
    split; [reflexivity|]. split; [|split; [|reflexivity]].
    + pose proof (stageStep_trans _ _ _ _ _ _ _ S3 S4) as SS.
      rewrite cumulativeFrom_cons. cbn [List.length].
      rewrite firstn_cons, firstn_app.
      replace (S (List.length tts) - List.length tprompts) with 0 by lia.
      cbn [firstn]. rewrite app_nil_r. exact SS.
    + cbn. rewrite !length_app. cbn. lia.
Qed.

Lemma detailed_run (host : Host) (topic ctx : string) (a : App) :
  exists r a',
    generateDetailedReview host topic ctx a = (r, a') /\
    match outlineOf host (List.length (calls a)) topic ctx with
    | None =>
        stageStep a a' [outlinePrompt topic ctx] [] /\ exists e, r = Throw e
    | Some outline =>
        let prompts := stagePrompts topic ctx outline in
        let texts := answers host (S (List.length (calls a))) prompts in
        stageStep a a' (outlinePrompt topic ctx :: firstn (S (List.length texts)) prompts)
                  (outlineHtml outline :: cumulative texts) /\
        (List.length texts = List.length prompts -> r = Normal tt) /\
        (List.length texts < List.length prompts -> r = Throw Rejected)
    end.
Proof.
  unfold generateDetailedReview, outlineOf.
  match goal with |- context [(setLoading true ?t ;; addProgressLog ?h ;; ?k) a] =>
    destruct (announce_run t h k a) as (a1 & S1 & ->) end.
  assert (L1 : calls a1 = calls a).
  { destruct S1 as (_ & C & _). now rewrite C, app_nil_r. }
  unfold bind at 1. unfold generateContent. rewrite L1.
  destruct (reply host (List.length (calls a)) (outlinePrompt topic ctx)) as [text|].
  2:{ eexists _, _. split; [reflexivity|]. split; [|now eexists].
      apply (stageStep_trans _ _ _ _ _ _ _ S1). repeat split; cbn; now rewrite ?L1, ?app_nil_r. }
  unfold bind at 1. unfold JSON_parse.
  destruct (JSON_outline host text) as [outline|].
  2:{ eexists _, _. split; [reflexivity|]. split; [|now eexists].
      apply (stageStep_trans _ _ _ _ _ _ _ S1). repeat split; cbn; now rewrite ?L1, ?app_nil_r. }
  unfold ret at 1.
  match goal with |- context [ (pushDraft _ ;; showDraft _ ;; addProgressLog _ ;; setLoading true _ ;; addProgressLog _ ;; ?k) ?st ] =>
    destruct (outline_recorded host outline k st) as (a2 & S2 & ->) end.
  assert (S02 : stageStep a a2 [outlinePrompt topic ctx] [outlineHtml outline]).
  { refine (stageStep_trans _ _ _ [] [_] [] [_] S1 _).
    refine (stageStep_trans _ _ _ [_] [] [] [_] _ S2).
    repeat split; cbn; now rewrite ?L1, ?app_nil_r. }
  assert (L2 : List.length (calls a2) = S (List.length (calls a))).
  { rewrite (stageStep_calls_length _ _ _ _ S02). cbn. lia. }
  destruct (stages_run host topic ctx outline a2) as (r & a' & E & SS & Hok & Hko).
  rewrite L2 in SS, Hok, Hko.
  exists r, a'. split; [exact E|]. split; [|split; assumption].
  exact (stageStep_trans _ _ _ _ _ _ _ S02 SS).
Qed.

Lemma answers_all (host : Host) (prompts : list string) :
  forall n,
  (forall k, k < List.length prompts -> reply host (n + k) (nth k prompts "") <> None) ->
  List.length (answers host n prompts) = List.length prompts.
Proof.
  induction prompts as [|p rest IH]; intros n H; cbn [answers List.length]; [reflexivity|].
  pose proof (H 0 (Nat.lt_0_succ _)) as H0. rewrite Nat.add_0_r in H0. cbn [nth] in H0.
  destruct (reply host n p) as [t|]; [|now elim H0].
  cbn [List.length]. f_equal. apply IH. intros k Hk.
  replace (S n + k) with (n + S k) by lia. apply (H (S k)). cbn. lia.
Qed.

Lemma answers_nth (host : Host) (prompts : list string) :
  forall n k, k < List.length (answers host n prompts) ->
  reply host (n + k) (nth k prompts "") = Some (nth k (answers host n prompts) "").
Proof.
  induction prompts as [|p rest IH]; intros n k; cbn [answers List.length]; [lia|].
  destruct (reply host n p) as [t|] eqn:E; cbn [List.length]; [|lia].
  destruct k as [|k]; intros Hk.
  - now rewrite Nat.add_0_r.
  - cbn [nth]. replace (n + S k) with (S n + k) by lia. apply IH. lia.
Qed.

Lemma join_snoc (sep x : string) (l : list string) :
  l <> [] -> JS.join sep (l ++ [x]) = JS.join sep l ++ sep ++ x.
Proof.
  unfold JS.join. induction l as [|y l IH]; intros H; [now elim H|].
  destruct l as [|z l].
  - reflexivity.
  - change (String.concat sep ((y :: z :: l) ++ [x]))
      with (y ++ sep ++ String.concat sep ((z :: l) ++ [x])).
    rewrite IH by discriminate.
    change (String.concat sep (y :: z :: l)) with (y ++ sep ++ String.concat sep (z :: l)).
    now rewrite !append_assoc.
Qed.

Lemma cumulative_length (texts : list string) :
  List.length (cumulative texts) = List.length texts.
Proof. unfold cumulative. now rewrite length_map, length_seq. Qed.

Lemma cumulative_nth (texts : list string) (i : nat) :
  1 <= i <= List.length texts ->
  nth (i - 1) (cumulative texts) "" = JS.join (nl ++ nl) (firstn i texts).
Proof.
  intros H. unfold cumulative.
  rewrite (nth_indep _ "" (JS.join (nl ++ nl) (firstn 0 texts)))
    by (rewrite length_map, length_seq; lia).
  rewrite (map_nth (fun j => JS.join (nl ++ nl) (firstn j texts))).
  rewrite seq_nth by lia. f_equal. f_equal. lia.
Qed.

Lemma firstn_succ_snoc (texts : list string) (i : nat) :
  i < List.length texts -> firstn (S i) texts = (firstn i texts ++ [nth i texts ""])%list.
Proof.
  revert i; induction texts as [|t texts IH]; intros i H; cbn in H; [lia|].
  destruct i as [|i]; [reflexivity|].
  cbn [firstn nth app]. f_equal. apply IH. lia.
Qed.

(** C1, as the code has it.  In a detailed-mode generation whose outline
    call answers an outline of N themes and whose N + 2 later calls all
    succeed, exactly N + 3 versions are appended to the version store, in
    order: the outline markup, then for i = 1 .. N + 2 the texts of the
    first i stages (introduction, themes in outline order, conclusion)
    joined by blank lines.  Every version from the third on (i >= 2) is a
    strict textual extension of the one before it. *)
Theorem C1_detailed_versions
  (host : Host) (topic ctx : string) (a : App) (outlineText : string) (outline : Outline) :
  let n := List.length (calls a) in
  let prompts := stagePrompts topic ctx outline in
  reply host n (outlinePrompt topic ctx) = Some outlineText ->
  JSON_outline host outlineText = Some outline ->
  (forall k, k < List.length prompts -> reply host (S n + k) (nth k prompts "") <> None) ->
  let N := List.length (themes outline) in
  let texts := answers host (S n) prompts in
  let versions := outlineHtml outline :: cumulative texts in
  let run := generateDetailedReview host topic ctx a in
  fst run = Normal tt
  /\ draftHistory (snd run) = (draftHistory a ++ versions)%list
  /\ List.length versions = N + 3
  /\ (forall k, k < N + 2 ->
        reply host (S n + k) (nth k prompts "") = Some (nth k texts ""))
  /\ (forall i, 1 <= i < N + 3 ->
        nth i versions "" = JS.join (nl ++ nl) (firstn i texts))
  /\ (forall i, 2 <= i < N + 3 ->
        extends (nth (i - 1) versions "") (nth i versions "")).
Proof.
  intros n prompts Hreply Hparse Hall N texts versions run.
  assert (Lp : List.length prompts = N + 2).
  { unfold prompts, stagePrompts. cbn [List.length].
    rewrite length_app, length_map. cbn. fold N. lia. }
  assert (Lt : List.length texts = N + 2).
  { unfold texts. rewrite answers_all; [exact Lp | exact Hall]. }
  destruct (detailed_run host topic ctx a) as (r & a' & E & D).
  unfold outlineOf in D. fold n in D. rewrite Hreply, Hparse in D.
  cbv zeta in D. fold prompts in D. fold texts in D.
  destruct D as ((_ & _ & Hd) & Hok & _).
  assert (Hnth : forall i, 1 <= i < N + 3 ->
            nth i versions "" = JS.join (nl ++ nl) (firstn i texts)).
  { intros i Hi. unfold versions. destruct i as [|i]; [lia|].
    cbn [nth]. replace i with (S i - 1) at 1 by lia.
    apply cumulative_nth. lia. }
  unfold run. rewrite E. cbn [fst snd].
  split; [apply Hok; lia|]. split; [exact Hd|].
  split; [unfold versions; cbn [List.length]; rewrite cumulative_length; lia|].
  split; [intros k Hk; apply answers_nth; fold texts; lia|].
  split; [exact Hnth|].
  intros i Hi. rewrite (Hnth i), (Hnth (i - 1)) by lia.
  replace i with (S (i - 1)) at 2 by lia.
  rewrite firstn_succ_snoc by lia.
  exists (nl ++ nl ++ nth (i - 1) texts ""). split.
  - discriminate.
  - rewrite join_snoc.
    + now rewrite append_assoc.
    + destruct texts as [|t texts']; [cbn in Lt; lia|].
      destruct (i - 1) as [|j] eqn:Ej; [lia|]. discriminate.
Qed.

Lemma C1_witness :
  let run := generateDetailedReview (demo_host demo_script) "Retrieval" "" initial in
  fst run = Normal tt /\
  draftHistory (snd run)
  = [outlineHtml demo_outline;
     "Intro.";
     "Intro." ++ nl ++ nl ++ "On methods.";
     "Intro." ++ nl ++ nl ++ "On methods." ++ nl ++ nl ++ "On results.";
     "Intro." ++ nl ++ nl ++ "On methods." ++ nl ++ nl ++ "On results." ++ nl ++ nl ++ "In sum."].
Proof.
  destruct (C1_detailed_versions (demo_host demo_script) "Retrieval" "" initial
              demo_outline_text demo_outline) as (H1 & H2 & _).
  - reflexivity.
  - reflexivity.
  - intros k Hk. do 4 (destruct k as [|k]; [discriminate|]). cbn in Hk. lia.
  - split; [exact H1|]. rewrite H2. reflexivity.
Defined.

(** C1 as stated fails at i = 1: in the run of the example (two themes,
    every call succeeds, five versions) the second version, the
    introduction alone, is not an extension of the first, the outline
    markup. *)
Lemma C1_counterexample :
  let run := generateDetailedReview (demo_host demo_script) "Retrieval" "" initial in
  let versions := draftHistory (snd run) in
  fst run = Normal tt /\
  List.length versions = 5 /\
  ~ extends (nth 0 versions "") (nth 1 versions "").
Proof.
  split; [reflexivity|]. split; [reflexivity|].
  intros (t & _ & H). vm_compute in H. discriminate H.
Qed.

Lemma answers_stop (host : Host) (prompts : list string) :
  forall n, List.length (answers host n prompts) < List.length prompts ->
  reply host (n + List.length (answers host n prompts))
        (nth (List.length (answers host n prompts)) prompts "") = None.
Proof.
  induction prompts as [|p rest IH]; intros n; cbn [answers List.length]; [lia|].
  destruct (reply host n p) as [t|] eqn:E; cbn [List.length nth]; intros H.
  - replace (n + S (List.length (answers host (S n) rest)))
      with (S n + List.length (answers host (S n) rest)) by lia.
    apply IH. lia.
  - now rewrite Nat.add_0_r.
Qed.

Lemma answers_fail (host : Host) (prompts : list string) (n : nat) :
  (exists k, k < List.length prompts /\ reply host (n + k) (nth k prompts "") = None) ->
  List.length (answers host n prompts) < List.length prompts.
Proof.
  intros (k & Hk & E).
  pose proof (answers_length host prompts n) as Hle.
  destruct (Nat.eq_dec (List.length (answers host n prompts)) (List.length prompts)) as [Q|Q];
    [|lia].
  rewrite answers_nth in E by lia. discriminate E.
Qed.

(** C4.  In a detailed-mode run in which some stage's call fails, the
    pipeline stops at that call: it is the last prompt sent.  The listener
    reports the failure and returns; the editor, the writing assistant,
    the version buttons and the references are as the reset at the start
    of the run left them, so no draft is committed as the final review.
    The version store holds exactly the versions of the stages that
    completed before the failure. *)
Theorem C4_failed_stage_aborts_pipeline (host : Host) (a : App) :
  let topic := JS.trim (reviewTopicInput a) in
  let ctx := knowledgeContextOf (knowledgeSources a) in
  let n := List.length (calls a) in
  JS.truthy topic = true ->
  reviewLength a = "detailed" ->
  stageFails host n topic ctx ->
  let run := handleGenerateReview host a in
  let a' := snd run in
  fst run = Normal tt
  /\ alerts a' = (alerts a ++ ["An error occurred. Please check the console."])%list
  /\ isLoading a' = false
  /\ writingEditor a' = writingEditor a
  /\ writingAssistantHidden a' = true
  /\ draftVersionControls a' = []
  /\ referencesHidden a' = true
  /\ referencesList a' = []
  /\ match outlineOf host n topic ctx with
     | None =>
         calls a' = (calls a ++ [outlinePrompt topic ctx])%list /\
         draftHistory a' = []
     | Some outline =>
         let prompts := stagePrompts topic ctx outline in
         let texts := answers host (S n) prompts in
         List.length texts < List.length prompts /\
         reply host (S n + List.length texts) (nth (List.length texts) prompts "") = None /\
         calls a' = (calls a ++ outlinePrompt topic ctx
                              :: firstn (S (List.length texts)) prompts)%list /\
         draftHistory a' = outlineHtml outline :: cumulative texts
     end.
Proof.
  intros topic ctx n Ht Hl Hf run a'.
  assert (E : run = tryFinally
                      (tryCatch (generateDetailedReview host topic ctx ;; commitReview host)
                                (fun _ => reportFailure))
                      (setLoading false "Processing...") (resetReview a)).
  { unfold run, handleGenerateReview, bind at 1, gets at 1. fold topic. rewrite Ht.
    cbn [negb]. unfold bind at 1, modify at 1, bind at 1, gets at 1.
    replace (reviewLength (resetReview a)) with "detailed" by (now rewrite <- Hl).
    reflexivity. }
  destruct (detailed_run host topic ctx (resetReview a)) as (r & a1 & E1 & D).
  change (calls (resetReview a)) with (calls a) in D. fold n in D.
  assert (Hthrow : exists e, r = Throw e).
  { unfold stageFails in Hf. destruct (outlineOf host n topic ctx) as [outline|].
    - destruct D as (_ & _ & Hko). exists Rejected. apply Hko.
      now apply answers_fail.
    - exact (proj2 D). }
  destruct Hthrow as (e & ->).
  assert (E2 : run = (Normal tt,
                      set_loaderText "Processing..."
                        (set_isLoading false (snd (reportFailure a1))))).
  { rewrite E. unfold tryFinally, tryCatch, bind at 1. rewrite E1. reflexivity. }
  assert (U : untouchedByGeneration (resetReview a) a1
              /\ calls a1 = (calls a ++ match outlineOf host n topic ctx with
                                        | Some outline =>
                                            outlinePrompt topic ctx
                                            :: firstn (S (List.length
                                                 (answers host (S n) (stagePrompts topic ctx outline))))
                                                 (stagePrompts topic ctx outline)
                                        | None => [outlinePrompt topic ctx]
                                        end)%list
              /\ draftHistory a1 = match outlineOf host n topic ctx with
                                   | Some outline =>
                                       outlineHtml outline
                                       :: cumulative (answers host (S n) (stagePrompts topic ctx outline))
                                   | None => []
                                   end).
  { destruct (outlineOf host n topic ctx) as [outline|].
    - destruct D as ((U & C & H) & _). split; [exact U | split; [exact C | exact H]].
    - destruct D as ((U & C & H) & _). split; [exact U | split; [exact C | exact H]]. }
  destruct U as (U & C & H).
  destruct U as (_ & _ & _ & Ued & _ & Uwa & Udv & Urh & Url & Ual & _).
  cbn in Ued, Uwa, Udv, Urh, Url, Ual.
  unfold a'. rewrite E2. cbn [fst snd]. cbn.
  repeat (split; [first [reflexivity | assumption | congruence]|]).
  unfold stageFails in Hf. destruct (outlineOf host n topic ctx) as [outline|].
  - cbv zeta. pose proof (answers_fail host _ (S n) Hf) as Hlt.
    split; [exact Hlt|]. split; [exact (answers_stop host _ (S n) Hlt)|]. split; assumption.
  - split; assumption.
Qed.

Lemma C4_witness :
  let a := set_reviewTopicInput " Retrieval " initial in
  let run := handleGenerateReview
               (demo_host [Some demo_outline_text; Some "Intro."; None]) a in
  draftHistory (snd run) = [outlineHtml demo_outline; "Intro."] /\
  List.length (calls (snd run)) = 3 /\
  writingAssistantHidden (snd run) = true /\
  writingEditor (snd run) = [].
Proof.
  destruct (C4_failed_stage_aborts_pipeline
              (demo_host [Some demo_outline_text; Some "Intro."; None])
              (set_reviewTopicInput " Retrieval " initial))
    as (_ & _ & _ & He & Hw & _ & _ & _ & H).
  - reflexivity.
  - reflexivity.
  - unfold stageFails.
    replace (outlineOf _ _ _ _) with (Some demo_outline) by reflexivity.
    exists 1. split; [cbn; lia | reflexivity].
  - replace (outlineOf _ _ _ _) with (Some demo_outline) in H by reflexivity.
    destruct H as (_ & _ & Hc & Hd).
    split; [rewrite Hd; reflexivity|]. split; [rewrite Hc; reflexivity|].
    split; [exact Hw | exact He].
Defined.

(** ** The version list *)

Lemma activate_length (k : nat) (buttons : list VersionButton) :
  List.length (activate k buttons) = List.length buttons.
Proof.
  revert k; induction buttons as [|b r IH]; intros [|k]; cbn; auto.
Qed.

Lemma activate_nth (buttons : list VersionButton) :
  forall k i,
  nth_error (activate k buttons) i
  = if Nat.eqb i k
    then option_map (fun b => {| label := label b; dataIndex := dataIndex b; active := true |})
                    (nth_error buttons i)
    else nth_error buttons i.
Proof.
  induction buttons as [|b r IH]; intros k i.
  - destruct k, i; cbn; try reflexivity; now destruct (Nat.eqb i k).
  - destruct k as [|k], i as [|i]; cbn; try reflexivity. apply IH.
Qed.

(** C8, as the code has it.  For a non-empty version store the rendered
    list has one button per version, in order.  The first is labelled
    [Outline]; the last is labelled [Final] when it is not also the first;
    every other one is labelled [Step i], i its index, so that the steps
    after the outline count from 1.  Exactly one button is marked active:
    the last. *)
Theorem C8_version_labels (a : App) :
  draftHistory a <> [] ->
  let len := List.length (draftHistory a) in
  let buttons := draftVersionControls (snd (renderDraftViewer a)) in
  List.length buttons = len /\
  forall i b, nth_error buttons i = Some b ->
    dataIndex b = i /\
    (i = 0 -> label b = "Outline") /\
    (0 < i -> i = len - 1 -> label b = "Final") /\
    (0 < i -> i < len - 1 -> label b = "Step " ++ JS.ofNat i) /\
    (active b = true <-> i = len - 1).
Proof.
  intros Hne len buttons.
  assert (Hlen : 0 < len).
  { unfold len. destruct (draftHistory a); [now elim Hne | cbn; lia]. }
  unfold buttons, renderDraftViewer, modify. cbn [snd draftVersionControls set_draftVersionControls].
  fold len. split.
  - now rewrite activate_length, length_map, length_seq.
  - intros i b. rewrite activate_nth, nth_error_map.
    destruct (nth_error (seq 0 len) i) as [j|] eqn:Ej.
    2:{ cbn. now destruct (Nat.eqb i (len - 1)). }
    assert (Hi : i < len).
    { assert (H : nth_error (seq 0 len) i <> None) by (rewrite Ej; discriminate).
      apply nth_error_Some in H. now rewrite length_seq in H. }
    assert (j = i) as ->.
    { rewrite nth_error_nth' with (d := 0) in Ej by (rewrite length_seq; lia).
      rewrite seq_nth in Ej by lia. injection Ej; lia. }
    cbn [option_map]. unfold versionLabel.
    destruct (Nat.eqb i (len - 1)) eqn:Q; intros [= <-]; cbn [dataIndex label active].
    + apply Nat.eqb_eq in Q. split; [reflexivity|]. split; [|split; [|split]].
      * intros ->. reflexivity.
      * intros H0 _. destruct i; [lia | reflexivity].
      * lia.
      * tauto.
    + apply Nat.eqb_neq in Q. split; [reflexivity|]. split; [|split; [|split]].
      * intros ->. reflexivity.
      * lia.
      * intros H0 _. destruct i; [lia | reflexivity].
      * split; [discriminate | contradiction].
Qed.

Lemma C8_witness :
  let a := set_draftHistory ["<h3>Outline</h3>"; "Intro."; "Intro. Body."; "Intro. Body. End."] initial in
  map label (draftVersionControls (snd (renderDraftViewer a)))
  = ["Outline"; "Step 1"; "Step 2"; "Final"] /\
  map active (draftVersionControls (snd (renderDraftViewer a)))
  = [false; false; false; true].
Proof.
  destruct (C8_version_labels
              (set_draftHistory ["<h3>Outline</h3>"; "Intro."; "Intro. Body."; "Intro. Body. End."]
                 initial)) as (_ & _).
  - discriminate.
  - split; reflexivity.
Defined.

(** C8 as stated fails on a store of one version, which is what the
    concise mode leaves: its only button is the first and is labelled
    [Outline], so the last entry is not labelled [Final]. *)
Lemma C8_counterexample :
  let a := set_reviewLength "concise" (set_reviewTopicInput "Retrieval" initial) in
  let a' := snd (handleGenerateReview (demo_host [Some "A concise draft."]) a) in
  draftHistory a' = ["A concise draft."] /\
  draftVersionControls a' = [{| label := "Outline"; dataIndex := 0; active := true |}] /\
  last (map label (draftVersionControls a')) "" <> "Final".
Proof.
  split; [reflexivity|]. split; [reflexivity|]. discriminate.
Qed.

(** ** Empty input *)

Lemma trimStart_length (s : string) : String.length (JS.trimStart s) <= String.length s.
Proof.
  induction s as [|c s IH]; cbn; [lia|].
  destruct (JS.isWhiteSpace c); cbn; lia.
Qed.

Lemma trimEnd_length (s : string) : String.length (JS.trimEnd s) <= String.length s.
Proof.
  induction s as [|c s IH]; cbn; [lia|].
  destruct (JS.trimEnd s) as [|d r]; [destruct (JS.isWhiteSpace c)|]; cbn in *; lia.
Qed.

Lemma trim_length (s : string) : String.length (JS.trim s) <= String.length s.
Proof.
  unfold JS.trim. pose proof (trimEnd_length (JS.trimStart s)).
  pose proof (trimStart_length s). lia.
Qed.

(** C9, as the code has it.  With an empty trimmed article text,
    [handleProcessArticle] shows a message and returns; with a draft whose
    trimmed text is shorter than 50 units (so with every draft shorter than
    50), [handleSimilarityCheck] shows a message and returns; with an empty
    trimmed topic, [handleGenerateReview] returns at once and shows
    nothing.  In the three cases no call is sent and nothing else in the
    state changes. *)
Theorem C9_empty_input_is_rejected_locally (host : Host) (a : App) :
  (JS.trim (articleInput a) = "" ->
   handleProcessArticle host a
   = (Normal tt,
      set_alerts (alerts a ++ ["Please paste text into the text area or upload a file."]) a)
   /\ calls (snd (handleProcessArticle host a)) = calls a)
  /\
  (JS.trim (reviewTopicInput a) = "" ->
   handleGenerateReview host a = (Normal tt, a))
  /\
  (String.length (JS.trim (innerText host (writingEditor a))) < 50 ->
   handleSimilarityCheck host a
   = (Normal tt,
      set_alerts (alerts a ++ ["Please write more text before checking for similarity."]) a)
   /\ calls (snd (handleSimilarityCheck host a)) = calls a)
  /\
  (String.length (innerText host (writingEditor a)) < 50 ->
   String.length (JS.trim (innerText host (writingEditor a))) < 50).
Proof.
  split; [|split; [|split]].
  - intros H.
    assert (E : handleProcessArticle host a
                = (Normal tt,
                   set_alerts (alerts a ++ ["Please paste text into the text area or upload a file."]) a)).
    { unfold handleProcessArticle, bind at 1, gets at 1. rewrite H. reflexivity. }
    split; [exact E | now rewrite E].
  - intros H. unfold handleGenerateReview, bind at 1, gets at 1. rewrite H. reflexivity.
  - intros H.
    assert (E : handleSimilarityCheck host a
                = (Normal tt,
                   set_alerts (alerts a ++ ["Please write more text before checking for similarity."]) a)).
    { unfold handleSimilarityCheck, bind at 1, gets at 1.
      apply Nat.ltb_lt in H. rewrite H. reflexivity. }
    split; [exact E | now rewrite E].
  - intros H. pose proof (trim_length (innerText host (writingEditor a))). lia.
Qed.

Lemma C9_witness :
  let a := set_writingEditor [Text "  Too short.  "]
             (set_reviewTopicInput "   " (set_articleInput "  " initial)) in
  alerts (snd (handleProcessArticle (demo_host []) a))
  = ["Please paste text into the text area or upload a file."]
  /\ handleGenerateReview (demo_host []) a = (Normal tt, a)
  /\ alerts (snd (handleSimilarityCheck (demo_host []) a))
     = ["Please write more text before checking for similarity."]
  /\ calls (snd (handleSimilarityCheck (demo_host []) a)) = [].
Proof.
  destruct (C9_empty_input_is_rejected_locally (demo_host [])
              (set_writingEditor [Text "  Too short.  "]
                 (set_reviewTopicInput "   " (set_articleInput "  " initial))))
    as (H1 & H2 & H3 & _).
  destruct (H1 eq_refl) as (E1 & _).
  assert (L : String.length (JS.trim "  Too short.  ") < 50) by (vm_compute; lia).
  destruct (H3 L) as (E3 & C3).
  split; [rewrite E1; reflexivity|]. split; [exact (H2 eq_refl)|].
  split; [rewrite E3; reflexivity | exact C3].
Defined.

(** C9 as stated fails for the review form: submitted with a blank topic
    it is turned down without any message.  The state after the listener
    is the state before it; no alert was shown.  It fails for files
    selected several at a time as well: the loop of [handleFileSelect]
    hands the trimmed text of each file to [analyzeAndStoreDocument]
    without testing it, so for two files of white space two extraction
    calls are sent over an empty text, no message is shown, and two
    documents without text are stored. *)
Lemma C9_counterexample :
  (let a := set_reviewTopicInput "   " initial in
   JS.trim (reviewTopicInput a) = "" /\
   handleGenerateReview (demo_host []) a = (Normal tt, a) /\
   ~ (exists message,
        alerts (snd (handleGenerateReview (demo_host []) a)) = (alerts a ++ [message])%list))
  /\
  (let files := [demo_blank "a.txt"; demo_blank "b.txt"] in
   let host := demo_host [Some demo_extraction_text; Some demo_extraction_text] in
   let run := Page.handleFileSelect host files initialPage in
   map (fun file => option_map JS.trim (Page.content file)) files = [Some ""; Some ""] /\
   fst run = Normal tt /\
   calls (Page.app (snd run)) = [extractionPrompt ""; extractionPrompt ""] /\
   alerts (Page.app (snd run)) = [] /\
   map (fun d => (fileName d, fullText d)) (knowledgeSources (Page.app (snd run)))
   = [("a.txt", ""); ("b.txt", "")]).
Proof.
  split.
  - split; [reflexivity|]. split; [reflexivity|].
    intros (message & H). discriminate H.
  - vm_compute. repeat split.
Qed.

(** ** The bibliography *)

Lemma includes_iff (s p : string) : JS.includes s p = true <-> occursIn p s.
Proof.
  unfold JS.includes, occursIn. destruct (JS.indexOf s p) as [i|] eqn:E.
  - split; [intros _ | reflexivity].
    destruct (indexOf_Some _ _ _ E) as (H & _). eauto.
  - split; [discriminate|]. intros (x & y & H).
    now elim (indexOf_None _ _ E x y).
Qed.

Section Collect.

Variable finalDraft : string.

Lemma collectCited_sound (sources : list KnowledgeSource) :
  forall acc d, In d (collectCited finalDraft sources acc) ->
  In d acc \/ (In d sources /\ cites finalDraft d).
Proof.
  induction sources as [|x rest IH]; intros acc d; cbn [collectCited]; [auto|].
  intros H. apply IH in H. destruct H as [H|(H & Hc)]; [|right; split; [now right|exact Hc]].
  destruct (JS.includes finalDraft (citation x)) eqn:E; [|now left].
  destruct (negb (isStored (fileName x) acc)); [|now left].
  apply in_app_or in H. destruct H as [H|[<-|[]]]; [now left|].
  right. split; [now left|]. now apply includes_iff.
Qed.

Lemma collectCited_keeps (sources : list KnowledgeSource) :
  forall acc d, In d acc -> In d (collectCited finalDraft sources acc).
Proof.
  induction sources as [|x rest IH]; intros acc d H; cbn [collectCited]; [exact H|].
  apply IH. destruct (JS.includes finalDraft (citation x)); [|exact H].
  destruct (negb (isStored (fileName x) acc)); [|exact H].
  apply in_or_app. now left.
Qed.

Lemma collectCited_complete (sources : list KnowledgeSource) :
  forall acc d, In d sources -> cites finalDraft d ->
  isStored (fileName d) (collectCited finalDraft sources acc) = true.
Proof.
  induction sources as [|x rest IH]; intros acc d; cbn [collectCited In]; [contradiction|].
  intros [->|H] Hc; [|now apply IH].
  apply includes_iff in Hc. rewrite Hc.
  apply isStored_iff.
  destruct (isStored (fileName d) acc) eqn:E; cbn [negb].
  - apply isStored_iff in E. destruct E as (s & Hs & Es).
    exists s. split; [now apply collectCited_keeps | exact Es].
  - exists d. split; [|reflexivity].
    apply collectCited_keeps, in_or_app. right. now left.
Qed.

Lemma collectCited_NoDup (sources : list KnowledgeSource) :
  forall acc, NoDup (map fileName acc) ->
  NoDup (map fileName (collectCited finalDraft sources acc)).
Proof.
  induction sources as [|x rest IH]; intros acc H; cbn [collectCited]; [exact H|].
  apply IH. destruct (JS.includes finalDraft (citation x)); [|exact H].
  destruct (isStored (fileName x) acc) eqn:E; cbn [negb]; [exact H|].
  rewrite map_app. cbn [map].
  apply NoDup_app; [exact H | repeat constructor; auto |].
  intros name Hn [<-|[]].
  apply in_map_iff in Hn. destruct Hn as (s & Es & Hs).
  assert (isStored (fileName x) acc = true) by (apply isStored_iff; eauto).
  congruence.
Qed.

End Collect.

Lemma NoDup_fileName_eq (ks : list KnowledgeSource) (x y : KnowledgeSource) :
  NoDup (map fileName ks) -> In x ks -> In y ks -> fileName x = fileName y -> x = y.
Proof.
  induction ks as [|k ks IH]; cbn [map In]; [contradiction|].
  intros H [->|Hx] [->|Hy] E; inversion H as [|? ? Hn Hd]; subst.
  - reflexivity.
  - elim Hn. rewrite E. now apply in_map.
  - elim Hn. rewrite <- E. now apply in_map.
  - now apply IH.
Qed.

Section Sorting.

Variable host : Host.

Lemma insertSorted_perm (x : KnowledgeSource) (l : list KnowledgeSource) :
  Permutation (x :: l) (insertSorted host x l).
Proof.
  induction l as [|y r IH]; cbn [insertSorted]; [apply Permutation_refl|].
  destruct (byAuthor host x y <=? 0)%Z; [apply Permutation_refl|].
  eapply perm_trans; [apply perm_swap|]. now apply perm_skip.
Qed.

Lemma sort_perm (l : list KnowledgeSource) : Permutation l (sort host l).
Proof.
  induction l as [|x r IH]; cbn [sort]; [constructor|].
  eapply perm_trans; [apply perm_skip, IH | apply insertSorted_perm].
Qed.

Lemma insertSorted_sorted (x : KnowledgeSource) (l : list KnowledgeSource) :
  (forall y, In y l -> authorLe host x y \/ authorLe host y x) ->
  (forall u v w, In u (x :: l) -> In v (x :: l) -> In w (x :: l) ->
                 authorLe host u v -> authorLe host v w -> authorLe host u w) ->
  StronglySorted (authorLe host) l -> StronglySorted (authorLe host) (insertSorted host x l).
Proof.
  intros Htot Htr Hs. induction Hs as [|y r Hs IH Hy]; cbn [insertSorted].
  - repeat constructor.
  - destruct (byAuthor host x y <=? 0)%Z eqn:Q.
    + apply Z.leb_le in Q. constructor; [now constructor|].
      constructor; [exact Q|]. rewrite Forall_forall in Hy |- *.
      intros z Hz. apply (Htr x y z); cbn; auto.
    + apply Z.leb_gt in Q. constructor.
      * apply IH.
        -- intros z Hz. apply Htot. now right.
        -- intros u v w Hu Hv Hw. apply Htr; cbn in *; tauto.
      * assert (Hyx : authorLe host y x).
        { destruct (Htot y (or_introl eq_refl)) as [H|H]; [|exact H].
          unfold authorLe, byAuthor in *. lia. }
        rewrite Forall_forall in Hy |- *. intros z Hz.
        apply (Permutation_in _ (Permutation_sym (insertSorted_perm x r))) in Hz.
        destruct Hz as [<-|Hz]; [exact Hyx | now apply Hy].
Qed.

Lemma sort_sorted (l : list KnowledgeSource) :
  (forall x y, In x l -> In y l -> authorLe host x y \/ authorLe host y x) ->
  (forall u v w, In u l -> In v l -> In w l -> authorLe host u v -> authorLe host v w -> authorLe host u w) ->
  StronglySorted (authorLe host) (sort host l).
Proof.
  induction l as [|x r IH]; intros Htot Htr; cbn [sort]; [constructor|].
  apply insertSorted_sorted.
  - intros y Hy. apply (Permutation_in _ (Permutation_sym (sort_perm r))) in Hy.
    apply Htot; cbn; auto.
  - intros u v w Hu Hv Hw.
    assert (P : forall z, In z (x :: sort host r) -> In z (x :: r)).
    { intros z [<-|Hz]; [now left|right].
      exact (Permutation_in _ (Permutation_sym (sort_perm r)) Hz). }
    apply Htr; auto.
  - apply IH.
    + intros y z Hy Hz. apply Htot; now right.
    + intros u v w Hu Hv Hw. apply Htr; now right.
Qed.

End Sorting.

Lemma drop_length (n : nat) (s : string) :
  String.length (JS.drop n s) = String.length s - n.
Proof.
  revert s; induction n as [|n IH]; intros [|c s]; cbn; auto; lia.
Qed.

Lemma eqb_ci_length (a b : string) :
  JS.eqb_ci a b = true -> String.length a = String.length b.
Proof.
  revert b; induction a as [|x a IH]; intros [|y b]; cbn; try discriminate; auto.
  intros H. apply andb_true_iff in H. f_equal. now apply IH.
Qed.

Lemma suffix_append (b t : string) : JS.suffix (String.length t) (b ++ t) = Some t.
Proof.
  unfold JS.suffix. rewrite length_append.
  replace (String.length t <=? String.length b + String.length t)%nat with true
    by (symmetry; apply Nat.leb_le; lia).
  replace (String.length b + String.length t - String.length t) with (String.length b) by lia.
  now rewrite drop_append.
Qed.

Lemma suffix_inv (n : nat) (s t : string) :
  JS.suffix n s = Some t ->
  s = JS.take (String.length s - n) s ++ t /\ String.length t = n.
Proof.
  unfold JS.suffix. destruct (n <=? String.length s)%nat eqn:Q; [|discriminate].
  apply Nat.leb_le in Q. intros [= <-]. split.
  - now rewrite take_drop.
  - rewrite drop_length. lia.
Qed.

Lemma endsWith_ci_append (b t e : string) :
  JS.eqb_ci t e = true -> JS.endsWith_ci (b ++ t) e = true.
Proof.
  intros H. unfold JS.endsWith_ci.
  rewrite <- (eqb_ci_length _ _ H), suffix_append. exact H.
Qed.

Lemma endsWith_ci_inv (s e : string) :
  JS.endsWith_ci s e = true ->
  exists t, s = JS.take (String.length s - String.length e) s ++ t /\ JS.eqb_ci t e = true.
Proof.
  unfold JS.endsWith_ci. destruct (JS.suffix (String.length e) s) as [t|] eqn:E; [|discriminate].
  intros H. exists t. split; [|exact H]. now apply suffix_inv in E.
Qed.

(** A text that ends in [.md] does not end in [.txt] or [.pdf]. *)
Lemma md_is_not_longer (base ext e4 : string) :
  JS.eqb_ci ext ".md" = true -> e4 = ".txt" \/ e4 = ".pdf" ->
  JS.endsWith_ci (base ++ ext) e4 = false.
Proof.
  intros Hmd He4.
  destruct (JS.endsWith_ci (base ++ ext) e4) eqn:E; [|reflexivity]. exfalso.
  unfold JS.endsWith_ci in E.
  destruct (JS.suffix (String.length e4) (base ++ ext)) as [t|] eqn:Es; [|discriminate].
  assert (L4 : String.length e4 = 4) by (destruct He4 as [->| ->]; reflexivity).
  assert (Hext : ext = JS.drop 1 t).
  { unfold JS.suffix in Es. rewrite L4 in Es.
    destruct (4 <=? String.length (base ++ ext))%nat eqn:Q; [|discriminate].
    apply Nat.leb_le in Q. injection Es as <-.
    rewrite drop_drop. rewrite length_append in *.
    pose proof (eqb_ci_length _ _ Hmd) as L3. cbn in L3.
    replace (String.length base + String.length ext - 4 + 1) with (String.length base) by lia.
    now rewrite drop_append. }
  destruct t as [|c1 [|c2 t]]; cbn in Hext; subst ext.
  - destruct He4 as [->| ->]; discriminate E.
  - discriminate Hmd.
  - cbn [JS.eqb_ci] in Hmd. apply andb_true_iff in Hmd. destruct Hmd as (H2 & _).
    apply Ascii.eqb_eq in H2.
    destruct He4 as [->| ->]; cbn [JS.eqb_ci] in E;
      apply andb_true_iff in E; destruct E as (_ & E);
      apply andb_true_iff in E; destruct E as (E & _);
      apply Ascii.eqb_eq in E; rewrite E in H2; discriminate H2.
Qed.

Lemma stripExtension_ext (base ext : string) :
  isExtension ext = true -> JS.stripExtension (base ++ ext) = base.
Proof.
  unfold isExtension, JS.stripExtension. intros H.
  destruct (JS.eqb_ci ext ".txt") eqn:E1.
  - rewrite (endsWith_ci_append base _ _ E1). cbn [orb].
    rewrite length_append, (eqb_ci_length _ _ E1). cbn [String.length].
    replace (String.length base + 4 - 4) with (String.length base) by lia.
    apply take_append.
  - destruct (JS.eqb_ci ext ".pdf") eqn:E2.
    + rewrite (endsWith_ci_append base _ _ E2), orb_true_r.
      rewrite length_append, (eqb_ci_length _ _ E2). cbn [String.length].
      replace (String.length base + 4 - 4) with (String.length base) by lia.
      apply take_append.
    + cbn [orb] in H.
      rewrite (md_is_not_longer base ext ".txt" H (or_introl eq_refl)).
      rewrite (md_is_not_longer base ext ".pdf" H (or_intror eq_refl)). cbn [orb].
      rewrite (endsWith_ci_append base _ _ H).
      rewrite length_append, (eqb_ci_length _ _ H). cbn [String.length].
      replace (String.length base + 3 - 3) with (String.length base) by lia.
      apply take_append.
Qed.

Lemma stripExtension_other (s : string) :
  (forall base ext, isExtension ext = true -> s <> base ++ ext) ->
  JS.stripExtension s = s.
Proof.
  intros H. unfold JS.stripExtension.
  assert (N : forall e, isExtension e = true -> JS.endsWith_ci s e = false).
  { intros e He. destruct (JS.endsWith_ci s e) eqn:E; [|reflexivity].
    apply endsWith_ci_inv in E. destruct E as (t & Es & Et).
    elim (H (JS.take (String.length s - String.length e) s) t); [|exact Es].
    unfold isExtension in *.
    assert (forall x, JS.eqb_ci e x = true -> JS.eqb_ci t x = true) as T.
    { clear - Et. revert e Et. induction t as [|c t IH]; intros [|d e] Et [|x y];
        cbn in *; try discriminate; auto.
      apply andb_true_iff in Et. destruct Et as (E1 & E2).
      intros H. apply andb_true_iff in H. destruct H as (H1 & H2).
      apply Ascii.eqb_eq in E1, H1. apply andb_true_iff. split.
      - apply Ascii.eqb_eq. congruence.
      - exact (IH e E2 y H2). }
    destruct (JS.eqb_ci e ".txt") eqn:Q1; [now rewrite (T _ Q1)|].
    destruct (JS.eqb_ci e ".pdf") eqn:Q2; [now rewrite (T _ Q2), orb_true_r|].
    cbn [orb] in He. now rewrite (T _ He), !orb_true_r. }
  now rewrite (N ".txt"), (N ".pdf"), (N ".md").
Qed.

Lemma generateBibliography_run (host : Host) (a : App) :
  generateBibliography host a
  = match citedSourcesOf host a with
    | [] => (Normal tt, set_referencesHidden true a)
    | _ :: _ =>
        if sortThrows host (citedSourcesOf host a)
        then (Throw TypeError, set_referencesList [] a)
        else (Normal tt,
              set_referencesHidden false
                (set_referencesList
                   (map reference (sort host (citedSourcesOf host a))) a))
    end.
Proof.
  unfold generateBibliography, bind, gets, modify.
  destruct (citedSourcesOf host a) as [|x r]; [reflexivity|].
  destruct (sortThrows host (x :: r)); reflexivity.
Qed.

(** No call of the comparator throws where every author is a string. *)
Lemma sortThrows_strings (host : Host) (l : list KnowledgeSource) :
  (forall d, In d l -> authorIsString d = true) -> sortThrows host l = false.
Proof.
  intros H. unfold sortThrows.
  replace (forallb authorIsString l) with true
    by (symmetry; apply forallb_forall; exact H).
  cbn [negb]. now rewrite andb_false_r.
Qed.

(** C3, as the code has it.  Over a knowledge store with unique
    identifiers, whose authors are strings that the comparison orders,
    the bibliography is made without an error and its sources are exactly
    the stored documents whose token [(Author, Year)] occurs literally in
    the editor's markup, which is what the code reads as the final
    draft.  They are in ascending order of author and no identifier
    appears twice.  Each is shown as [Author. (Year). Title.], the title
    being the identifier without a final [.txt], [.pdf] or [.md] in any
    mix of cases.  Where no stored document's token occurs in the markup
    the references section is hidden. *)
Theorem C3_bibliography (host : Host) (a : App) :
  let ks := knowledgeSources a in
  let finalDraft := innerHTML host (writingEditor a) in
  NoDup (map fileName ks) ->
  (forall d, In d ks -> authorIsString d = true) ->
  (forall x y, In x ks -> In y ks ->
     (byAuthor host x y <= 0)%Z \/ (byAuthor host y x <= 0)%Z) ->
  (forall x y z, In x ks -> In y ks -> In z ks ->
     (byAuthor host x y <= 0)%Z -> (byAuthor host y z <= 0)%Z -> (byAuthor host x z <= 0)%Z) ->
  let cited := sort host (citedSourcesOf host a) in
  let a' := snd (generateBibliography host a) in
  fst (generateBibliography host a) = Normal tt
  /\ (forall d, In d cited <-> In d ks /\ occursIn (citation d) finalDraft)
  /\ (forall d, citation d
                = "(" ++ toString (author d) ++ ", " ++ toString (year d) ++ ")")
  /\ StronglySorted (authorLe host) cited
  /\ NoDup (map fileName cited)
  /\ (cited <> [] ->
      referencesHidden a' = false /\ referencesList a' = map reference cited)
  /\ ((forall d, In d ks -> ~ occursIn (citation d) finalDraft) ->
      referencesHidden a' = true)
  /\ (forall d, reference d
                = toString (author d) ++ ". (" ++ toString (year d) ++ "). "
                  ++ JS.stripExtension (fileName d) ++ ".")
  /\ (forall base ext, isExtension ext = true -> JS.stripExtension (base ++ ext) = base)
  /\ (forall s, (forall base ext, isExtension ext = true -> s <> base ++ ext) ->
                JS.stripExtension s = s).
Proof.
  intros ks finalDraft Hnd Hstr Htot Htr cited a'. subst cited a'.
  rewrite generateBibliography_run.
  set (raw := citedSourcesOf host a).
  assert (Hraw : forall d, In d raw <-> In d ks /\ occursIn (citation d) finalDraft).
  { intros d. unfold raw, citedSourcesOf. fold ks. fold finalDraft. split.
    - intros H. apply collectCited_sound in H. destruct H as [[]|H]. exact H.
    - intros (Hk & Hc).
      pose proof (collectCited_complete finalDraft ks [] d Hk Hc) as H.
      apply isStored_iff in H. destruct H as (s & Hs & Es).
      assert (Hsk : In s ks).
      { apply collectCited_sound in Hs. destruct Hs as [[]|(Hs & _)]. exact Hs. }
      now rewrite <- (NoDup_fileName_eq ks s d Hnd Hsk Hk Es). }
  assert (Hok : sortThrows host raw = false).
  { apply sortThrows_strings. intros d Hd. apply Hstr. now apply (Hraw d). }
  rewrite Hok.
  assert (Hperm : Permutation raw (sort host raw)) by apply sort_perm.
  assert (Hin : forall d, In d (sort host raw) <-> In d ks /\ occursIn (citation d) finalDraft).
  { intros d. rewrite <- Hraw. split; apply Permutation_in;
      [now apply Permutation_sym | exact Hperm]. }
  split; [now destruct raw|].
  split; [exact Hin|]. split; [reflexivity|]. split; [|split; [|split; [|split]]].
  - apply sort_sorted.
    + intros x y Hx Hy. apply Htot; [apply (Hraw x) | apply (Hraw y)]; assumption.
    + intros u v w Hu Hv Hw.
      apply Htr; [apply (Hraw u) | apply (Hraw v) | apply (Hraw w)]; assumption.
  - apply (Permutation_NoDup (Permutation_map fileName Hperm)).
    apply collectCited_NoDup. constructor.
  - intros Hne. destruct raw as [|x r].
    + elim Hne. reflexivity.
    + split; reflexivity.
  - intros Hno. destruct raw as [|x r]; [reflexivity|].
    elim (Hno x); apply (Hraw x); now left.
  - split; [reflexivity|]. split; [exact stripExtension_ext | exact stripExtension_other].
Qed.

Lemma C3_witness :
  let a := set_writingEditor
             [Element 0 "div" [] [] [Text "Prior work (Chen, 2019) shows this."]]
             (set_knowledgeSources [demo_Lopez; demo_Chen] initial) in
  let a' := snd (generateBibliography (demo_host []) a) in
  referencesHidden a' = false /\ referencesList a' = ["Chen. (2019). chen."].
Proof.
  destruct (C3_bibliography (demo_host [])
              (set_writingEditor
                 [Element 0 "div" [] [] [Text "Prior work (Chen, 2019) shows this."]]
                 (set_knowledgeSources [demo_Lopez; demo_Chen] initial)))
    as (_ & _ & _ & _ & _ & H & _).
  - repeat constructor; cbn; intuition discriminate.
  - intros d [<-|[<-|[]]]; reflexivity.
  - intros x y [<-|[<-|[]]] [<-|[<-|[]]]; vm_compute; intuition discriminate.
  - intros x y z [<-|[<-|[]]] [<-|[<-|[]]] [<-|[<-|[]]]; vm_compute; intuition discriminate.
  - destruct H as (H1 & H2); [discriminate|].
    split; [exact H1 | rewrite H2; reflexivity].
Defined.

(** C3, as stated, fails: the draft is read as markup, not as text.  A
    stored document by [Smith & Lee] is cited in the text of the draft,
    [(Smith & Lee, 2020)]; in the markup the ampersand of a text node is
    written [&amp;], the token is not found there, and the references
    section, shown before, is hidden with no entry made for the
    document. *)
Lemma C3_counterexample :
  let a := set_referencesHidden false
             (set_writingEditor
                [Element 0 "div" [] [] [Text "Prior work (Smith & Lee, 2020) shows this."]]
                (set_knowledgeSources [demo_Smith] initial)) in
  let a' := snd (generateBibliography (demo_host []) a) in
  citation demo_Smith = "(Smith & Lee, 2020)"
  /\ DOM.textContents (writingEditor a) = "Prior work (Smith & Lee, 2020) shows this."
  /\ occursIn (citation demo_Smith) (DOM.textContents (writingEditor a))
  /\ innerHTML (demo_host []) (writingEditor a)
     = "<div>Prior work (Smith &amp; Lee, 2020) shows this.</div>"
  /\ referencesHidden a' = true
  /\ referencesList a' = [].
Proof.
  cbv zeta. split; [reflexivity|]. split; [reflexivity|].
  split; [exists "Prior work ", " shows this."; reflexivity|].
  split; [reflexivity|]. split; reflexivity.
Qed.

(** Where the authors are not strings the sort has no comparison to
    make: with two documents cited whose authors are numbers, the
    references are emptied and the function throws before the section is
    shown. *)
Example bibliography_needs_string_authors :
  let numbered (name shown : string) :=
    {| fileName := name; author := Number shown; year := Str "2020";
       summary := Str ""; entities := Array []; fullText := "" |} in
  let a := set_referencesList ["Old entry."]
             (set_writingEditor [Text "See (7, 2020) and (5, 2020)."]
                (set_knowledgeSources [numbered "a.txt" "7"; numbered "b.txt" "5"] initial)) in
  let run := generateBibliography (demo_host []) a in
  fst run = Throw TypeError
  /\ referencesList (snd run) = []
  /\ referencesHidden (snd run) = referencesHidden a.
Proof. cbv zeta. repeat split. Qed.

(** ** Proofreading suggestions *)








Lemma indexOf_firstOccurrence (s p : string) (i : nat) :
  JS.indexOf s p = Some i -> firstOccurrence p (JS.take i s) s.
Proof.
  intros E. destruct (indexOf_Some _ _ _ E) as (Es & Hle & Hno). split.
  - eexists. exact Es.
  - intros x y Exy. rewrite take_length by lia.
    destruct (Nat.lt_ge_cases (String.length x) i) as [Hlt|]; [|assumption].
    specialize (Hno _ Hlt). rewrite Exy, drop_append in Hno.
    unfold JS.startsWith in Hno. now rewrite prefix_append in Hno.
Qed.



(** The suggestion is handed to [replace] as a replacement template: a
    doubled dollar sign in it comes out single, and [$&] comes out as the
    issue text itself. *)
Example accepted_markup_expands_dollar_patterns :
  acceptedMarkup "<div>It costs 5 dollars.</div>"
    {| category := "Style"; issue := "5 dollars"; suggestion := "$$5";
       explanation := "Use the currency sign." |}
  = "<div>It costs <strong>$5</strong>.</div>"
  /\
  acceptedMarkup "<div>Teh cat sat.</div>"
    {| category := "Spelling"; issue := "Teh"; suggestion := "$&";
       explanation := "" |}
  = "<div><strong>Teh</strong> cat sat.</div>".
Proof. split; reflexivity. Qed.

(** ** The document tree *)

Lemma node_induction (P : node -> Prop) :
  (forall d, P (Text d)) ->
  (forall i t cl ds cs, Forall P cs -> P (Element i t cl ds cs)) ->
  forall n, P n.
Proof.
  intros HT HE. fix IH 1. intros [d|i t cl ds cs]; [apply HT|].
  apply HE. induction cs as [|c r IHr]; constructor; [apply IH | exact IHr].
Qed.

Lemma find_Element (i j : nat) (t : string) (cl : list string)
      (ds : list (string * string)) (cs : list node) :
  DOM.find i (Element j t cl ds cs)
  = if Nat.eqb i j then Some (Element j t cl ds cs) else DOM.findIn i cs.
Proof.
  cbn [DOM.find]. destruct (Nat.eqb i j); [reflexivity|].
  induction cs as [|c r IH]; cbn [DOM.findIn]; [reflexivity|].
  destruct (DOM.find i c); [reflexivity | exact IH].
Qed.

Lemma around_Element (i j : nat) (t : string) (cl : list string)
      (ds : list (string * string)) (cs : list node) :
  DOM.around i (Element j t cl ds cs)
  = if Nat.eqb i j then Some ("", "") else DOM.aroundIn i cs.
Proof.
  cbn [DOM.around]. destruct (Nat.eqb i j); [reflexivity|].
  induction cs as [|c r IH]; cbn [DOM.aroundIn]; [reflexivity|].
  destruct (DOM.around i c) as [[b e]|]; [reflexivity|]. now rewrite IH.
Qed.

Lemma wrapFirst_Element (i : nat) (f o s : string) (j : nat) (t : string)
      (cl : list string) (ds : list (string * string)) (cs : list node) :
  DOM.wrapFirst i f o s (Element j t cl ds cs)
  = option_map (fun cs' => [Element j t cl ds cs']) (DOM.wrapFirstIn i f o s cs).
Proof.
  cbn [DOM.wrapFirst]. f_equal.
  induction cs as [|c r IH]; cbn [DOM.wrapFirstIn]; [reflexivity|].
  destruct (DOM.wrapFirst i f o s c); [reflexivity|]. now rewrite IH.
Qed.

Lemma concat_cons (x : string) (xs : list string) :
  String.concat "" (x :: xs) = x ++ String.concat "" xs.
Proof.
  destruct xs as [|y ys]; cbn [String.concat]; [now rewrite append_nil_r | reflexivity].
Qed.

Lemma concat_app (xs ys : list string) :
  String.concat "" (xs ++ ys) = String.concat "" xs ++ String.concat "" ys.
Proof.
  induction xs as [|x xs IH]; [reflexivity|].
  change ((x :: xs) ++ ys)%list with (x :: (xs ++ ys))%list.
  now rewrite !concat_cons, IH, append_assoc.
Qed.

Lemma textContents_cons (c : node) (r : list node) :
  DOM.textContents (c :: r) = DOM.textContent c ++ DOM.textContents r.
Proof. unfold DOM.textContents. cbn [map]. apply concat_cons. Qed.

Lemma textContents_app (xs ys : list node) :
  DOM.textContents (xs ++ ys) = DOM.textContents xs ++ DOM.textContents ys.
Proof. unfold DOM.textContents. rewrite map_app. apply concat_app. Qed.

Lemma textContent_Element (j : nat) (t : string) (cl : list string)
      (ds : list (string * string)) (cs : list node) :
  DOM.textContent (Element j t cl ds cs) = DOM.textContents cs.
Proof. reflexivity. Qed.

(** The text of a tree is its text nodes put end to end. *)
Lemma textContent_textNodes (n : node) :
  DOM.textContent n = String.concat "" (DOM.textNodes n).
Proof.
  induction n as [d|i t cl ds cs IH] using node_induction.
  - cbn. reflexivity.
  - rewrite textContent_Element. cbn [DOM.textNodes].
    induction IH as [|c r Hc _ IHr]; [reflexivity|].
    rewrite textContents_cons. cbn [flat_map]. now rewrite concat_app, Hc, IHr.
Qed.

Lemma textContents_textNodes (ns : list node) :
  DOM.textContents ns = String.concat "" (DOM.textNodesOf ns).
Proof.
  induction ns as [|c r IH]; [reflexivity|].
  rewrite textContents_cons. unfold DOM.textNodesOf in *. cbn [flat_map].
  now rewrite concat_app, textContent_textNodes, IH.
Qed.

Lemma splitAround_app_r (f : string) (inner t t' more : list string) :
  splitAround f inner t t' -> splitAround f inner (t ++ more) (t' ++ more).
Proof.
  intros (l1 & d & l2 & b & e & -> & Hl & Hf & Hd & ->).
  exists l1, d, (l2 ++ more)%list, b, e. repeat split; auto.
  - now rewrite <- app_assoc.
  - apply Hf.
  - apply Hf.
  - rewrite <- !app_assoc. cbn [app]. now rewrite <- !app_assoc.
Qed.

Lemma splitAround_app_l (f : string) (inner pre t t' : list string) :
  (forall x, In x pre -> ~ occursIn f x) ->
  splitAround f inner t t' -> splitAround f inner (pre ++ t) (pre ++ t').
Proof.
  intros Hp (l1 & d & l2 & b & e & -> & Hl & Hf & Hd & ->).
  exists (pre ++ l1)%list, d, l2, b, e. repeat split; auto.
  - now rewrite app_assoc.
  - intros t Ht. apply in_app_or in Ht. destruct Ht; auto.
  - apply Hf.
  - apply Hf.
  - now rewrite app_assoc.
Qed.

Lemma regions_app (xs ys : list node) : regions (xs ++ ys) = (regions xs ++ regions ys)%list.
Proof. apply flat_map_app. Qed.

Lemma idsOf_app (xs ys : list node) : DOM.idsOf (xs ++ ys) = (DOM.idsOf xs ++ DOM.idsOf ys)%list.
Proof. apply flat_map_app. Qed.

Lemma textNodesOf_app (xs ys : list node) :
  DOM.textNodesOf (xs ++ ys) = (DOM.textNodesOf xs ++ DOM.textNodesOf ys)%list.
Proof. apply flat_map_app. Qed.

Section Wrap.

Variables (i : nat) (f o s : string).

Lemma withClass_region :
  DOM.withClass "similarity-highlight" (DOM.highlightSpan i f o s) = [(DOM.highlightSpan i f o s)].
Proof.
  unfold DOM.highlightSpan. destruct (JS.truthy f); reflexivity.
Qed.

Lemma regions_split (b e : string) : regions [Text b; (DOM.highlightSpan i f o s); Text e] = [(DOM.highlightSpan i f o s)].
Proof.
  unfold regions, DOM.querySelectorAll. cbn [flat_map].
  rewrite withClass_region. reflexivity.
Qed.

Lemma wrapFirst_Text (d : string) :
  wrapOutcome f (DOM.highlightSpan i f o s) i [d] 0 [] (DOM.wrapFirst i f o s (Text d)).
Proof.
  cbn [DOM.wrapFirst]. destruct (JS.indexOf d f) as [idx|] eqn:E; cbn [wrapOutcome].
  - split; [|split; [|split]].
    + exists [], d, [], (JS.take idx d), (JS.drop (idx + String.length f) d).
      split; [reflexivity|]. split; [intros t []|].
      split; [now apply indexOf_firstOccurrence|].
      split; [now apply indexOf_Some|].
      unfold DOM.textNodesOf. cbn [flat_map DOM.textNodes app].
      reflexivity.
    + now rewrite regions_split.
    + rewrite regions_split. now left.
    + unfold DOM.idsOf, DOM.highlightSpan. cbn [flat_map DOM.ids app].
      destruct (JS.truthy f); apply Permutation_refl.
  - intros t [<-|[]] H. apply includes_iff in H. unfold JS.includes in H.
    rewrite E in H. discriminate H.
Qed.

Lemma wrapFirstIn_from (cs : list node) :
  Forall (fun n => wrapOutcome f (DOM.highlightSpan i f o s) i (DOM.textNodes n)
                     (List.length (DOM.withClass "similarity-highlight" n)) (DOM.ids n)
                     (DOM.wrapFirst i f o s n)) cs ->
  wrapOutcome f (DOM.highlightSpan i f o s) i (DOM.textNodesOf cs) (List.length (regions cs)) (DOM.idsOf cs)
    (DOM.wrapFirstIn i f o s cs).
Proof.
  induction 1 as [|c r Hc _ IH]; cbn [DOM.wrapFirstIn].
  - intros t [].
  - change (c :: r) with ([c] ++ r)%list.
    rewrite textNodesOf_app, regions_app, idsOf_app, length_app.
    replace (DOM.textNodesOf [c]) with (DOM.textNodes c)
      by (unfold DOM.textNodesOf; cbn; now rewrite app_nil_r).
    replace (regions [c]) with (DOM.withClass "similarity-highlight" c)
      by (unfold regions, DOM.querySelectorAll; cbn; now rewrite app_nil_r).
    replace (DOM.idsOf [c]) with (DOM.ids c)
      by (unfold DOM.idsOf; cbn; now rewrite app_nil_r).
    destruct (DOM.wrapFirst i f o s c) as [c'|]; cbn [wrapOutcome] in Hc |- *.
    + destruct Hc as (H1 & H2 & H3 & H4). split; [|split; [|split]].
      * rewrite textNodesOf_app. now apply splitAround_app_r.
      * rewrite regions_app, length_app, H2. reflexivity.
      * rewrite regions_app. apply in_or_app. now left.
      * rewrite idsOf_app. change (i :: DOM.ids c ++ DOM.idsOf r)%list
          with ((i :: DOM.ids c) ++ DOM.idsOf r)%list.
        now apply Permutation_app_tail.
    + destruct (DOM.wrapFirstIn i f o s r) as [r'|]; cbn [option_map wrapOutcome] in IH |- *.
      * destruct IH as (H1 & H2 & H3 & H4).
        change (c :: r') with ([c] ++ r')%list.
        rewrite textNodesOf_app, regions_app, idsOf_app, length_app.
        replace (DOM.textNodesOf [c]) with (DOM.textNodes c)
          by (unfold DOM.textNodesOf; cbn; now rewrite app_nil_r).
        replace (regions [c]) with (DOM.withClass "similarity-highlight" c)
          by (unfold regions, DOM.querySelectorAll; cbn; now rewrite app_nil_r).
        replace (DOM.idsOf [c]) with (DOM.ids c)
          by (unfold DOM.idsOf; cbn; now rewrite app_nil_r).
        split; [|split; [|split]].
        -- now apply splitAround_app_l.
        -- rewrite H2. lia.
        -- apply in_or_app. now right.
        -- apply Permutation_sym. eapply perm_trans; [apply Permutation_middle|].
           apply Permutation_app_head. now apply Permutation_sym.
      * intros t Ht. apply in_app_or in Ht. destruct Ht; auto.
Qed.

Lemma wrapFirst_spec (n : node) :
  wrapOutcome f (DOM.highlightSpan i f o s) i (DOM.textNodes n)
    (List.length (DOM.withClass "similarity-highlight" n)) (DOM.ids n)
    (DOM.wrapFirst i f o s n).
Proof.
  induction n as [d|j t cl ds cs IH] using node_induction.
  - apply wrapFirst_Text.
  - apply wrapFirstIn_from in IH. rewrite wrapFirst_Element.
    cbn [DOM.textNodes DOM.withClass DOM.ids]. fold (DOM.textNodesOf cs).
    fold (regions cs). fold (DOM.idsOf cs).
    destruct (DOM.wrapFirstIn i f o s cs) as [cs'|]; cbn [option_map wrapOutcome] in IH |- *;
      [|exact IH].
    destruct IH as (H1 & H2 & H3 & H4).
    replace (DOM.textNodesOf [Element j t cl ds cs']) with (DOM.textNodesOf cs')
      by (unfold DOM.textNodesOf; cbn; now rewrite app_nil_r).
    replace (DOM.idsOf [Element j t cl ds cs']) with (j :: DOM.idsOf cs')
      by (unfold DOM.idsOf; cbn; now rewrite app_nil_r).
    replace (regions [Element j t cl ds cs'])
      with ((if DOM.hasClass "similarity-highlight" (Element j t cl ds cs')
             then [Element j t cl ds cs'] else []) ++ regions cs')%list
      by (unfold regions, DOM.querySelectorAll; cbn [flat_map DOM.withClass];
          now rewrite app_nil_r).
    split; [exact H1|]. split; [|split].
    + rewrite !length_app, H2. cbn [DOM.hasClass].
      fold (DOM.querySelectorAll "similarity-highlight" cs). fold (regions cs).
      destruct (existsb _ cl); cbn [List.length]; lia.
    + apply in_or_app. now right.
    + eapply perm_trans; [apply perm_skip, H4 | apply perm_swap].
Qed.

Lemma wrapFirstIn_spec (ns : list node) :
  wrapOutcome f (DOM.highlightSpan i f o s) i (DOM.textNodesOf ns) (List.length (regions ns)) (DOM.idsOf ns)
    (DOM.wrapFirstIn i f o s ns).
Proof.
  apply wrapFirstIn_from. apply Forall_forall. intros n _. apply wrapFirst_spec.
Qed.

End Wrap.

(** ** Similarity regions *)

Lemma region_text (i : nat) (f o s : string) :
  String.concat "" (DOM.textNodes (DOM.highlightSpan i f o s)) = f
  /\ DOM.textContent (DOM.highlightSpan i f o s) = f.
Proof.
  unfold DOM.highlightSpan. destruct f; split; reflexivity.
Qed.

Lemma splitAround_text (f : string) (inner texts texts' : list string) :
  String.concat "" inner = f ->
  splitAround f inner texts texts' ->
  String.concat "" texts' = String.concat "" texts.
Proof.
  intros Hi (l1 & d & l2 & b & e & -> & _ & _ & -> & ->).
  rewrite !concat_app, !concat_cons, concat_app, concat_cons, Hi.
  now rewrite !append_assoc.
Qed.

Lemma splitAround_occurs (f : string) (inner texts texts' : list string) :
  splitAround f inner texts texts' -> exists t, In t texts /\ occursIn f t.
Proof.
  intros (l1 & d & l2 & b & e & -> & _ & _ & -> & _).
  exists (b ++ f ++ e). split; [apply in_or_app; right; now left|].
  exists b, e. reflexivity.
Qed.

(** C5, as the code has it.  For a match of the similarity call the
    function returns normally in every case.  When the sentence occurs in
    no single text node of the editor, the state is left as it is: no
    region, no error.  When some text node holds it, the first such node
    in document order is split around the first occurrence in it and that
    occurrence alone is wrapped in one new region, which carries the
    class, the source passage with the source name, and the rewritten
    alternative; the text of the draft is unchanged. *)
Theorem C5_match_is_wrapped_or_skipped (a : App) (result : SimilarityResult) :
  let sentence := original_sentence result in
  let texts := DOM.textNodesOf (writingEditor a) in
  let region := regionOf (nextId a) result in
  let run := highlightResult result a in
  let a' := snd run in
  fst run = Normal tt
  /\ ((forall t, In t texts -> ~ occursIn sentence t) -> a' = a)
  /\ ((exists t, In t texts /\ occursIn sentence t) ->
      splitAround sentence (DOM.textNodes region) texts (DOM.textNodesOf (writingEditor a'))
      /\ In region (regions (writingEditor a'))
      /\ List.length (regions (writingEditor a')) = S (List.length (regions (writingEditor a)))
      /\ DOM.textContents (writingEditor a') = DOM.textContents (writingEditor a))
  /\ DOM.textContent region = sentence
  /\ DOM.hasClass "similarity-highlight" region = true
  /\ DOM.lookup "original" (DOM.datasetOf region)
     = Some (similar_passage_from_source result ++ " (from " ++ source_filename result ++ ")")
  /\ DOM.lookup "suggestion" (DOM.datasetOf region) = Some (rewritten_suggestion result).
Proof.
  intros sentence texts region run a'. subst run a'.
  unfold highlightResult, highlightText, modify. cbn [fst snd].
  pose proof (wrapFirstIn_spec (nextId a) sentence
                (similar_passage_from_source result ++ " (from " ++ source_filename result ++ ")")
                (rewritten_suggestion result) (writingEditor a)) as W.
  fold sentence. fold (regionOf (nextId a) result) in W. fold region in W. fold texts in W.
  split; [reflexivity|].
  destruct (DOM.wrapFirstIn (nextId a) sentence _ _ (writingEditor a)) as [r|];
    cbn [wrapOutcome] in W.
  - destruct W as (H1 & H2 & H3 & _). split; [|split].
    + intros Hno. destruct (splitAround_occurs _ _ _ _ H1) as (t & Ht & Ho).
      elim (Hno t Ht Ho).
    + intros _. cbn [writingEditor set_nextId set_writingEditor].
      split; [exact H1|]. split; [exact H3|]. split; [exact H2|].
      rewrite !textContents_textNodes.
      apply (splitAround_text sentence (DOM.textNodes region)); [|exact H1].
      apply region_text.
    + split; [apply region_text|]. repeat split.
  - split; [reflexivity|]. split.
    + intros (t & Ht & Ho). elim (W t Ht Ho).
    + split; [apply region_text|]. repeat split.
Qed.

Lemma C5_witness :
  let a := set_nextId 2 (set_writingEditor demo_draft initial) in
  let a' := snd (highlightResult (demo_match "Deep") a) in
  List.length (regions (writingEditor a')) = 1 /\
  DOM.textContents (writingEditor a') = DOM.textContents demo_draft /\
  snd (highlightResult (demo_match "Shallow") a) = a.
Proof.
  destruct (C5_match_is_wrapped_or_skipped
              (set_nextId 2 (set_writingEditor demo_draft initial)) (demo_match "Deep"))
    as (_ & _ & H & _).
  destruct (C5_match_is_wrapped_or_skipped
              (set_nextId 2 (set_writingEditor demo_draft initial)) (demo_match "Shallow"))
    as (_ & K & _).
  destruct H as (_ & _ & H2 & H3).
  - exists "Deep ". split; [left; reflexivity|]. exists "", " ". reflexivity.
  - split; [exact H2|]. split; [exact H3|]. apply K.
    intros t Ht Ho. apply includes_iff in Ho.
    destruct Ht as [<-|[<-|[<-|[]]]]; discriminate Ho.
Defined.

(** C5 as stated fails for a sentence that runs over more than one text
    node: it occurs literally in the text of the draft and is not wrapped.
    The draft here holds [Deep models generalise] across a [strong]
    element; the walk finds it in no text node and leaves the state as it
    is. *)
Lemma C5_counterexample :
  let a := set_nextId 2 (set_writingEditor demo_draft initial) in
  let result := demo_match "Deep models generalise" in
  occursIn (original_sentence result) (DOM.textContents (writingEditor a)) /\
  highlightResult result a = (Normal tt, a) /\
  regions (writingEditor (snd (highlightResult result a))) = [].
Proof.
  split; [|split; reflexivity].
  exists "", " well. Deep nets too.". reflexivity.
Qed.

Lemma or_else_empty (s : string) : JS.or_else s "" = s.
Proof. now destruct s. Qed.

Lemma idsOf_cons (c : node) (r : list node) :
  DOM.idsOf (c :: r) = (DOM.ids c ++ DOM.idsOf r)%list.
Proof. reflexivity. Qed.

Lemma mergeText_text (l : list node) :
  DOM.textContents (DOM.mergeText l) = DOM.textContents l.
Proof.
  induction l as [|c r IH]; [reflexivity|].
  destruct c as [d|j t cl ds cs]; cbn [DOM.mergeText].
  - rewrite textContents_cons, <- IH. cbn [DOM.textContent].
    destruct (DOM.mergeText r) as [|[d'|j t cl ds cs] r'].
    + destruct d; [reflexivity|]. cbn [JS.truthy]. now rewrite textContents_cons.
    + rewrite !textContents_cons. cbn [DOM.textContent]. apply append_assoc.
    + destruct d; [reflexivity|]. cbn [JS.truthy]. now rewrite textContents_cons.
  - now rewrite !textContents_cons, IH.
Qed.

Lemma mergeText_ids (l : list node) : DOM.idsOf (DOM.mergeText l) = DOM.idsOf l.
Proof.
  induction l as [|c r IH]; [reflexivity|].
  destruct c as [d|j t cl ds cs]; cbn [DOM.mergeText].
  - rewrite idsOf_cons, <- IH. cbn [DOM.ids app].
    destruct (DOM.mergeText r) as [|[d'|j t cl ds cs] r'].
    + destruct d; reflexivity.
    + reflexivity.
    + destruct d; reflexivity.
  - now rewrite !idsOf_cons, IH.
Qed.

Lemma normalize_text (n : node) : DOM.textContent (DOM.normalize n) = DOM.textContent n.
Proof.
  induction n as [d|j t cl ds cs IH] using node_induction; [reflexivity|].
  cbn [DOM.normalize]. rewrite !textContent_Element, mergeText_text.
  induction IH as [|c r Hc _ IHr]; [reflexivity|].
  cbn [map]. now rewrite !textContents_cons, Hc, IHr.
Qed.

Lemma normalize_ids (n : node) : DOM.ids (DOM.normalize n) = DOM.ids n.
Proof.
  induction n as [d|j t cl ds cs IH] using node_induction; [reflexivity|].
  cbn [DOM.normalize DOM.ids]. f_equal.
  fold (DOM.idsOf (DOM.mergeText (map DOM.normalize cs))). rewrite mergeText_ids.
  fold (DOM.idsOf cs).
  induction IH as [|c r Hc _ IHr]; [reflexivity|].
  cbn [map]. now rewrite !idsOf_cons, Hc, IHr.
Qed.

Lemma normalizeChildren_text (ns : list node) :
  DOM.textContents (DOM.normalizeChildren ns) = DOM.textContents ns.
Proof.
  unfold DOM.normalizeChildren. rewrite mergeText_text.
  induction ns as [|c r IH]; [reflexivity|].
  cbn [map]. now rewrite !textContents_cons, normalize_text, IH.
Qed.

Lemma normalizeChildren_ids (ns : list node) :
  DOM.idsOf (DOM.normalizeChildren ns) = DOM.idsOf ns.
Proof.
  unfold DOM.normalizeChildren. rewrite mergeText_ids.
  induction ns as [|c r IH]; [reflexivity|].
  cbn [map]. now rewrite !idsOf_cons, normalize_ids, IH.
Qed.

Section Replace.

Variable i : nat.

Lemma find_absent (n : node) : ~ In i (DOM.ids n) -> DOM.find i n = None.
Proof.
  induction n as [d|j t cl ds cs IH] using node_induction; [reflexivity|].
  rewrite find_Element. cbn [DOM.ids In]. intros H.
  destruct (Nat.eqb i j) eqn:Q; [apply Nat.eqb_eq in Q; elim H; now left|].
  assert (Hcs : ~ In i (DOM.idsOf cs)) by (intros K; apply H; now right).
  clear H. induction IH as [|c r Hc _ IHr]; [reflexivity|].
  rewrite idsOf_cons in Hcs. cbn [DOM.findIn].
  rewrite Hc by (intros K; apply Hcs, in_or_app; now left).
  apply IHr. intros K; apply Hcs, in_or_app; now right.
Qed.

Lemma findIn_absent (ns : list node) : ~ In i (DOM.idsOf ns) -> DOM.findIn i ns = None.
Proof.
  induction ns as [|c r IH]; [reflexivity|].
  rewrite idsOf_cons. intros H. cbn [DOM.findIn].
  rewrite find_absent by (intros K; apply H, in_or_app; now left).
  apply IH. intros K; apply H, in_or_app; now right.
Qed.

Lemma find_present (n region : node) : DOM.find i n = Some region -> In i (DOM.ids n).
Proof.
  intros H. destruct (in_dec Nat.eq_dec i (DOM.ids n)) as [|Hn]; [assumption|].
  rewrite (find_absent n Hn) in H. discriminate H.
Qed.

Lemma around_absent (n : node) : ~ In i (DOM.ids n) -> DOM.around i n = None.
Proof.
  induction n as [d|j t cl ds cs IH] using node_induction; [reflexivity|].
  rewrite around_Element. cbn [DOM.ids In]. intros H.
  destruct (Nat.eqb i j) eqn:Q; [apply Nat.eqb_eq in Q; elim H; now left|].
  assert (Hcs : ~ In i (DOM.idsOf cs)) by (intros K; apply H; now right).
  clear H. induction IH as [|c r Hc _ IHr]; [reflexivity|].
  rewrite idsOf_cons in Hcs. cbn [DOM.aroundIn].
  rewrite Hc by (intros K; apply Hcs, in_or_app; now left).
  rewrite IHr; [reflexivity|]. intros K; apply Hcs, in_or_app; now right.
Qed.

Lemma replaceWith_absent (new n : node) :
  ~ In i (DOM.ids n) -> DOM.replaceWith i new n = n.
Proof.
  induction n as [d|j t cl ds cs IH] using node_induction; [reflexivity|].
  cbn [DOM.replaceWith DOM.ids In]. intros H.
  destruct (Nat.eqb i j) eqn:Q; [apply Nat.eqb_eq in Q; elim H; now left|].
  f_equal.
  assert (Hcs : ~ In i (DOM.idsOf cs)) by (intros K; apply H; now right).
  clear H. induction IH as [|c r Hc _ IHr]; [reflexivity|].
  rewrite idsOf_cons in Hcs. cbn [map].
  rewrite Hc by (intros K; apply Hcs, in_or_app; now left).
  rewrite IHr; [reflexivity|]. intros K; apply Hcs, in_or_app; now right.
Qed.

Lemma replaceWith_absent_all (new : node) (ns : list node) :
  ~ In i (DOM.idsOf ns) -> map (DOM.replaceWith i new) ns = ns.
Proof.
  induction ns as [|c r IH]; [reflexivity|].
  rewrite idsOf_cons. intros H. cbn [map].
  rewrite replaceWith_absent by (intros K; apply H, in_or_app; now left).
  rewrite IH; [reflexivity|]. intros K; apply H, in_or_app; now right.
Qed.

(** After the replacement by a text node the identity is gone, and no
    other has come in. *)
Lemma replaceWith_ids (s : string) (n : node) :
  forall j, In j (DOM.ids (DOM.replaceWith i (Text s) n)) -> j <> i /\ In j (DOM.ids n).
Proof.
  induction n as [d|k t cl ds cs IH] using node_induction; [intros j []|].
  cbn [DOM.replaceWith]. destruct (Nat.eqb i k) eqn:Q; [intros j []|].
  apply Nat.eqb_neq in Q. cbn [DOM.ids In]. intros j [<-|H].
  - split; [congruence | now left].
  - assert (K : j <> i /\ In j (DOM.idsOf cs)); [|split; [apply K | right; apply K]].
    fold (DOM.idsOf (map (DOM.replaceWith i (Text s)) cs)) in H.
    clear Q. induction IH as [|c r Hc _ IHr]; [destruct H|].
    cbn [map] in H. rewrite idsOf_cons in H |- *. apply in_app_or in H.
    destruct H as [H|H].
    + destruct (Hc j H). split; [assumption | apply in_or_app; now left].
    + destruct (IHr H). split; [assumption | apply in_or_app; now right].
Qed.

Lemma replaceWith_ids_all (s : string) (ns : list node) :
  forall j, In j (DOM.idsOf (map (DOM.replaceWith i (Text s)) ns)) ->
            j <> i /\ In j (DOM.idsOf ns).
Proof.
  induction ns as [|c r IH]; [intros j []|].
  intros j H. cbn [map] in H. rewrite idsOf_cons in H |- *. apply in_app_or in H.
  destruct H as [H|H].
  - destruct (replaceWith_ids s c j H). split; [assumption | apply in_or_app; now left].
  - destruct (IH j H). split; [assumption | apply in_or_app; now right].
Qed.

End Replace.

Lemma NoDup_app_disjoint {A} (l l' : list A) (x : A) :
  NoDup (l ++ l') -> In x l -> ~ In x l'.
Proof.
  induction l as [|y l IH]; cbn [app In]; [contradiction|].
  intros H [->|Hx] Hx'; inversion H as [|? ? Hn Hd]; subst.
  - apply Hn, in_or_app. now right.
  - exact (IH Hd Hx Hx').
Qed.

Section Found.

Variables (i : nat) (new : node).

Lemma found_in_list (cs : list node) :
  Forall (foundAt i new) cs ->
  forall region, DOM.findIn i cs = Some region -> NoDup (DOM.idsOf cs) ->
  exists b e,
    DOM.aroundIn i cs = Some (b, e) /\
    DOM.textContents cs = b ++ DOM.textContent region ++ e /\
    DOM.textContents (map (DOM.replaceWith i new) cs) = b ++ DOM.textContent new ++ e.
Proof.
  induction 1 as [|c r Hc _ IH]; intros region; cbn [DOM.findIn]; [discriminate|].
  rewrite idsOf_cons. intros Hf Hnd. cbn [DOM.aroundIn map].
  rewrite !textContents_cons.
  destruct (DOM.find i c) as [e0|] eqn:Ec.
  - injection Hf as ->.
    destruct (Hc region Ec (NoDup_app_remove_r _ _ Hnd)) as (b & e & Ha & Ht & Hr).
    rewrite Ha. exists b, (e ++ DOM.textContents r). split; [reflexivity|].
    rewrite (replaceWith_absent_all i new r)
      by (apply (NoDup_app_disjoint _ _ i Hnd), (find_present i c region Ec)).
    rewrite Ht, Hr. now rewrite !append_assoc.
  - assert (Hi : ~ In i (DOM.ids c)).
    { intros K. destruct (in_dec Nat.eq_dec i (DOM.ids c)) as [_|Hn]; [|contradiction].
      clear Hc. revert Ec K. generalize c. intros n.
      induction n as [d|j t cl ds cs IHn] using node_induction; [intros _ []|].
      rewrite find_Element. cbn [DOM.ids In].
      destruct (Nat.eqb i j) eqn:Q; [discriminate|]. apply Nat.eqb_neq in Q.
      intros Hn [->|K]; [now elim Q|]. fold (DOM.idsOf cs) in K.
      induction IHn as [|x l Hx _ IHl]; [destruct K|].
      cbn [DOM.findIn] in Hn. rewrite idsOf_cons in K.
      destruct (DOM.find i x) eqn:Ex; [discriminate|].
      apply in_app_or in K. destruct K as [K|K]; [exact (Hx eq_refl K) | exact (IHl Hn K)]. }
    rewrite (around_absent i c Hi), (replaceWith_absent i new c Hi).
    destruct (IH region Hf (NoDup_app_remove_l _ _ Hnd)) as (b & e & Ha & Ht & Hr).
    rewrite Ha. exists (DOM.textContent c ++ b), e. split; [reflexivity|].
    rewrite Ht, Hr. now rewrite !append_assoc.
Qed.

Lemma found_node (n : node) : foundAt i new n.
Proof.
  induction n as [d|j t cl ds cs IH] using node_induction; intros region.
  - discriminate.
  - rewrite find_Element, around_Element. cbn [DOM.replaceWith DOM.ids].
    destruct (Nat.eqb i j) eqn:Q.
    + intros [= <-] _. exists "", "". split; [reflexivity|].
      split; cbn [append]; now rewrite append_nil_r.
    + intros Hf Hnd. apply NoDup_cons_iff in Hnd. destruct Hnd as (_ & Hnd).
      destruct (found_in_list cs IH region Hf Hnd) as (b & e & Ha & Ht & Hr).
      exists b, e. rewrite !textContent_Element. auto.
Qed.

Lemma found_in_children (ns : list node) (region : node) :
  DOM.findIn i ns = Some region -> NoDup (DOM.idsOf ns) ->
  exists b e,
    DOM.aroundIn i ns = Some (b, e) /\
    DOM.textContents ns = b ++ DOM.textContent region ++ e /\
    DOM.textContents (map (DOM.replaceWith i new) ns) = b ++ DOM.textContent new ++ e.
Proof.
  apply found_in_list. apply Forall_forall. intros n _. apply found_node.
Qed.

End Found.

Lemma find_identity (i : nat) (n region : node) :
  DOM.find i n = Some region ->
  exists t cl ds cs, region = Element i t cl ds cs.
Proof.
  induction n as [d|j t cl ds cs IH] using node_induction; [discriminate|].
  rewrite find_Element. destruct (Nat.eqb i j) eqn:Q.
  - apply Nat.eqb_eq in Q. subst j. intros [= <-]. eauto.
  - induction IH as [|c r Hc _ IHr]; cbn [DOM.findIn]; [discriminate|].
    destruct (DOM.find i c) eqn:Ec; [intros [= ->]; now apply Hc | exact IHr].
Qed.

Lemma findIn_identity (i : nat) (ns : list node) (region : node) :
  DOM.findIn i ns = Some region ->
  exists t cl ds cs, region = Element i t cl ds cs.
Proof.
  induction ns as [|c r IH]; cbn [DOM.findIn]; [discriminate|].
  destruct (DOM.find i c) eqn:Ec; [intros [= ->]; exact (find_identity i c region Ec) | exact IH].
Qed.

(** C6.  For a highlighted region of the editor, clicked and then
    accepted or dismissed: accepting leaves, where the region stood, a
    text node with exactly the attached rewritten text, the text before
    and after the region unchanged; dismissing leaves a text node with
    the region's own text, so the text of the draft is as it was.  In
    both cases the region's element is no longer in the tree, no element
    has been added, and no region is active any more. *)
Theorem C6_accept_or_dismiss_region
  (a : App) (i : nat) (region : node) (rewritten : string) :
  DOM.findIn i (writingEditor a) = Some region ->
  DOM.hasClass "similarity-highlight" region = true ->
  DOM.lookup "suggestion" (DOM.datasetOf region) = Some rewritten ->
  NoDup (DOM.idsOf (writingEditor a)) ->
  let clicked := snd (clickInEditor (Some i) a) in
  let accepted := snd (acceptSimilaritySuggestion clicked) in
  let dismissed := snd (dismissSimilaritySuggestion clicked) in
  activeSimilarityHighlight clicked = Some i
  /\ writingEditor clicked = writingEditor a
  /\ exists before after,
       DOM.aroundIn i (writingEditor a) = Some (before, after)
       /\ DOM.textContents (writingEditor a) = before ++ DOM.textContent region ++ after
       /\ DOM.textContents (writingEditor accepted) = before ++ rewritten ++ after
       /\ DOM.textContents (writingEditor dismissed) = DOM.textContents (writingEditor a)
       /\ (forall j, In j (DOM.idsOf (writingEditor accepted)) ->
                     j <> i /\ In j (DOM.idsOf (writingEditor a)))
       /\ (forall j, In j (DOM.idsOf (writingEditor dismissed)) ->
                     j <> i /\ In j (DOM.idsOf (writingEditor a)))
       /\ DOM.findIn i (writingEditor accepted) = None
       /\ DOM.findIn i (writingEditor dismissed) = None
       /\ activeSimilarityHighlight accepted = None
       /\ activeSimilarityHighlight dismissed = None.
Proof.
  intros Hf Hc Hs Hnd clicked accepted dismissed.
  destruct (findIn_identity i _ region Hf) as (t & cl & ds & cs & Er).
  assert (Ec : activeSimilarityHighlight clicked = Some i
               /\ writingEditor clicked = writingEditor a).
  { unfold clicked, clickInEditor, bind, gets. cbv beta iota. rewrite Hf, Hc.
    unfold hideSimilarityTooltip, showSimilarityTooltip, modify. rewrite Er.
    cbn [negb]. destruct (tooltip a); cbn; split; reflexivity. }
  destruct Ec as (Eact & Eed). split; [exact Eact|]. split; [exact Eed|].
  assert (Ea : writingEditor accepted
               = DOM.normalizeChildren
                   (map (DOM.replaceWith i (Text rewritten)) (writingEditor a))).
  { unfold accepted, acceptSimilaritySuggestion, bind, resolveActive,
      hideSimilarityTooltip, modify. cbv beta iota. rewrite Eact, Eed, Hf, Hs, or_else_empty.
    cbn [snd]. match goal with |- context [tooltip ?x] => destruct (tooltip x) end; reflexivity. }
  assert (Ed : writingEditor dismissed
               = DOM.normalizeChildren
                   (map (DOM.replaceWith i (Text (DOM.textContent region))) (writingEditor a))).
  { unfold dismissed, dismissSimilaritySuggestion, bind, resolveActive,
      hideSimilarityTooltip, modify. cbv beta iota. rewrite Eact, Eed, Hf, or_else_empty.
    cbn [snd]. match goal with |- context [tooltip ?x] => destruct (tooltip x) end; reflexivity. }
  destruct (found_in_children i (Text rewritten) _ region Hf Hnd) as (b & e & Ha & Ht & Hr).
  destruct (found_in_children i (Text (DOM.textContent region)) _ region Hf Hnd)
    as (b' & e' & Ha' & _ & Hr').
  rewrite Ha in Ha'. injection Ha' as <- <-.
  exists b, e. split; [exact Ha|]. split; [exact Ht|].
  split; [now rewrite Ea, normalizeChildren_text|].
  split; [now rewrite Ed, normalizeChildren_text, Hr', Ht|].
  assert (Ia : forall j, In j (DOM.idsOf (writingEditor accepted)) ->
                         j <> i /\ In j (DOM.idsOf (writingEditor a))).
  { intros j. rewrite Ea, normalizeChildren_ids. apply replaceWith_ids_all. }
  assert (Id : forall j, In j (DOM.idsOf (writingEditor dismissed)) ->
                         j <> i /\ In j (DOM.idsOf (writingEditor a))).
  { intros j. rewrite Ed, normalizeChildren_ids. apply replaceWith_ids_all. }
  split; [exact Ia|]. split; [exact Id|].
  split; [apply findIn_absent; intros K; now destruct (Ia i K)|].
  split; [apply findIn_absent; intros K; now destruct (Id i K)|].
  unfold accepted, dismissed, acceptSimilaritySuggestion, dismissSimilaritySuggestion,
    bind, resolveActive, hideSimilarityTooltip, modify. cbv beta iota. cbn [snd].
  split; match goal with |- context [tooltip ?x] => destruct (tooltip x) end; reflexivity.
Qed.

Lemma C6_witness :
  let a := set_nextId 3 (set_writingEditor demo_highlighted initial) in
  let clicked := snd (clickInEditor (Some 2) a) in
  snd (highlightResult (demo_match "Deep nets")
         (set_nextId 2 (set_writingEditor demo_draft initial))) = a /\
  DOM.textContents (writingEditor (snd (acceptSimilaritySuggestion clicked)))
  = "Deep models generalise well. Such models transfer. too." /\
  DOM.textContents (writingEditor (snd (dismissSimilaritySuggestion clicked)))
  = "Deep models generalise well. Deep nets too." /\
  DOM.findIn 2 (writingEditor (snd (acceptSimilaritySuggestion clicked))) = None.
Proof.
  destruct (C6_accept_or_dismiss_region
              (set_nextId 3 (set_writingEditor demo_highlighted initial)) 2
              (regionOf 2 (demo_match "Deep nets")) "Such models transfer.")
    as (_ & _ & before & after & Ha & _ & Hacc & Hdis & _ & _ & Hgone & _).
  - reflexivity.
  - reflexivity.
  - reflexivity.
  - repeat constructor; cbn; intuition discriminate.
  - vm_compute in Ha. injection Ha as <- <-.
    split; [reflexivity|]. split; [exact Hacc|]. split; [exact Hdis | exact Hgone].
Defined.

(** ** What the hypotheses above rest on

    The identifiers of the store are unique and the identities of the
    editor's elements distinct in every state the program reaches: the
    operations that add a document or an element keep them so. *)

Lemma ingestion_keeps_identifiers_unique
  (host : Host) (name articleText : string) (a : App) :
  NoDup (map fileName (knowledgeSources a)) ->
  NoDup (map fileName
           (knowledgeSources (snd (analyzeAndStoreDocument host name articleText a)))).
Proof.
  intros H. unfold analyzeAndStoreDocument, bind, gets. cbv beta iota.
  destruct (isStored name (knowledgeSources a)) eqn:E; [exact H|].
  unfold modify at 1. rewrite extractAndStore_run. cbv zeta.
  cbn [calls knowledgeSources set_chat].
  destruct (reply host _ _) as [text|]; [destruct (JSON_extraction host text) as [e|]|];
    try exact H.
  assert (N : NoDup (map fileName
                       (knowledgeSources a ++ [stored name articleText e])%list)).
  { rewrite map_app. apply NoDup_app; [exact H | repeat constructor; intros [] |].
    intros x Hx [<-|[]]. apply in_map_iff in Hx. destruct Hx as (s & Es & Hs).
    assert (isStored name (knowledgeSources a) = true) by (apply isStored_iff; eauto).
    congruence. }
  destruct (forallb listsEntities _); exact N.
Qed.

Lemma highlight_keeps_identities_distinct (a : App) (result : SimilarityResult) :
  NoDup (DOM.idsOf (writingEditor a)) ->
  (forall j, In j (DOM.idsOf (writingEditor a)) -> j < nextId a) ->
  let a' := snd (highlightResult result a) in
  NoDup (DOM.idsOf (writingEditor a')) /\
  (forall j, In j (DOM.idsOf (writingEditor a')) -> j < nextId a').
Proof.
  intros Hnd Hlt. unfold highlightResult, highlightText, modify. cbn [snd].
  pose proof (wrapFirstIn_spec (nextId a) (original_sentence result)
                (similar_passage_from_source result ++ " (from " ++ source_filename result ++ ")")
                (rewritten_suggestion result) (writingEditor a)) as W.
  destruct (DOM.wrapFirstIn _ _ _ _ (writingEditor a)) as [r|]; cbn [wrapOutcome] in W.
  - destruct W as (_ & _ & _ & P). cbn [writingEditor set_nextId set_writingEditor nextId].
    split.
    + apply (Permutation_NoDup (Permutation_sym P)). constructor; [|exact Hnd].
      intros K. specialize (Hlt _ K). lia.
    + intros j Hj. apply (Permutation_in _ P) in Hj.
      destruct Hj as [<-|Hj]; [lia | specialize (Hlt _ Hj); lia].
  - split; assumption.
Qed.

Lemma adopt_Element (j : nat) (t : string) (cl : list string)
      (ds : list (string * string)) (cs : list node) (k : nat) :
  DOM.adopt (Element j t cl ds cs) k
  = let (cs', k') := DOM.adoptAll cs (S k) in (Element k t cl ds cs', k').
Proof.
  cbn [DOM.adopt].
  assert (E : forall l m,
    (fix go (l : list node) (k : nat) : list node * nat :=
       match l with
       | [] => ([], k)
       | c :: r => let (c', k1) := DOM.adopt c k in
                   let (r', k2) := go r k1 in (c' :: r', k2)
       end) l m = DOM.adoptAll l m).
  { induction l as [|c r IH]; intros m; cbn [DOM.adoptAll]; [reflexivity|].
    destruct (DOM.adopt c m) as (c', k1). now rewrite IH. }
  now rewrite E.
Qed.

(** The parser's nodes get the identities from [k] up to the next unused
    one, each once. *)
Lemma adopt_ids (n : node) :
  forall k, DOM.ids (fst (DOM.adopt n k)) = seq k (snd (DOM.adopt n k) - k)
            /\ k <= snd (DOM.adopt n k).
Proof.
  induction n as [d|j t cl ds cs IH] using node_induction; intros k.
  - cbn. rewrite Nat.sub_diag. split; [reflexivity | lia].
  - rewrite adopt_Element.
    assert (L : forall m, DOM.idsOf (fst (DOM.adoptAll cs m))
                          = seq m (snd (DOM.adoptAll cs m) - m)
                          /\ m <= snd (DOM.adoptAll cs m)).
    { induction IH as [|c r Hc _ IHr]; intros m; cbn [DOM.adoptAll].
      - cbn. rewrite Nat.sub_diag. split; [reflexivity | lia].
      - destruct (Hc m) as (H1 & H2). destruct (DOM.adopt c m) as (c', k1).
        cbn [fst snd] in H1, H2.
        destruct (IHr k1) as (H3 & H4). destruct (DOM.adoptAll r k1) as (r', k2).
        cbn [fst snd] in H3, H4 |- *. rewrite idsOf_cons, H1, H3. split; [|lia].
        replace (k2 - m) with ((k1 - m) + (k2 - k1)) by lia.
        rewrite seq_app. do 2 f_equal. lia. }
    destruct (L (S k)) as (H1 & H2). destruct (DOM.adoptAll cs (S k)) as (cs', k').
    cbn [fst snd] in H1, H2 |- *. cbn [DOM.ids]. fold (DOM.idsOf cs'). rewrite H1.
    split; [|lia]. replace (k' - k) with (S (k' - S k)) by lia. reflexivity.
Qed.

Lemma adoptAll_ids (ns : list node) :
  forall k, DOM.idsOf (fst (DOM.adoptAll ns k)) = seq k (snd (DOM.adoptAll ns k) - k)
            /\ k <= snd (DOM.adoptAll ns k).
Proof.
  induction ns as [|c r IH]; intros k; cbn [DOM.adoptAll].
  - cbn. rewrite Nat.sub_diag. split; [reflexivity | lia].
  - destruct (adopt_ids c k) as (H1 & H2). destruct (DOM.adopt c k) as (c', k1).
    cbn [fst snd] in H1, H2.
    destruct (IH k1) as (H3 & H4). destruct (DOM.adoptAll r k1) as (r', k2).
    cbn [fst snd] in H3, H4 |- *. rewrite idsOf_cons, H1, H3. split; [|lia].
    replace (k2 - k) with ((k1 - k) + (k2 - k1)) by lia.
    rewrite seq_app. do 2 f_equal. lia.
Qed.

Lemma setEditorHTML_identities_distinct (host : Host) (html : string) (a : App) :
  let a' := snd (setEditorHTML host html a) in
  NoDup (DOM.idsOf (writingEditor a')) /\
  (forall j, In j (DOM.idsOf (writingEditor a')) -> j < nextId a').
Proof.
  unfold setEditorHTML, modify. cbn [snd].
  destruct (adoptAll_ids (parseHTML host html) (nextId a)) as (H1 & H2).
  destruct (DOM.adoptAll (parseHTML host html) (nextId a)) as (nodes, next).
  cbn [fst snd] in H1, H2. cbn [writingEditor nextId set_nextId set_writingEditor].
  rewrite H1. split; [apply seq_NoDup|].
  intros j Hj. apply in_seq in Hj. lia.
Qed.

Lemma replaceWith_distinct (i : nat) (s : string) (n : node) :
  NoDup (DOM.ids n) -> NoDup (DOM.ids (DOM.replaceWith i (Text s) n)).
Proof.
  induction n as [d|j t cl ds cs IH] using node_induction; [auto|].
  cbn [DOM.replaceWith]. destruct (Nat.eqb i j); [constructor|].
  cbn [DOM.ids]. fold (DOM.idsOf cs).
  fold (DOM.idsOf (map (DOM.replaceWith i (Text s)) cs)).
  intros H. apply NoDup_cons_iff in H. destruct H as (Hj & Hnd).
  constructor.
  - intros K. apply replaceWith_ids_all in K. now apply Hj.
  - clear Hj. induction IH as [|c r Hc _ IHr]; [constructor|].
    cbn [map]. rewrite idsOf_cons in Hnd |- *.
    apply NoDup_app.
    + apply Hc. exact (NoDup_app_remove_r _ _ Hnd).
    + apply IHr. exact (NoDup_app_remove_l _ _ Hnd).
    + intros x Hx Hx'. apply replaceWith_ids in Hx. apply replaceWith_ids_all in Hx'.
      exact (NoDup_app_disjoint _ _ x Hnd (proj2 Hx) (proj2 Hx')).
Qed.

Lemma replaceWith_distinct_all (i : nat) (s : string) (ns : list node) :
  NoDup (DOM.idsOf ns) -> NoDup (DOM.idsOf (map (DOM.replaceWith i (Text s)) ns)).
Proof.
  induction ns as [|c r IH]; [auto|].
  cbn [map]. rewrite !idsOf_cons. intros Hnd. apply NoDup_app.
  - apply replaceWith_distinct. exact (NoDup_app_remove_r _ _ Hnd).
  - apply IH. exact (NoDup_app_remove_l _ _ Hnd).
  - intros x Hx Hx'. apply replaceWith_ids in Hx. apply replaceWith_ids_all in Hx'.
    exact (NoDup_app_disjoint _ _ x Hnd (proj2 Hx) (proj2 Hx')).
Qed.

Lemma resolving_keeps_identities_distinct (a : App) :
  NoDup (DOM.idsOf (writingEditor a)) ->
  NoDup (DOM.idsOf (writingEditor (snd (acceptSimilaritySuggestion a)))) /\
  NoDup (DOM.idsOf (writingEditor (snd (dismissSimilaritySuggestion a)))).
Proof.
  intros Hnd.
  unfold acceptSimilaritySuggestion, dismissSimilaritySuggestion, bind, resolveActive,
    hideSimilarityTooltip, modify. cbv beta iota. cbn [snd].
  destruct (activeSimilarityHighlight a) as [i|].
  - destruct (DOM.findIn i (writingEditor a)) as [e|];
      split; match goal with |- context [tooltip ?x] => destruct (tooltip x) end;
      cbn [writingEditor set_activeSimilarityHighlight set_tooltip set_writingEditor];
      rewrite normalizeChildren_ids; auto using replaceWith_distinct_all.
  - split; destruct (tooltip a); exact Hnd.
Qed.
